(** * Deployment pattern replicator: a shallow embedding and its properties

    The development follows the Python package [deployment_replicator]:
    the pattern detectors ([patterns/helm.py], [patterns/argocd.py]), the
    scanner ([scanner.py]), the template engine ([template_engine.py]), the
    applicator ([applicator.py]) and the [replicate] command ([cli.py]).

    The file system is a finite map from paths to nodes, exceptions are
    values of an error type, and functions that write thread the file system
    explicitly and keep the state reached when an exception is raised. *)

From Stdlib Require Import String Ascii ZArith Bool Lia.
From stdpp Require Import base option list gmap strings.

Set Warnings "-register-all".

Local Open Scope string_scope.
Local Open Scope list_scope.

(** ** Exceptions and results *)

Inductive exn :=
| AttributeError | TypeError | ValueError | KeyError
| YAMLError
| FileNotFoundError | IsADirectoryError | NotADirectoryError | FileExistsError
| TemplateSyntaxError
| OutsideModel.

Inductive result (A : Type) :=
| Ok (a : A)
| Raise (e : exn).
Arguments Ok {A} a.
Arguments Raise {A} e.

#[global] Instance result_ret : MRet result := fun A a => Ok a.

#[global] Instance result_bind : MBind result := fun A B k r =>
  match r with
  | Ok a => k a
  | Raise e => Raise e
  end.

Definition is_ok {A} (r : result A) : bool :=
  match r with Ok _ => true | Raise _ => false end.

(** ** Python strings *)

Module Py.

(** [s.startswith(p)] *)
Fixpoint startswith (s p : string) {struct p} : bool :=
  match p with
  | EmptyString => true
  | String c p' =>
      match s with
      | EmptyString => false
      | String d s' => Ascii.eqb c d && startswith s' p'
      end
  end.

(** [s.endswith(p)] *)
Definition endswith (s p : string) : bool :=
  let n := String.length s in
  let k := String.length p in
  (k <=? n)%nat && String.eqb (String.substring (n - k) k s) p.

(** [sub in s] *)
Fixpoint contains (s sub : string) : bool :=
  startswith s sub ||
  match s with
  | EmptyString => false
  | String _ s' => contains s' sub
  end.

(** [s.replace(old, '')] for a non-empty [old]: occurrences are removed from
    left to right, without overlap. *)
Fixpoint remove_all_fuel (fuel : nat) (old s : string) : string :=
  match fuel with
  | O => s
  | S fuel' =>
      match s with
      | EmptyString => EmptyString
      | String c s' =>
          if startswith s old
          then remove_all_fuel fuel' old
                 (String.substring (String.length old)
                    (String.length s - String.length old) s)
          else String c (remove_all_fuel fuel' old s')
      end
  end.

Definition remove_all (old s : string) : string :=
  remove_all_fuel (String.length s) old s.

(** [s.rfind('.')] *)
Fixpoint rfind_dot (s : string) (i : nat) (acc : option nat) : option nat :=
  match s with
  | EmptyString => acc
  | String c s' =>
      rfind_dot s' (S i) (if Ascii.eqb c "."%char then Some i else acc)
  end.

(** [str(n)] for an integer *)
Definition digit (n : nat) : ascii := ascii_of_nat (48 + n).

Fixpoint str_pos_fuel (fuel : nat) (n : N) (acc : string) : string :=
  match fuel with
  | O => acc
  | S fuel' =>
      let acc' := String (digit (N.to_nat (n mod 10))) acc in
      if (n / 10 =? 0)%N then acc' else str_pos_fuel fuel' (n / 10)%N acc'
  end.

Definition str_int (z : Z) : string :=
  match z with
  | Z0 => "0"
  | Zpos p => str_pos_fuel (Pos.to_nat p) (Npos p) ""
  | Zneg p => "-" ++ str_pos_fuel (Pos.to_nat p) (Npos p) ""
  end.

Definition str_bool (b : bool) : string := if b then "True" else "False".

End Py.

(** ** Paths ([pathlib.Path]) *)

(** A path is the list of its parts below the root [/]. *)
Abbreviation path := (list string).

Module PathLib.

(** [p / name] *)
Definition join (p : path) (name : string) : path := p ++ [name].

(** [p.name] *)
Definition name (p : path) : string := List.last p "".

(** [p.parent] *)
Definition parent (p : path) : path := List.removelast p.

(** [p.suffix]: the last dot of the name starts the suffix, unless it is the
    first or the last character of the name. *)
Definition suffix (p : path) : string :=
  let n := name p in
  match Py.rfind_dot n 0 None with
  | Some i =>
      if (0 <? i)%nat && (i <? String.length n - 1)%nat
      then String.substring i (String.length n - i) n
      else ""
  | None => ""
  end.

(** [p.stem] *)
Definition stem (p : path) : string :=
  let n := name p in
  match Py.rfind_dot n 0 None with
  | Some i =>
      if (0 <? i)%nat && (i <? String.length n - 1)%nat
      then String.substring 0 i n
      else n
  | None => n
  end.

(** [str(p)] *)
Definition str (p : path) : string :=
  match p with
  | [] => "/"
  | _ => String.concat "" (List.map (fun part => ("/" ++ part)%string) p)
  end.

(** The parts of a string used as a path: empty parts and [.] vanish. *)
Fixpoint split_on (sep : ascii) (s : string) (cur : string) : list string :=
  match s with
  | EmptyString => [cur]
  | String c s' =>
      if Ascii.eqb c sep then cur :: split_on sep s' ""
      else split_on sep s' (cur ++ String c "")%string
  end.

Definition parts (s : string) : list string :=
  List.filter (fun x => negb (String.eqb x "") && negb (String.eqb x "."))
    (split_on "/" s "").

(** [p / s] for a string [s] of any shape: an absolute [s] replaces [p]. *)
Definition joinstr (p : path) (s : string) : path :=
  if Py.startswith s "/" then parts s else p ++ parts s.

(** [q] lies strictly below [p] *)
Definition below (p q : path) : bool :=
  bool_decide (p `prefix_of` q) && negb (bool_decide (p = q)).

End PathLib.

(** ** Parsed YAML documents *)

(** The values [yaml.safe_load] builds: [None], booleans, integers, strings,
    lists and dictionaries (in insertion order). Floats and timestamps are
    left out: no detector or extractor looks inside a scalar that is not a
    string. *)
Inductive yaml :=
| YNull
| YBool (b : bool)
| YInt (z : Z)
| YStr (s : string)
| YSeq (xs : list yaml)
| YMap (kvs : list (yaml * yaml)).

Module Yaml.

Fixpoint eqb (a b : yaml) {struct a} : bool :=
  match a, b with
  | YNull, YNull => true
  | YBool x, YBool y => Bool.eqb x y
  | YInt x, YInt y => Z.eqb x y
  | YStr x, YStr y => String.eqb x y
  | YSeq xs, YSeq ys =>
      (fix go (xs ys : list yaml) : bool :=
         match xs, ys with
         | [], [] => true
         | x :: xs', y :: ys' => eqb x y && go xs' ys'
         | _, _ => false
         end) xs ys
  | YMap xs, YMap ys =>
      (fix go (xs ys : list (yaml * yaml)) : bool :=
         match xs, ys with
         | [], [] => true
         | (k1, v1) :: xs', (k2, v2) :: ys' =>
             eqb k1 k2 && eqb v1 v2 && go xs' ys'
         | _, _ => false
         end) xs ys
  | _, _ => false
  end.

(** [bool(y)] *)
Definition truthy (y : yaml) : bool :=
  match y with
  | YNull => false
  | YBool b => b
  | YInt z => negb (Z.eqb z 0)
  | YStr s => negb (String.eqb s "")
  | YSeq xs => match xs with [] => false | _ => true end
  | YMap kvs => match kvs with [] => false | _ => true end
  end.

(** [y or {}] *)
Definition or_empty (y : yaml) : yaml := if truthy y then y else YMap [].

(** Dictionary lookup with a string key. *)
Fixpoint lookup (kvs : list (yaml * yaml)) (k : string) : option yaml :=
  match kvs with
  | [] => None
  | (YStr k', v) :: kvs' => if String.eqb k' k then Some v else lookup kvs' k
  | _ :: kvs' => lookup kvs' k
  end.

(** [d.get(k, dflt)]: only dictionaries have [get]. *)
Definition get (d : yaml) (k : string) (dflt : yaml) : result yaml :=
  match d with
  | YMap kvs => Ok (default dflt (lookup kvs k))
  | _ => Raise AttributeError
  end.

(** [k in d] for a string [k]: keys of a dictionary, elements of a list,
    substrings of a string; other values are not containers. *)
Definition has (d : yaml) (k : string) : result bool :=
  match d with
  | YMap kvs => Ok (bool_decide (is_Some (lookup kvs k)))
  | YSeq xs => Ok (existsb (fun x => eqb x (YStr k)) xs)
  | YStr s => Ok (Py.contains s k)
  | _ => Raise TypeError
  end.

(** [d[k]] for a string [k] *)
Definition item (d : yaml) (k : string) : result yaml :=
  match d with
  | YMap kvs =>
      match lookup kvs k with
      | Some v => Ok v
      | None => Raise KeyError
      end
  | _ => Raise TypeError
  end.

End Yaml.

(** ** The file system *)

Inductive node :=
| File (content : string)
| Dir.

#[global] Instance node_eq_dec : EqDecision node.
Proof. solve_decision. Defined.

(** A file system maps the paths that exist to what is there. *)
Abbreviation fs := (gmap path node).

Module FS.

(** The root is a directory. *)
Definition node_at (m : fs) (p : path) : option node :=
  match p with
  | [] => Some Dir
  | _ => m !! p
  end.

(** [p.exists()] *)
Definition exists_ (m : fs) (p : path) : bool :=
  bool_decide (is_Some (node_at m p)).

(** [p.is_dir()] *)
Definition is_dir (m : fs) (p : path) : bool :=
  bool_decide (node_at m p = Some Dir).

(** [p.is_file()] *)
Definition is_file (m : fs) (p : path) : bool :=
  match node_at m p with
  | Some (File _) => true
  | _ => false
  end.

(** [open(p, 'r').read()], [p.read_text()] *)
Definition read_text (m : fs) (p : path) : result string :=
  match node_at m p with
  | Some (File s) => Ok s
  | Some Dir => Raise IsADirectoryError
  | None => Raise FileNotFoundError
  end.

(** The paths that exist and satisfy [P], in the order the map lists
    them. *)
Definition select (m : fs) (P : path -> bool) : list path :=
  (map_to_list (filter (fun kv => Is_true (P (fst kv))) m)).*1.

(** [q] is an entry of the directory [d] *)
Definition entry_of (d q : path) : bool :=
  bool_decide (PathLib.parent q = d) && negb (bool_decide (q = [])).

(** [d.iterdir()]: the entries are listed when the call is made, before the
    loop over them runs. *)
Definition iterdir (m : fs) (d : path) : result (list path) :=
  match node_at m d with
  | Some Dir => Ok (select m (entry_of d))
  | Some (File _) => Raise NotADirectoryError
  | None => Raise FileNotFoundError
  end.

(** [d.glob(pattern)] for a pattern on the name: nothing when [d] is not a
    directory. *)
Definition glob (m : fs) (d : path) (matches : string -> bool) : list path :=
  if is_dir m d
  then select m (fun q => entry_of d q && matches (PathLib.name q))
  else [].

(** [d.rglob(pattern)] for a pattern on the name: every path below [d],
    at any depth, whose name matches. *)
Definition rglob (m : fs) (d : path) (matches : string -> bool) : list path :=
  if is_dir m d
  then select m (fun q => PathLib.below d q && matches (PathLib.name q))
  else [].

(** [p.mkdir(parents=True, exist_ok=True)]: the missing directories on the
    way to [p] are created; a file on the way is an error, [FileExistsError]
    at [p] itself and [NotADirectoryError] above it. *)
Fixpoint mkdir_from (m : fs) (done todo : path) : fs * result unit :=
  match todo with
  | [] => (m, Ok tt)
  | part :: todo' =>
      let q := done ++ [part] in
      match m !! q with
      | Some Dir => mkdir_from m q todo'
      | Some (File _) =>
          (m, Raise match todo' with
                    | [] => FileExistsError
                    | _ => NotADirectoryError
                    end)
      | None => mkdir_from (<[q := Dir]> m) q todo'
      end
  end.

Definition mkdir_p (p : path) (m : fs) : fs * result unit :=
  mkdir_from m [] p.

(** [p.write_text(content)], [p.write_bytes(content)] *)
Definition write_text (p : path) (content : string) (m : fs)
  : fs * result unit :=
  match node_at m p with
  | Some Dir => (m, Raise IsADirectoryError)
  | _ =>
      match node_at m (PathLib.parent p) with
      | Some Dir => (<[p := File content]> m, Ok tt)
      | Some (File _) => (m, Raise NotADirectoryError)
      | None => (m, Raise FileNotFoundError)
      end
  end.

End FS.

(** ** Computations on the file system

    A computation takes the file system and returns the file system it
    leaves with its result; after [Raise] the file system is the one reached
    when the exception was raised. *)

Definition io (A : Type) : Type := fs -> fs * result A.

Definition io_ret {A} (a : A) : io A := fun m => (m, Ok a).

Definition io_bind {A B} (c : io A) (k : A -> io B) : io B := fun m =>
  match c m with
  | (m', Ok a) => k a m'
  | (m', Raise e) => (m', Raise e)
  end.

(** A computation that only reads. *)
Definition io_read {A} (f : fs -> result A) : io A := fun m => (m, f m).

Notation "'let*' x ':=' c 'in' k" := (io_bind c (fun x => k))
  (at level 10, x name, c at level 100, k at level 200).

(** A [for] loop that collects the results its body produces. *)
Fixpoint for_each {A R} (xs : list A) (body : A -> io (option R))
  : io (list R) :=
  match xs with
  | [] => io_ret []
  | x :: xs' =>
      let* r := body x in
      let* rs := for_each xs' body in
      io_ret match r with
             | Some r => r :: rs
             | None => rs
             end
  end.

(** A [for] loop run for its effects. *)
Fixpoint for_each_ {A} (xs : list A) (body : A -> io unit) : io unit :=
  match xs with
  | [] => io_ret tt
  | x :: xs' => let* _ := body x in for_each_ xs' body
  end.

(** ** Templates ([jinja2.Template], [render])

    The package renders every template with a default [jinja2] environment:
    the delimiters are the standard ones, blocks are neither trimmed nor
    stripped, one trailing newline of the source is dropped, and an
    undefined name is an [Undefined] value, which prints as the empty
    string. The model covers the constructs the package's templates use:
    text, [{{ e }}] and [{% if e %} ... {% endif %}], with names, string and
    integer literals, [true]/[false]/[none], the [default] filter and [==].
    Whatever lies outside answers [OutsideModel]; [TemplateSyntaxError] is
    answered only where jinja2 raises it. *)

Module Jinja.

Inductive value :=
| JStr (s : string)
| JInt (z : Z)
| JBool (b : bool)
| JNone
| JUndefined.

Inductive token :=
| TName (s : string)
| TStr (s : string)
| TInt (z : Z)
| TPipe | TLParen | TRParen | TComma | TEqEq
| TOther.

Inductive expr :=
| EConst (v : value)
| EName (x : string)
| EDefault (e : expr) (d : option expr)
| EEq (a b : expr).

(** What one tag contributes, before blocks are nested. *)
Inductive item :=
| IText (s : string)
| IPrint (e : expr)
| IIf (e : expr)
| IEndif.

Inductive tnode :=
| NText (s : string)
| NPrint (e : expr)
| NIf (e : expr) (body : list tnode).

(** *** Lexing the inside of a tag *)

Definition code (c : ascii) : nat := nat_of_ascii c.

Definition is_space (c : ascii) : bool :=
  let n := code c in
  ((n =? 32) || ((9 <=? n) && (n <=? 13)))%nat.

Definition is_digit (c : ascii) : bool :=
  let n := code c in ((48 <=? n) && (n <=? 57))%nat.

Definition is_name_start (c : ascii) : bool :=
  let n := code c in
  (((97 <=? n) && (n <=? 122)) || ((65 <=? n) && (n <=? 90)) || (n =? 95))%nat.

Definition is_name_char (c : ascii) : bool := is_name_start c || is_digit c.

(** The operator characters of the tag grammar that stand for constructs
    outside the model. *)
Definition is_other_operator (c : ascii) : bool :=
  existsb (Ascii.eqb c)
    ["+"; "-"; "/"; "*"; "%"; "~"; "["; "]"; "{"; "}"; "="; "!"; ">"; "<";
     "."; ":"; ";"]%char.

Inductive pending :=
| PNone
| PName (acc : string)
| PInt (acc : string)
| PStr (quote : ascii) (acc : string).

Definition snoc (s : string) (c : ascii) : string := s ++ String c "".

Definition int_of_digits (s : string) : Z :=
  fold_left (fun z c => (10 * z + Z.of_nat (code c - 48))%Z)
    (list_ascii_of_string s) 0%Z.

(** A name or a number ends at the first character that cannot extend it. *)
Definition flush (p : pending) (next : ascii) (toks : list token)
  : result (list token) :=
  match p with
  | PNone => Ok toks
  | PName acc => Ok (TName acc :: toks)
  | PInt acc =>
      if is_name_start next || Ascii.eqb next "."%char
         || (Py.startswith acc "0" && (1 <? String.length acc)%nat)
      then Raise OutsideModel
      else Ok (TInt (int_of_digits acc) :: toks)
  | PStr _ _ => Raise OutsideModel
  end.

Definition depth (toks : list token) : Z :=
  fold_left (fun d t => match t with
                        | TLParen => (d + 1)%Z
                        | TRParen => (d - 1)%Z
                        | _ => d
                        end) toks 0%Z.

(** [lex_tag close p toks s] reads the inside of a tag up to its end
    delimiter, [close] followed by a closing brace, and returns the tokens
    and the source after the tag. A source that ends inside the tag is a
    syntax error. *)
Fixpoint lex_tag (close : ascii) (p : pending) (toks : list token)
    (s : string) {struct s} : result (list token * string) :=
  match s with
  | EmptyString => Raise TemplateSyntaxError
  | String c s' =>
      match p with
      | PStr q acc =>
          if Ascii.eqb c q then lex_tag close PNone (TStr acc :: toks) s'
          else if Ascii.eqb c "\"%char then Raise OutsideModel
          else lex_tag close (PStr q (snoc acc c)) toks s'
      | _ =>
          if match p with
             | PName _ => is_name_char c
             | PInt _ => is_digit c
             | _ => false
             end
          then lex_tag close
                 match p with
                 | PName acc => PName (snoc acc c)
                 | PInt acc => PInt (snoc acc c)
                 | _ => p
                 end toks s'
          else
            match flush p c toks with
            | Raise e => Raise e
            | Ok toks1 =>
                if is_space c then lex_tag close PNone toks1 s'
                else if is_name_start c
                then lex_tag close (PName (String c "")) toks1 s'
                else if is_digit c
                then lex_tag close (PInt (String c "")) toks1 s'
                else if Ascii.eqb c "'"%char || Ascii.eqb c "034"%char
                then lex_tag close (PStr c "") toks1 s'
                else if Ascii.eqb c close
                        && Py.startswith s' "}" && (depth toks1 =? 0)%Z
                then Ok (rev toks1, String.substring 1 (String.length s' - 1) s')
                else if Ascii.eqb c "="%char && Py.startswith s' "="
                then match s' with
                     | String _ s'' => lex_tag close PNone (TEqEq :: toks1) s''
                     | EmptyString => Raise TemplateSyntaxError
                     end
                else if Ascii.eqb c "|"%char
                then lex_tag close PNone (TPipe :: toks1) s'
                else if Ascii.eqb c "("%char
                then lex_tag close PNone (TLParen :: toks1) s'
                else if Ascii.eqb c ")"%char
                then lex_tag close PNone (TRParen :: toks1) s'
                else if Ascii.eqb c ","%char
                then lex_tag close PNone (TComma :: toks1) s'
                else if is_other_operator c
                then lex_tag close PNone (TOther :: toks1) s'
                else Raise OutsideModel
            end
      end
  end.

(** *** Parsing the tokens of a tag *)

Definition is_keyword (x : string) : bool :=
  existsb (String.eqb x)
    ["not"; "and"; "or"; "if"; "else"; "elif"; "in"; "is"; "for";
     "recursive"; "endif"; "endfor"].

Definition parse_primary (ts : list token) : result (expr * list token) :=
  match ts with
  | TName x :: ts' =>
      if is_keyword x then Raise OutsideModel
      else if String.eqb x "true" || String.eqb x "True"
      then Ok (EConst (JBool true), ts')
      else if String.eqb x "false" || String.eqb x "False"
      then Ok (EConst (JBool false), ts')
      else if String.eqb x "none" || String.eqb x "None"
      then Ok (EConst JNone, ts')
      else Ok (EName x, ts')
  | TStr _ :: TStr _ :: _ => Raise OutsideModel
  | TStr s :: ts' => Ok (EConst (JStr s), ts')
  | TInt z :: ts' => Ok (EConst (JInt z), ts')
  | _ => Raise OutsideModel
  end.

(** The argument list of [default]: nothing, [()] or one primary. *)
Definition parse_default_args (ts : list token)
  : result (option expr * list token) :=
  match ts with
  | TLParen :: TRParen :: ts' => Ok (None, ts')
  | TLParen :: ts1 =>
      '(d, ts2) ← parse_primary ts1;
      match ts2 with
      | TRParen :: ts' => Ok (Some d, ts')
      | _ => Raise OutsideModel
      end
  | _ => Ok (None, ts)
  end.

Fixpoint parse_filters (fuel : nat) (e : expr) (ts : list token)
  : result (expr * list token) :=
  match fuel with
  | O => Raise OutsideModel
  | S fuel' =>
      match ts with
      | TPipe :: TName f :: ts1 =>
          if String.eqb f "default" || String.eqb f "d"
          then '(d, ts2) ← parse_default_args ts1;
               parse_filters fuel' (EDefault e d) ts2
          else Raise OutsideModel
      | TPipe :: _ => Raise OutsideModel
      | _ => Ok (e, ts)
      end
  end.

(** A primary with its filters; calls, attributes and subscripts are
    outside the model. *)
Definition parse_unary (ts : list token) : result (expr * list token) :=
  '(e, ts1) ← parse_primary ts;
  match ts1 with
  | TLParen :: _ | TOther :: _ => Raise OutsideModel
  | _ => parse_filters (S (length ts1)) e ts1
  end.

(** An expression up to the end of its tag. A literal that follows a
    complete expression is where jinja2 reports the syntax error "expected
    token 'end of print statement'". *)
Definition after_expr (e : expr) (ts : list token) : result expr :=
  match ts with
  | [] => Ok e
  | TStr _ :: _ | TInt _ :: _ => Raise TemplateSyntaxError
  | _ => Raise OutsideModel
  end.

Definition parse_expr (ts : list token) : result expr :=
  '(a, ts1) ← parse_unary ts;
  match ts1 with
  | TEqEq :: ts2 =>
      '(b, ts3) ← parse_unary ts2;
      after_expr (EEq a b) ts3
  | _ => after_expr a ts1
  end.

Definition parse_block (ts : list token) : result item :=
  match ts with
  | [TName "endif"] => Ok IEndif
  | TName "if" :: ts' => e ← parse_expr ts'; Ok (IIf e)
  | _ => Raise OutsideModel
  end.

(** *** Splitting a source into text and tags *)

Definition has_sign (s : string) : bool :=
  Py.startswith s "-" || Py.startswith s "+".

Fixpoint items_fuel (fuel : nat) (text : string) (s : string)
  : result (list item) :=
  match fuel with
  | O => Raise OutsideModel
  | S fuel' =>
      match s with
      | EmptyString => Ok [IText text]
      | String "{" (String "{" s'') =>
          if has_sign s'' then Raise OutsideModel
          else '(ts, rest) ← lex_tag "}" PNone [] s'';
               e ← parse_expr ts;
               its ← items_fuel fuel' "" rest;
               Ok (IText text :: IPrint e :: its)
      | String "{" (String "%" s'') =>
          if has_sign s'' then Raise OutsideModel
          else '(ts, rest) ← lex_tag "%" PNone [] s'';
               it ← parse_block ts;
               its ← items_fuel fuel' "" rest;
               Ok (IText text :: it :: its)
      | String "{" (String "#" _) => Raise OutsideModel
      | String c s' => items_fuel fuel' (snoc text c) s'
      end
  end.

(** Lines end in a line feed, and one trailing line end is dropped. *)
Fixpoint normalize (s : string) : string :=
  match s with
  | EmptyString => EmptyString
  | String c s' =>
      if Ascii.eqb c "013"%char
      then match s' with
           | EmptyString => EmptyString
           | String c' s'' =>
               if Ascii.eqb c' "010"%char
               then match s'' with
                    | EmptyString => EmptyString
                    | _ => String "010" (normalize s'')
                    end
               else String "010" (normalize s')
           end
      else if Ascii.eqb c "010"%char
      then match s' with
           | EmptyString => EmptyString
           | _ => String "010" (normalize s')
           end
      else String c (normalize s')
  end.

(** *** Nesting the blocks *)

Fixpoint nest (fuel : nat) (its : list item) (inside : bool)
  : result (list tnode * list item) :=
  match fuel with
  | O => Raise OutsideModel
  | S fuel' =>
      match its with
      | [] => if inside then Raise TemplateSyntaxError else Ok ([], [])
      | IText s :: its' =>
          '(ns, rest) ← nest fuel' its' inside; Ok (NText s :: ns, rest)
      | IPrint e :: its' =>
          '(ns, rest) ← nest fuel' its' inside; Ok (NPrint e :: ns, rest)
      | IIf e :: its' =>
          '(body, rest) ← nest fuel' its' true;
          '(ns, rest') ← nest fuel' rest inside;
          Ok (NIf e body :: ns, rest')
      | IEndif :: its' =>
          if inside then Ok ([], its') else Raise TemplateSyntaxError
      end
  end.

(** [Template(source)] *)
Definition compile (source : string) : result (list tnode) :=
  let s := normalize source in
  its ← items_fuel (S (String.length s)) "" s;
  '(ns, _) ← nest (S (length its)) its false;
  Ok ns.

(** *** Rendering *)

(** Names the environment binds by itself. *)
Definition is_global (x : string) : bool :=
  existsb (String.eqb x)
    ["range"; "dict"; "lipsum"; "cycler"; "joiner"; "namespace"; "self";
     "loop"; "super"; "caller"; "varargs"; "kwargs"].

Definition resolve (vars : gmap string value) (x : string) : result value :=
  match vars !! x with
  | Some v => Ok v
  | None => if is_global x then Raise OutsideModel else Ok JUndefined
  end.

(** [a == b] *)
Definition value_eqb (a b : value) : bool :=
  match a, b with
  | JStr x, JStr y => String.eqb x y
  | JInt x, JInt y => Z.eqb x y
  | JBool x, JBool y => Bool.eqb x y
  | JInt x, JBool y | JBool y, JInt x => Z.eqb x (if y then 1 else 0)
  | JNone, JNone => true
  | JUndefined, JUndefined => true
  | _, _ => false
  end.

Fixpoint eval (vars : gmap string value) (e : expr) : result value :=
  match e with
  | EConst v => Ok v
  | EName x => resolve vars x
  | EDefault e d =>
      v ← eval vars e;
      dv ← match d with
           | Some d => eval vars d
           | None => Ok (JStr "")
           end;
      Ok match v with JUndefined => dv | _ => v end
  | EEq a b =>
      x ← eval vars a;
      y ← eval vars b;
      Ok (JBool (value_eqb x y))
  end.

(** [str(v)]; an undefined value prints as nothing. *)
Definition to_str (v : value) : string :=
  match v with
  | JStr s => s
  | JInt z => Py.str_int z
  | JBool b => Py.str_bool b
  | JNone => "None"
  | JUndefined => ""
  end.

Definition truthy (v : value) : bool :=
  match v with
  | JStr s => negb (String.eqb s "")
  | JInt z => negb (Z.eqb z 0)
  | JBool b => b
  | JNone | JUndefined => false
  end.

(** The outputs of the nodes, concatenated; the first error stops. *)
Fixpoint concat_outputs {A} (f : A -> result string) (xs : list A)
  : result string :=
  match xs with
  | [] => Ok ""
  | x :: xs' =>
      match f x with
      | Raise e => Raise e
      | Ok s =>
          match concat_outputs f xs' with
          | Raise e => Raise e
          | Ok r => Ok (s ++ r)%string
          end
      end
  end.

Fixpoint render_node (vars : gmap string value) (n : tnode)
  : result string :=
  match n with
  | NText s => Ok s
  | NPrint e =>
      match eval vars e with
      | Raise e => Raise e
      | Ok v => Ok (to_str v)
      end
  | NIf e body =>
      match eval vars e with
      | Raise e => Raise e
      | Ok v =>
          if truthy v then concat_outputs (render_node vars) body else Ok ""
      end
  end.

Definition render_nodes (vars : gmap string value) (ns : list tnode)
  : result string :=
  concat_outputs (render_node vars) ns.

(** [Template(source).render] with the variables as keyword arguments *)
Definition render (source : string) (vars : gmap string value)
  : result string :=
  ns ← compile source;
  render_nodes vars ns.

End Jinja.

(** ** The template engine ([template_engine.py]) *)

Module TemplateEngine.

(** The template bodies below are written with a backquote wherever the
    Python source has a double quote; [dq] puts the double quotes back. *)
Fixpoint dq (s : string) : string :=
  match s with
  | EmptyString => EmptyString
  | String c s' => String (if Ascii.eqb c "`"%char then "034"%char else c) (dq s')
  end.

Definition chart_template : string := dq
"apiVersion: v2
name: {{ app_name }}
description: A Helm chart for {{ app_name }}
type: application
version: {{ chart_version | default(`0.1.0`) }}
appVersion: {{ app_version | default(`1.0.0`) }}
".

Definition values_template : string := dq
"# Default values for {{ app_name }}
replicaCount: {{ replica_count | default(1) }}

image:
  repository: {{ image_repository | default(`nginx`) }}
  pullPolicy: {{ pull_policy | default(`IfNotPresent`) }}
  tag: {{ image_tag | default(`latest`) }}

service:
  type: {{ service_type | default(`ClusterIP`) }}
  port: {{ service_port | default(80) }}

ingress:
  enabled: {{ ingress_enabled | default(false) }}
  className: {{ ingress_class | default(`nginx`) }}
  hosts:
    - host: {{ app_name }}.local
      paths:
        - path: /
          pathType: Prefix

resources:
  limits:
    cpu: {{ cpu_limit | default(`100m`) }}
    memory: {{ memory_limit | default(`128Mi`) }}
  requests:
    cpu: {{ cpu_request | default(`100m`) }}
    memory: {{ memory_request | default(`128Mi`) }}
".

Definition deployment_template : string := dq
"apiVersion: apps/v1
kind: Deployment
metadata:
  name: {{ include `{{ app_name }}.fullname` . }}
  labels:
    {{- include `{{ app_name }}.labels` . | nindent 4 }}
spec:
  replicas: {{ .Values.replicaCount }}
  selector:
    matchLabels:
      {{- include `{{ app_name }}.selectorLabels` . | nindent 6 }}
  template:
    metadata:
      labels:
        {{- include `{{ app_name }}.selectorLabels` . | nindent 8 }}
    spec:
      containers:
        - name: {{ .Chart.Name }}
          image: `{{ .Values.image.repository }}:{{ .Values.image.tag | default .Chart.AppVersion }}`
          imagePullPolicy: {{ .Values.image.pullPolicy }}
          ports:
            - name: http
              containerPort: {{ .Values.service.port }}
              protocol: TCP
          resources:
            {{- toYaml .Values.resources | nindent 12 }}
".

Definition app_template : string := dq
"apiVersion: argoproj.io/v1alpha1
kind: Application
metadata:
  name: {{ app_name }}
  namespace: {{ argocd_namespace | default(`argocd`) }}
  finalizers:
    - resources-finalizer.argocd.argoproj.io
spec:
  project: {{ project | default(`default`) }}
  source:
    repoURL: {{ repo_url }}
    targetRevision: {{ target_revision | default(`HEAD`) }}
    path: {{ source_path }}
    {% if source_type == `helm` %}
    helm:
      releaseName: {{ app_name }}
      valueFiles:
        - values.yaml
    {% endif %}
  destination:
    server: {{ dest_server | default(`https://kubernetes.default.svc`) }}
    namespace: {{ dest_namespace | default(app_name) }}
  syncPolicy:
    automated:
      prune: {{ auto_prune | default(true) }}
      selfHeal: {{ self_heal | default(true) }}
    syncOptions:
      - CreateNamespace=true
".

End TemplateEngine.

(** ** Patterns *)

(** The dictionaries the detectors build. A chart pattern has the keys
    [type], [name], [path], [version], [configs] and, when the chart has a
    [templates] directory, [template_count]; an application pattern has
    [type], [name], [path], [configs] and [source_type]. *)
Inductive pattern :=
| HelmPattern (name : yaml) (dir : path) (version : yaml)
    (configs : list path) (template_count : option nat)
| ArgoPattern (name : yaml) (dir : path) (configs : list path)
    (source_type : string).

(** [p == q] on patterns *)
Definition pattern_eqb (p q : pattern) : bool :=
  match p, q with
  | HelmPattern n d v c t, HelmPattern n' d' v' c' t' =>
      Yaml.eqb n n' && bool_decide (d = d') && Yaml.eqb v v'
      && bool_decide (c = c') && bool_decide (t = t')
  | ArgoPattern n d c st, ArgoPattern n' d' c' st' =>
      Yaml.eqb n n' && bool_decide (d = d') && bool_decide (c = c')
      && String.eqb st st'
  | _, _ => false
  end.

(** [pattern['type']] *)
Definition ptype (p : pattern) : string :=
  match p with
  | HelmPattern _ _ _ _ _ => "helm"
  | ArgoPattern _ _ _ _ => "argocd"
  end.

(** [pattern['name']] *)
Definition pname (p : pattern) : yaml :=
  match p with
  | HelmPattern n _ _ _ _ | ArgoPattern n _ _ _ => n
  end.

(** [pattern['path']] *)
Definition ppath (p : pattern) : path :=
  match p with
  | HelmPattern _ d _ _ _ | ArgoPattern _ d _ _ => d
  end.

(** [pattern['configs']] *)
Definition pconfigs (p : pattern) : list path :=
  match p with
  | HelmPattern _ _ _ c _ | ArgoPattern _ _ c _ => c
  end.

(** A line printed by a detector when the analysis of a file fails. *)
Inductive diagnostic :=
| HelmError (chart_dir : path) (e : exn)
| ArgoError (app_file : path) (e : exn).

Section Replicator.

(** [yaml.safe_load] on the text of a file; [None] when it raises. *)
Variable safe_load : string -> option yaml.

(** [GitHelper.get_remote_url]: the URL of the remote of a repository, when
    it has one. *)
Variable get_remote_url : path -> option string.

Definition load (text : string) : result yaml :=
  match safe_load text with
  | Some doc => Ok doc
  | None => Raise YAMLError
  end.

(** [yaml.safe_load(f) or {}] on an opened file *)
Definition load_file (m : fs) (file : path) : result yaml :=
  text ← FS.read_text m file;
  doc ← load text;
  Ok (Yaml.or_empty doc).

(** *** Charts ([patterns/helm.py]) *)

(** The body of the [try] of [_analyze_helm_chart]. *)
Definition analyze_helm_chart_try (m : fs) (chart_dir : path)
  : result pattern :=
  chart_data ← load_file m (PathLib.join chart_dir "Chart.yaml");
  name ← Yaml.get chart_data "name" (YStr (PathLib.name chart_dir));
  version ← Yaml.get chart_data "version" (YStr "0.1.0");
  let values_file := PathLib.join chart_dir "values.yaml" in
  let configs := if FS.exists_ m values_file then [values_file] else [] in
  let templates_dir := PathLib.join chart_dir "templates" in
  let template_count :=
    if FS.exists_ m templates_dir
    then Some (length (FS.glob m templates_dir
                         (fun n => Py.endswith n ".yaml")))
    else None in
  Ok (HelmPattern name chart_dir version configs template_count).

Definition _analyze_helm_chart (m : fs) (chart_dir : path)
  : option pattern * list diagnostic :=
  match analyze_helm_chart_try m chart_dir with
  | Ok p => (Some p, [])
  | Raise e => (None, [HelmError chart_dir e])
  end.

(** Hidden directories and common excludes, on the parts of the whole path. *)
Definition excluded (file : path) : bool :=
  existsb (fun part => Py.startswith part ".") file
  || existsb (String.eqb "node_modules") file
  || existsb (String.eqb "vendor") file.

Fixpoint helm_detect_loop (m : fs) (chart_files : list path)
  : list pattern * list diagnostic :=
  match chart_files with
  | [] => ([], [])
  | chart_file :: rest =>
      let '(ps, ds) := helm_detect_loop m rest in
      if excluded chart_file then (ps, ds)
      else
        match _analyze_helm_chart m (PathLib.parent chart_file) with
        | (Some p, d) => (p :: ps, d ++ ds)
        | (None, d) => (ps, d ++ ds)
        end
  end.

(** [HelmPatternDetector.detect] *)
Definition helm_detect (m : fs) (repo_path : path)
  : list pattern * list diagnostic :=
  helm_detect_loop m (FS.rglob m repo_path (String.eqb "Chart.yaml")).

(** *** Applications ([patterns/argocd.py]) *)

(** [s.startswith(p)] on a value: only strings have it. *)
Definition value_startswith (v : yaml) (p : string) : result bool :=
  match v with
  | YStr s => Ok (Py.startswith s p)
  | _ => Raise AttributeError
  end.

(** The test of [_is_argocd_app] on a loaded document. *)
Definition classify (data : yaml) : result bool :=
  api ← Yaml.get data "apiVersion" (YStr "");
  b ← value_startswith api "argoproj.io/";
  if b : bool
  then kind ← Yaml.get data "kind" YNull;
       Ok (Yaml.eqb kind (YStr "Application"))
  else Ok false.

(** The body of the [try] of [_is_argocd_app]. *)
Definition is_argocd_app_try (m : fs) (file_path : path) : result bool :=
  data ← load_file m file_path;
  classify data.

Definition _is_argocd_app (m : fs) (file_path : path) : bool :=
  match is_argocd_app_try m file_path with
  | Ok b => b
  | Raise _ => false
  end.

(** The body of the [try] of [_analyze_argocd_app]. *)
Definition analyze_argocd_app_try (m : fs) (app_file : path)
  : result pattern :=
  app_data ← load_file m app_file;
  metadata ← Yaml.get app_data "metadata" (YMap []);
  spec ← Yaml.get app_data "spec" (YMap []);
  name ← Yaml.get metadata "name" (YStr (PathLib.stem app_file));
  source ← Yaml.get spec "source" (YMap []);
  helm ← Yaml.has source "helm";
  Ok (ArgoPattern name (PathLib.parent app_file) [app_file]
        (if helm : bool then "helm" else "kustomize")).

Definition _analyze_argocd_app (m : fs) (app_file : path)
  : option pattern * list diagnostic :=
  match analyze_argocd_app_try m app_file with
  | Ok p => (Some p, [])
  | Raise e => (None, [ArgoError app_file e])
  end.

Fixpoint scan_argocd_loop (m : fs) (yaml_files : list path)
  : list pattern * list diagnostic :=
  match yaml_files with
  | [] => ([], [])
  | yaml_file :: rest =>
      let '(ps, ds) := scan_argocd_loop m rest in
      if _is_argocd_app m yaml_file
      then match _analyze_argocd_app m yaml_file with
           | (Some p, d) => (p :: ps, d ++ ds)
           | (None, d) => (ps, d ++ ds)
           end
      else (ps, ds)
  end.

(** [_scan_argocd_directory] *)
Definition _scan_argocd_directory (m : fs) (argocd_dir : path)
  : list pattern * list diagnostic :=
  scan_argocd_loop m (FS.glob m argocd_dir (fun n => Py.endswith n ".yaml")).

Definition argocd_paths : list path :=
  [["argocd"]; ["argo-cd"]; ["deployments"; "argocd"]; ["k8s"; "argocd"];
   [".argocd"]].

Fixpoint argocd_dirs_loop (m : fs) (repo_path : path) (subdirs : list path)
  : list pattern * list diagnostic :=
  match subdirs with
  | [] => ([], [])
  | argocd_path :: rest =>
      let full_path := repo_path ++ argocd_path in
      let '(ps, ds) :=
        if FS.exists_ m full_path && FS.is_dir m full_path
        then _scan_argocd_directory m full_path
        else ([], []) in
      let '(ps', ds') := argocd_dirs_loop m repo_path rest in
      (ps ++ ps', ds ++ ds')
  end.

(** [*application*.yaml] *)
Definition application_yaml (n : string) : bool :=
  Py.endswith n ".yaml"
  && Py.contains (String.substring 0 (String.length n - 5) n) "application".

(** The second loop of [detect]: a pattern is added unless an equal one is
    already in the list. *)
Fixpoint argocd_files_loop (m : fs) (app_files : list path)
    (acc : list pattern * list diagnostic) : list pattern * list diagnostic :=
  match app_files with
  | [] => acc
  | app_file :: rest =>
      let '(ps, ds) := acc in
      argocd_files_loop m rest
        (if _is_argocd_app m app_file
         then match _analyze_argocd_app m app_file with
              | (Some p, d) =>
                  if existsb (pattern_eqb p) ps then (ps, ds ++ d)
                  else (ps ++ [p], ds ++ d)
              | (None, d) => (ps, ds ++ d)
              end
         else (ps, ds))
  end.

(** [ArgoCDPatternDetector.detect] *)
Definition argocd_detect (m : fs) (repo_path : path)
  : list pattern * list diagnostic :=
  argocd_files_loop m (FS.rglob m repo_path application_yaml)
    (argocd_dirs_loop m repo_path argocd_paths).

(** *** The scanner ([scanner.py]) *)

(** [DeploymentScanner.scan_repository], with the lines its detectors
    print. *)
Definition scan_repository (m : fs) (repo_path : path)
  : list pattern * list diagnostic :=
  let '(hs, hd) := helm_detect m repo_path in
  let '(as_, ad) := argocd_detect m repo_path in
  (hs ++ as_, hd ++ ad).


(** *** Parameters of a chart ([DeploymentScanner._extract_helm_parameters]) *)

(** Keys of a dictionary are compared with [==]: [True] is [1] and [False]
    is [0]. *)
Definition key_eqb (a b : yaml) : bool :=
  match a, b with
  | YBool x, YInt z | YInt z, YBool x => Z.eqb z (if x then 1 else 0)
  | _, _ => Yaml.eqb a b
  end.

(** [d[k] = v] *)
Fixpoint dict_set (d : list (yaml * yaml)) (k v : yaml)
  : list (yaml * yaml) :=
  match d with
  | [] => [(k, v)]
  | (k', v') :: d' =>
      if key_eqb k' k then (k', v) :: d' else (k', v') :: dict_set d' k v
  end.

Definition hashable (y : yaml) : bool :=
  match y with
  | YSeq _ | YMap _ => false
  | _ => true
  end.

(** An element of a sequence given to [dict.update] is read as a pair. *)
Definition pair_of_item (it : yaml) : result (yaml * yaml) :=
  match it with
  | YSeq [k; v] => Ok (k, v)
  | YSeq _ => Raise ValueError
  | YStr (String a (String b EmptyString)) =>
      Ok (YStr (String a ""), YStr (String b ""))
  | YStr _ => Raise ValueError
  | YMap [(k1, _); (k2, _)] => Ok (k1, k2)
  | YMap _ => Raise ValueError
  | _ => Raise TypeError
  end.

Fixpoint update_items (d : list (yaml * yaml)) (items : list yaml)
  : result (list (yaml * yaml)) :=
  match items with
  | [] => Ok d
  | it :: items' =>
      '(k, v) ← pair_of_item it;
      if hashable k then update_items (dict_set d k v) items'
      else Raise TypeError
  end.

(** [d.update(other)] *)
Definition dict_update (d : list (yaml * yaml)) (other : yaml)
  : result (list (yaml * yaml)) :=
  match other with
  | YMap kvs => Ok (fold_left (fun d kv => dict_set d (fst kv) (snd kv)) kvs d)
  | YSeq items => update_items d items
  | YStr EmptyString => Ok d
  | YStr _ => Raise ValueError
  | _ => Raise TypeError
  end.

Record helm_params := {
  appName : yaml;
  namespace : yaml;
  image : list (yaml * yaml)
}.

Definition default_image : list (yaml * yaml) :=
  [(YStr "repository", YStr ""); (YStr "tag", YStr "latest")].

Definition _extract_helm_parameters (m : fs) (pattern : pattern)
  : result helm_params :=
  let values_path := PathLib.join (ppath pattern) "values.yaml" in
  if FS.exists_ m values_path
  then
    values ← load_file m values_path;
    has_image ← Yaml.has values "image";
    img ← (if has_image : bool
           then other ← Yaml.item values "image"; dict_update default_image other
           else Ok default_image);
    has_namespace ← Yaml.has values "namespace";
    ns ← (if has_namespace : bool
          then Yaml.item values "namespace"
          else Ok (YStr "default"));
    Ok {| appName := pname pattern; namespace := ns; image := img |}
  else
    Ok {| appName := pname pattern; namespace := YStr "default";
          image := default_image |}.

(** *** Variables of a target ([PatternApplicator._extract_variables_for_repo]) *)

Definition repo_url_of (repo_path : path) : string :=
  match get_remote_url repo_path with
  | Some url =>
      if String.eqb url "" then "https://github.com/org/" ++ PathLib.name repo_path
      else url
  | None => "https://github.com/org/" ++ PathLib.name repo_path
  end.

Definition _extract_variables_for_repo (repo_path : path)
  : gmap string Jinja.value :=
  let repo_name := PathLib.name repo_path in
  <["app_name" := Jinja.JStr repo_name]>
  (<["repo_url" := Jinja.JStr (repo_url_of repo_path)]>
  (<["repo_name" := Jinja.JStr repo_name]>
  (<["chart_version" := Jinja.JStr "0.1.0"]>
  (<["app_version" := Jinja.JStr "1.0.0"]>
  (<["image_repository" := Jinja.JStr ("myorg/" ++ repo_name)]>
  (<["image_tag" := Jinja.JStr "latest"]>
  (<["source_path" := Jinja.JStr ("deployments/helm/" ++ repo_name)]>
  (<["dest_namespace" := Jinja.JStr repo_name]>
  (<["source_type" := Jinja.JStr "helm"]> ∅))))))))).

(** *** The template engine ([template_engine.py]) *)

(** A template held in memory: [type], [name] and the dictionary [files]
    from relative file names to template bodies. *)
Record template := {
  ttype : string;
  tname : yaml;
  tfiles : list (string * string)
}.

(** [d[k]] on the dictionary of files *)
Fixpoint files_item (d : list (string * string)) (k : string) : result string :=
  match d with
  | [] => Raise KeyError
  | (k', v) :: d' => if String.eqb k' k then Ok v else files_item d' k
  end.

(** [p / name] for any value [name]: only strings join a path. *)
Definition join_value (p : path) (name : yaml) : result path :=
  match name with
  | YStr s => Ok (PathLib.joinstr p s)
  | _ => Raise TypeError
  end.

(** [str(v)], as an f-string formats a value; the text of lists and
    dictionaries is outside the model. *)
Definition format_value (v : yaml) : result string :=
  match v with
  | YNull => Ok "None"
  | YBool b => Ok (Py.str_bool b)
  | YInt z => Ok (Py.str_int z)
  | YStr s => Ok s
  | _ => Raise OutsideModel
  end.

Definition helm_files : list (string * string) :=
  [("Chart.yaml", TemplateEngine.chart_template);
   ("values.yaml", TemplateEngine.values_template);
   ("templates/deployment.yaml", TemplateEngine.deployment_template)].

Definition save_file (dir : path) (entry : string * string) : io unit :=
  let full_path := PathLib.joinstr dir (fst entry) in
  let* _ := FS.mkdir_p (PathLib.parent full_path) in
  FS.write_text full_path (snd entry).

Definition _create_helm_template (pattern : pattern) (output_dir : option path)
  : io template :=
  let template_data :=
    {| ttype := "helm"; tname := pname pattern; tfiles := helm_files |} in
  match output_dir with
  | Some output_dir =>
      let* helm_dir :=
        io_read (fun _ => join_value (output_dir ++ ["helm"]) (pname pattern)) in
      let* _ := FS.mkdir_p helm_dir in
      let* _ := for_each_ helm_files (save_file helm_dir) in
      io_ret template_data
  | None => io_ret template_data
  end.

Definition _create_argocd_template (pattern : pattern)
    (output_dir : option path) : io template :=
  let template_data :=
    {| ttype := "argocd"; tname := pname pattern;
       tfiles := [("application.yaml", TemplateEngine.app_template)] |} in
  match output_dir with
  | Some output_dir =>
      let argocd_dir := output_dir ++ ["argocd"] in
      let* _ := FS.mkdir_p argocd_dir in
      let* name := io_read (fun _ => format_value (pname pattern)) in
      let file_path := PathLib.joinstr argocd_dir (name ++ "-application.yaml") in
      let* _ := FS.write_text file_path TemplateEngine.app_template in
      io_ret template_data
  | None => io_ret template_data
  end.

(** [TemplateEngine.create_templates] *)
Definition create_templates (patterns : list pattern) (output_dir : option path)
  : io (list template) :=
  for_each patterns (fun pattern =>
    if String.eqb (ptype pattern) "helm"
    then let* t := _create_helm_template pattern output_dir in io_ret (Some t)
    else if String.eqb (ptype pattern) "argocd"
    then let* t := _create_argocd_template pattern output_dir in io_ret (Some t)
    else io_ret None).

(** [TemplateEngine.render_template] *)
Definition render_template (template_content : string)
    (variables : gmap string Jinja.value) : result string :=
  Jinja.render template_content variables.

(** *** The applicator ([applicator.py]) *)

Inductive apply_status := applied | skipped | would_apply.

#[global] Instance apply_status_eq_dec : EqDecision apply_status.
Proof. solve_decision. Defined.

Record apply_result := {
  pattern_id : string;
  status : apply_status;
  message : string
}.

Definition in_suffixes (p : path) (suffixes : list string) : bool :=
  existsb (String.eqb (PathLib.suffix p)) suffixes.

(** One turn of the loop of [_apply_helm_chart] over the files of the
    chart. *)
Definition copy_chart_file (template_dir target_repo target_path : path)
    (file_path : path) : io unit := fun m =>
  if FS.is_file m file_path
  then
    let relative_path := drop (length template_dir) file_path in
    let target_file := target_path ++ relative_path in
    (let* _ := FS.mkdir_p (PathLib.parent target_file) in
     if in_suffixes file_path [".yaml"; ".yml"; ".j2"]
     then
       let* content := io_read (fun m => FS.read_text m file_path) in
       let variables := _extract_variables_for_repo target_repo in
       let* rendered := io_read (fun _ => Jinja.render content variables) in
       FS.write_text target_file rendered
     else
       let* content := io_read (fun m => FS.read_text m file_path) in
       FS.write_text target_file content) m
  else (m, Ok tt).

Definition _apply_helm_chart (template_dir target_repo : path)
    (existing : option pattern) (dry_run force : bool) : io apply_result :=
  let chart_name := PathLib.name template_dir in
  if bool_decide (is_Some existing) && negb force
  then io_ret {| pattern_id := "helm/" ++ chart_name; status := skipped;
                 message := "Helm chart already exists" |}
  else
    let target_path := target_repo ++ ["deployments"; "helm"; chart_name] in
    if dry_run
    then io_ret {| pattern_id := "helm/" ++ chart_name; status := would_apply;
                   message := "Would create Helm chart at "
                              ++ PathLib.str target_path |}
    else
      let* _ := FS.mkdir_p target_path in
      let* files := io_read (fun m => Ok (FS.rglob m template_dir (fun _ => true))) in
      let* _ := for_each_ files
                  (copy_chart_file template_dir target_repo target_path) in
      io_ret {| pattern_id := "helm/" ++ chart_name; status := applied;
                message := "Created Helm chart at " ++ PathLib.str target_path |}.

Definition _apply_argocd_app (template_file target_repo : path)
    (existing : option pattern) (dry_run force : bool) : io apply_result :=
  let app_name := Py.remove_all "-application" (PathLib.stem template_file) in
  if bool_decide (is_Some existing) && negb force
  then io_ret {| pattern_id := "argocd/" ++ app_name; status := skipped;
                 message := "ArgoCD application already exists" |}
  else
    let target_path :=
      target_repo ++ ["deployments"; "argocd"; PathLib.name template_file] in
    if dry_run
    then io_ret {| pattern_id := "argocd/" ++ app_name; status := would_apply;
                   message := "Would create ArgoCD app at "
                              ++ PathLib.str target_path |}
    else
      let* _ := FS.mkdir_p (PathLib.parent target_path) in
      let* content := io_read (fun m => FS.read_text m template_file) in
      let variables := _extract_variables_for_repo target_repo in
      let* rendered := io_read (fun _ => Jinja.render content variables) in
      let* _ := FS.write_text target_path rendered in
      io_ret {| pattern_id := "argocd/" ++ app_name; status := applied;
                message := "Created ArgoCD application at "
                           ++ PathLib.str target_path |}.

(** [existing_types.get(t)]: the last pattern of type [t] the scan found. *)
Definition existing_of (existing_patterns : list pattern) (t : string)
  : option pattern :=
  last (List.filter (fun p => String.eqb (ptype p) t) existing_patterns).

(** One turn of the inner loop of [apply_patterns]. *)
Definition apply_entry (target_repo : path) (existing_patterns : list pattern)
    (dry_run force : bool) (template_path : path) : io (option apply_result) :=
  fun m =>
  if FS.is_dir m template_path
  then (let* r := _apply_helm_chart template_path target_repo
                    (existing_of existing_patterns "helm") dry_run force in
        io_ret (Some r)) m
  else if in_suffixes template_path [".yaml"; ".yml"]
  then (let* r := _apply_argocd_app template_path target_repo
                    (existing_of existing_patterns "argocd") dry_run force in
        io_ret (Some r)) m
  else (m, Ok None).

(** One turn of the outer loop of [apply_patterns]. *)
Definition apply_type_dir (template_dir target_repo : path)
    (existing_patterns : list pattern) (dry_run force : bool)
    (template_type : string) : io (list apply_result) := fun m =>
  let type_dir := PathLib.join template_dir template_type in
  if FS.exists_ m type_dir
  then (let* entries := io_read (fun m => FS.iterdir m type_dir) in
        for_each entries
          (apply_entry target_repo existing_patterns dry_run force)) m
  else (m, Ok []).

(** [PatternApplicator.apply_patterns] *)
Definition apply_patterns (template_dir target_repo : path)
    (dry_run force : bool) : io (list apply_result) := fun m =>
  let existing_patterns := fst (scan_repository m target_repo) in
  (let* helm := apply_type_dir template_dir target_repo existing_patterns
                  dry_run force "helm" in
   let* argocd := apply_type_dir template_dir target_repo existing_patterns
                    dry_run force "argocd" in
   io_ret (helm ++ argocd)) m.

(** One turn of the loop of [_apply_helm_template] over the files. *)
Definition write_rendered (target_path : path)
    (variables : gmap string Jinja.value) (entry : string * string) : io unit :=
  let full_path := PathLib.joinstr target_path (fst entry) in
  let* _ := FS.mkdir_p (PathLib.parent full_path) in
  let* rendered := io_read (fun _ => Jinja.render (snd entry) variables) in
  FS.write_text full_path rendered.

Definition _apply_helm_template (template : template) (target_repo : path)
    (variables : gmap string Jinja.value) (dry_run : bool) : io apply_result :=
  let* target_path :=
    io_read (fun _ => join_value (target_repo ++ ["deployments"; "helm"])
                        (tname template)) in
  let* chart_name := io_read (fun _ => format_value (tname template)) in
  if dry_run
  then io_ret {| pattern_id := "helm/" ++ chart_name; status := would_apply;
                 message := "Would create Helm chart at "
                            ++ PathLib.str target_path |}
  else
    let* _ := for_each_ (tfiles template) (write_rendered target_path variables) in
    io_ret {| pattern_id := "helm/" ++ chart_name; status := applied;
              message := "Created Helm chart at " ++ PathLib.str target_path |}.

Definition _apply_argocd_template (template : template) (target_repo : path)
    (variables : gmap string Jinja.value) (dry_run : bool) : io apply_result :=
  let* app_name := io_read (fun _ => format_value (tname template)) in
  let target_path :=
    PathLib.joinstr (target_repo ++ ["deployments"; "argocd"])
      (app_name ++ "-application.yaml") in
  if dry_run
  then io_ret {| pattern_id := "argocd/" ++ app_name; status := would_apply;
                 message := "Would create ArgoCD app at "
                            ++ PathLib.str target_path |}
  else
    let* _ := FS.mkdir_p (PathLib.parent target_path) in
    let* content :=
      io_read (fun _ => files_item (tfiles template) "application.yaml") in
    let* rendered := io_read (fun _ => Jinja.render content variables) in
    let* _ := FS.write_text target_path rendered in
    io_ret {| pattern_id := "argocd/" ++ app_name; status := applied;
              message := "Created ArgoCD application at "
                         ++ PathLib.str target_path |}.

(** [PatternApplicator.apply_patterns_direct] *)
Definition apply_patterns_direct (templates : list template)
    (target_repo : path) (dry_run : bool) : io (list apply_result) :=
  for_each templates (fun template =>
    let variables := _extract_variables_for_repo target_repo in
    if String.eqb (ttype template) "helm"
    then let* r := _apply_helm_template template target_repo variables dry_run in
         io_ret (Some r)
    else if String.eqb (ttype template) "argocd"
    then let* r := _apply_argocd_template template target_repo variables dry_run in
         io_ret (Some r)
    else io_ret None).

(** *** The [replicate] command ([cli.py]) *)

(** The results of the apply, or nothing when the source has no pattern. *)
Definition replicate (source_repo target_repo : path) (dry_run : bool)
  : io (option (list apply_result)) := fun m =>
  let patterns := fst (scan_repository m source_repo) in
  match patterns with
  | [] => (m, Ok None)
  | _ =>
      (let* templates := create_templates patterns None in
       let* results := apply_patterns_direct templates target_repo dry_run in
       io_ret (Some results)) m
  end.

End Replicator.

(** ** The specification's classification rule *)

(** A document declares [field] with value [v]: it is a mapping that binds
    the key [field] to [v]. *)
Definition declares (doc : yaml) (field : string) (v : yaml) : Prop :=
  exists kvs, doc = YMap kvs /\ Yaml.lookup kvs field = Some v.

(** The rule of the specification: the declared API group starts with the
    reserved prefix and the declared kind is the literal [Application]. *)
Definition gitops_application (doc : yaml) : Prop :=
  (exists rest, declares doc "apiVersion" (YStr ("argoproj.io/" ++ rest)))
  /\ declares doc "kind" (YStr "Application").

(** ** The decision of the applicator *)

(** What an apply from a template directory answers for one template:
    an existing pattern of the kind without [force] is skipped before the
    dry-run flag is looked at. *)
Definition decision (existing force dry_run : bool) : apply_status :=
  if existing && negb force then skipped
  else if dry_run then would_apply
  else applied.

Definition has_kind (existing_patterns : list pattern) (kind : string) : bool :=
  existsb (fun p => String.eqb (ptype p) kind) existing_patterns.

(** A result carries the decision for its kind, the kind being the part of
    its identifier before the slash. *)
Definition obeys (existing_patterns : list pattern) (force dry_run : bool)
    (r : apply_result) : Prop :=
  (Py.startswith (pattern_id r) "helm/" = true
   /\ status r = decision (has_kind existing_patterns "helm") force dry_run)
  \/ (Py.startswith (pattern_id r) "argocd/" = true
      /\ status r = decision (has_kind existing_patterns "argocd") force dry_run).

(** A template that [apply_patterns_direct] does not pass over. *)
Definition recognized (t : template) : bool :=
  String.eqb (ttype t) "helm" || String.eqb (ttype t) "argocd".

(** A computation that leaves the file system as it found it. *)
Definition read_only {A} (c : io A) : Prop := forall m, fst (c m) = m.

(** ** Templates without environment names *)

(** The expression reads no name that the environment binds by itself. *)
Fixpoint plain_expr (e : Jinja.expr) : bool :=
  match e with
  | Jinja.EConst _ => true
  | Jinja.EName x => negb (Jinja.is_global x)
  | Jinja.EDefault e d =>
      plain_expr e && match d with
                      | Some d => plain_expr d
                      | None => true
                      end
  | Jinja.EEq a b => plain_expr a && plain_expr b
  end.

Fixpoint plain_node (n : Jinja.tnode) : bool :=
  match n with
  | Jinja.NText _ => true
  | Jinja.NPrint e => plain_expr e
  | Jinja.NIf e body => plain_expr e && forallb plain_node body
  end.

(** ** The candidates of the detectors *)

(** The files the chart detector analyses. *)
Definition helm_candidates (m : fs) (repo_path : path) : list path :=
  List.filter (fun f => negb (excluded f))
    (FS.rglob m repo_path (String.eqb "Chart.yaml")).

(** The YAML files of the conventional directories that exist. *)
Definition conventional (m : fs) (repo_path : path) (subdirs : list path)
  : list path :=
  List.concat
    (List.map (fun sub =>
                 if FS.exists_ m (repo_path ++ sub) && FS.is_dir m (repo_path ++ sub)
                 then FS.glob m (repo_path ++ sub) (fun n => Py.endswith n ".yaml")
                 else [])
       subdirs).

(** The files the application detector classifies: the YAML files of the
    conventional directories, then every [*application*.yaml]. *)
Definition argocd_candidates (m : fs) (repo_path : path) : list path :=
  conventional m repo_path argocd_paths
  ++ FS.rglob m repo_path application_yaml.

(** What the application detector finds in a list of files: the patterns
    of the classified files whose analysis succeeds. *)
Definition found (safe_load : string -> option yaml) (m : fs)
    (files : list path) (p : pattern) : Prop :=
  exists f, In f files /\ _is_argocd_app safe_load m f = true
            /\ analyze_argocd_app_try safe_load m f = Ok p.

(** The lines it prints: one for each classified file whose analysis
    raises. *)
Definition reported (safe_load : string -> option yaml) (m : fs)
    (files : list path) (d : diagnostic) : Prop :=
  exists f e, In f files /\ _is_argocd_app safe_load m f = true
              /\ analyze_argocd_app_try safe_load m f = Raise e
              /\ d = ArgoError f e.

(** ** What a replication writes *)

(** The chart descriptor rendered for a target of name [n]. *)
Definition rendered_chart (n : string) : string :=
  ("apiVersion: v2
name: " ++ n ++ "
description: A Helm chart for " ++ n ++ "
type: application
version: 0.1.0
appVersion: 1.0.0")%string.

(** The directories [mkdir_from] visits. *)
Fixpoint mkdir_steps (done todo : path) : list path :=
  match todo with
  | [] => []
  | part :: todo' => (done ++ [part]) :: mkdir_steps (done ++ [part]) todo'
  end.

(** A computation that leaves the file [q] with the content [c] when it
    finds it so, whether it returns or raises. *)
Definition keeps {A} (q : path) (c : string) (comp : io A) : Prop :=
  forall m, m !! q = Some (File c) -> fst (comp m) !! q = Some (File c).

(** ** Applying twice *)

(** Neither path lies under the other. *)
Definition apart (a b : path) : Prop :=
  ~ a `prefix_of` b /\ ~ b `prefix_of` a.

(** [b] comes after [a] in a run that leaves the template directory
    alone: directories are still directories, files are still files, and
    nothing under the template directory has changed. *)
Definition extends (template_dir : path) (a b : fs) : Prop :=
  (forall q, a !! q = Some Dir -> b !! q = Some Dir)
  /\ (forall q c, a !! q = Some (File c) -> exists c', b !! q = Some (File c'))
  /\ (forall q, template_dir `prefix_of` q -> a !! q = b !! q).

(** At every path [b] holds what [a] holds or what [fin] holds. *)
Definition between (a b fin : fs) : Prop :=
  forall q, b !! q = a !! q \/ b !! q = fin !! q.

(** [f] reads only under the template directory. *)
Definition regional {A} (template_dir : path) (f : fs -> A) : Prop :=
  forall a b, (forall q, template_dir `prefix_of` q -> a !! q = b !! q) ->
              f a = f b.

(** A computation that can be run again on the state a successful run of it
    ends in, or on any state between: it leaves the template directory
    alone and keeps the kinds of the paths, and a run that returned [x] from
    [a] returns [x] again from every [b] between [a] and a later state
    [fin], ending between its first end and [fin]. *)
Definition replayable {A} (template_dir : path) (comp : io A) : Prop :=
  (forall a, extends template_dir a (fst (comp a)))
  /\ (forall a a' x fin b,
        comp a = (a', Ok x) -> extends template_dir a' fin ->
        between a b fin ->
        exists b', comp b = (b', Ok x) /\ between a' b' fin).

(** ** Analysing a pattern ([scanner.py]) *)

(** The parameters of an application, a dictionary with six fixed keys. *)
Module ArgoParams.

Record t := {
  appName : yaml;
  namespace : yaml;
  project : yaml;
  repoURL : yaml;
  targetRevision : yaml;
  path : yaml
}.

End ArgoParams.

(** The parameters of an analysis: none, those of a chart or those of an
    application. *)
Inductive parameters :=
| NoParameters
| HelmParameters (p : helm_params)
| ArgoParameters (p : ArgoParams.t).

(** The dictionary [analyze_pattern] returns. *)
Module Analysis.

Record t := {
  type : string;
  parameters : parameters;
  structure : list (yaml * yaml)
}.

End Analysis.

Section Analyse.

Variable safe_load : string -> option yaml.

Definition default_parameters (pattern : pattern) : ArgoParams.t :=
  {| ArgoParams.appName := pname pattern;
     ArgoParams.namespace := YStr "argocd";
     ArgoParams.project := YStr "default";
     ArgoParams.repoURL := YStr "";
     ArgoParams.targetRevision := YStr "HEAD";
     ArgoParams.path := YStr "" |}.

(** The [destination] part of one turn: the namespace, when the
    specification has a destination. *)
Definition read_destination (spec : yaml) (params : ArgoParams.t)
  : result ArgoParams.t :=
  has_destination ← Yaml.has spec "destination";
  if has_destination : bool
  then
    destination ← Yaml.item spec "destination";
    ns ← Yaml.get destination "namespace" (ArgoParams.namespace params);
    Ok {| ArgoParams.appName := ArgoParams.appName params;
          ArgoParams.namespace := ns;
          ArgoParams.project := ArgoParams.project params;
          ArgoParams.repoURL := ArgoParams.repoURL params;
          ArgoParams.targetRevision := ArgoParams.targetRevision params;
          ArgoParams.path := ArgoParams.path params |}
  else Ok params.

(** The [source] part of one turn: the URL and the path, when the
    specification has a source. *)
Definition read_source (spec : yaml) (params : ArgoParams.t)
  : result ArgoParams.t :=
  has_source ← Yaml.has spec "source";
  if has_source : bool
  then
    source ← Yaml.item spec "source";
    url ← Yaml.get source "repoURL" (ArgoParams.repoURL params);
    source' ← Yaml.item spec "source";
    p ← Yaml.get source' "path" (ArgoParams.path params);
    Ok {| ArgoParams.appName := ArgoParams.appName params;
          ArgoParams.namespace := ArgoParams.namespace params;
          ArgoParams.project := ArgoParams.project params;
          ArgoParams.repoURL := url;
          ArgoParams.targetRevision := ArgoParams.targetRevision params;
          ArgoParams.path := p |}
  else Ok params.

(** One turn of the loop of [_extract_argocd_parameters] over the config
    files of the pattern. *)
Definition read_manifest (m : fs) (params : ArgoParams.t) (config_path : path)
  : result ArgoParams.t :=
  if FS.exists_ m config_path
  then
    manifest ← load_file safe_load m config_path;
    has_spec ← Yaml.has manifest "spec";
    if has_spec : bool
    then
      spec ← Yaml.item manifest "spec";
      params1 ← read_destination spec params;
      read_source spec params1
    else Ok params
  else Ok params.

Fixpoint read_manifests (m : fs) (params : ArgoParams.t) (configs : list path)
  : result ArgoParams.t :=
  match configs with
  | [] => Ok params
  | config_path :: rest =>
      params1 ← read_manifest m params config_path;
      read_manifests m params1 rest
  end.

(** [DeploymentScanner._extract_argocd_parameters] *)
Definition _extract_argocd_parameters (m : fs) (pattern : pattern)
  : result ArgoParams.t :=
  read_manifests m (default_parameters pattern) (pconfigs pattern).

(** [DeploymentScanner.analyze_pattern] *)
Definition analyze_pattern (m : fs) (pattern : pattern) : result Analysis.t :=
  params ←
    (if String.eqb (ptype pattern) "helm"
     then p ← _extract_helm_parameters safe_load m pattern; Ok (HelmParameters p)
     else if String.eqb (ptype pattern) "argocd"
     then p ← _extract_argocd_parameters m pattern; Ok (ArgoParameters p)
     else Ok NoParameters);
  Ok {| Analysis.type := ptype pattern;
        Analysis.parameters := params;
        Analysis.structure := [] |}.

End Analyse.

(** ** The commands ([cli.py]) *)

Section Commands.

Variable safe_load : string -> option yaml.
Variable get_remote_url : path -> option string.

(** The [scan] command: the patterns it lists and, when patterns were found
    and an output directory is given, the number of templates it
    generated there. *)
Definition scan (repo_path : path) (output : option path)
  : io (list pattern * option nat) := fun m =>
  let patterns := fst (scan_repository safe_load m repo_path) in
  match patterns with
  | [] => (m, Ok ([], None))
  | _ =>
      match output with
      | Some output =>
          (let* templates := create_templates patterns (Some output) in
           io_ret (patterns, Some (length templates))) m
      | None => (m, Ok (patterns, None))
      end
  end.

(** The two counts of the last line of [replicate]: the results with status
    [applied] and those with status [skipped]. *)
Definition summary (results : list apply_result) : nat * nat :=
  (length (List.filter (fun r => bool_decide (status r = applied)) results),
   length (List.filter (fun r => bool_decide (status r = skipped)) results)).

(** The [replicate] command down to its summary; nothing is counted when
    the source has no pattern. *)
Definition replicate_summary (source_repo target_repo : path) (dry_run : bool)
  : io (option (nat * nat)) :=
  let* results := replicate safe_load get_remote_url source_repo target_repo
                    dry_run in
  io_ret (option_map summary results).

End Commands.

(** ** Templates in memory *)

(** The template the engine holds in memory for a pattern. *)
Definition template_of (p : pattern) : template :=
  {| ttype := ptype p; tname := pname p;
     tfiles := if String.eqb (ptype p) "helm" then helm_files
               else [("application.yaml", TemplateEngine.app_template)] |}.

(** ** Names and places *)

(** A name that is one component of a path: not empty, neither [.] nor
    [..], and without a slash. *)
Definition plain_name (n : string) : bool :=
  negb (String.eqb n "") && negb (String.eqb n ".") && negb (String.eqb n "..")
  && negb (Py.contains n "/").

(** A computation that changes nothing outside the directory [d], when the
    directories above [d] exist. *)
Definition confined {A} (d : path) (comp : io A) : Prop :=
  forall m,
    (forall q, q `prefix_of` d -> q <> d -> q <> [] -> m !! q = Some Dir) ->
    forall q, ~ d `prefix_of` q -> fst (comp m) !! q = m !! q.

(** The application manifest rendered for a target of name [n] and
    repository URL [url]. *)
Definition rendered_application (n url : string) : string :=
  ("apiVersion: argoproj.io/v1alpha1
kind: Application
metadata:
  name: " ++ n ++ "
  namespace: argocd
  finalizers:
    - resources-finalizer.argocd.argoproj.io
spec:
  project: default
  source:
    repoURL: " ++ url ++ "
    targetRevision: HEAD
    path: deployments/helm/" ++ n ++ "
    
    helm:
      releaseName: " ++ n ++ "
      valueFiles:
        - values.yaml
    
  destination:
    server: https://kubernetes.default.svc
    namespace: " ++ n ++ "
  syncPolicy:
    automated:
      prune: True
      selfHeal: True
    syncOptions:
      - CreateNamespace=true")%string.

(** ** Notions used by the properties of the scan and of saved templates *)

(** A part that makes the chart detector pass over a file. *)
Definition excluding (part : string) : Prop :=
  Py.startswith part "." = true \/ part = "node_modules" \/ part = "vendor".

(** The files of a list that give a pattern. *)
Definition gives_pattern (safe_load : string -> option yaml) (m : fs)
    (f : path) : bool :=
  _is_argocd_app safe_load m f
  && is_ok (analyze_argocd_app_try safe_load m f).

(** The fields no manifest changes. *)
Definition same_fixed (a b : ArgoParams.t) : Prop :=
  ArgoParams.appName a = ArgoParams.appName b
  /\ ArgoParams.project a = ArgoParams.project b
  /\ ArgoParams.targetRevision a = ArgoParams.targetRevision b.

(** A file that saving templates under [out] may write, with the content it
    is given: the three files of a chart and the manifest of an
    application. *)
Definition saved (out q : path) (c : string) : Prop :=
  exists n,
    (q = out ++ ["helm"; n; "Chart.yaml"] /\ c = TemplateEngine.chart_template)
    \/ (q = out ++ ["helm"; n; "values.yaml"]
        /\ c = TemplateEngine.values_template)
    \/ (q = out ++ ["helm"; n; "templates"; "deployment.yaml"]
        /\ c = TemplateEngine.deployment_template)
    \/ (q = out ++ ["argocd"; (n ++ "-application.yaml")%string]
        /\ c = TemplateEngine.app_template).

(** A computation that leaves the directory [q] a directory. *)
Definition keeps_dir {A} (q : path) (comp : io A) : Prop :=
  forall m, m !! q = Some Dir -> fst (comp m) !! q = Some Dir.

(** ** Example repositories *)

Module Examples.

(** A loader fixed on the few documents the examples use: each text is
    paired with the document [yaml.safe_load] builds from it. *)
Fixpoint load_table (table : list (string * yaml)) (text : string)
  : option yaml :=
  match table with
  | [] => None
  | (t, doc) :: table' =>
      if String.eqb t text then Some doc else load_table table' text
  end.

Definition no_remote (repo_path : path) : option string := None.

Definition demo_chart : string :=
"apiVersion: v2
name: demo
version: 1.0.0
".

Definition demo_values : string :=
"image:
  repository: nginx
  tag: latest
".

Definition demo_app : string :=
"apiVersion: argoproj.io/v1alpha1
kind: Application
metadata:
  name: demo
spec:
  source:
    repoURL: https://x/demo
    path: deployments/helm/demo
".

Definition billing_app : string :=
"apiVersion: argoproj.io/v1alpha1
kind: Application
metadata:
  name: billing
".

Definition project_manifest : string :=
"apiVersion: argoproj.io/v1alpha1
kind: AppProject
metadata:
  name: platform".

Definition tagged_values : string :=
"image:
  tag: v2
".

Definition broken_app : string :=
"apiVersion: argoproj.io/v1alpha1
kind: Application
metadata: none
".

Definition documents : list (string * yaml) :=
  [(demo_chart,
    YMap [(YStr "apiVersion", YStr "v2"); (YStr "name", YStr "demo");
          (YStr "version", YStr "1.0.0")]);
   (demo_values,
    YMap [(YStr "image",
           YMap [(YStr "repository", YStr "nginx"); (YStr "tag", YStr "latest")])]);
   (demo_app,
    YMap [(YStr "apiVersion", YStr "argoproj.io/v1alpha1");
          (YStr "kind", YStr "Application");
          (YStr "metadata", YMap [(YStr "name", YStr "demo")]);
          (YStr "spec",
           YMap [(YStr "source",
                  YMap [(YStr "repoURL", YStr "https://x/demo");
                        (YStr "path", YStr "deployments/helm/demo")])])]);
   (billing_app,
    YMap [(YStr "apiVersion", YStr "argoproj.io/v1alpha1");
          (YStr "kind", YStr "Application");
          (YStr "metadata", YMap [(YStr "name", YStr "billing")])]);
   (project_manifest,
    YMap [(YStr "apiVersion", YStr "argoproj.io/v1alpha1");
          (YStr "kind", YStr "AppProject");
          (YStr "metadata", YMap [(YStr "name", YStr "platform")])]);
   (tagged_values,
    YMap [(YStr "image", YMap [(YStr "tag", YStr "v2")])]);
   (broken_app,
    YMap [(YStr "apiVersion", YStr "argoproj.io/v1alpha1");
          (YStr "kind", YStr "Application");
          (YStr "metadata", YStr "none")])].

Definition loader : string -> option yaml := load_table documents.

(** A source repository with the chart [demo] and the application [demo],
    and an empty target [tgt]. *)
Definition source_and_empty_target : fs :=
  list_to_map
    [(["src"], Dir);
     (["src"; "deployments"], Dir);
     (["src"; "deployments"; "helm"], Dir);
     (["src"; "deployments"; "helm"; "demo"], Dir);
     (["src"; "deployments"; "helm"; "demo"; "Chart.yaml"], File demo_chart);
     (["src"; "deployments"; "helm"; "demo"; "values.yaml"], File demo_values);
     (["src"; "deployments"; "argocd"], Dir);
     (["src"; "deployments"; "argocd"; "demo-application.yaml"], File demo_app);
     (["tgt"], Dir)].

(** A template directory with the chart [demo], and a target that already
    holds a chart. *)
Definition chart_template_and_charted_target : fs :=
  list_to_map
    [(["tpl"], Dir);
     (["tpl"; "helm"], Dir);
     (["tpl"; "helm"; "demo"], Dir);
     (["tpl"; "helm"; "demo"; "Chart.yaml"], File demo_chart);
     (["tgt"], Dir);
     (["tgt"; "charts"], Dir);
     (["tgt"; "charts"; "demo"], Dir);
     (["tgt"; "charts"; "demo"; "Chart.yaml"], File demo_chart)].

(** A repository with two applications in its [argocd] directory. *)
Definition two_applications : fs :=
  list_to_map
    [(["repo"], Dir);
     (["repo"; "argocd"], Dir);
     (["repo"; "argocd"; "demo.yaml"], File demo_app);
     (["repo"; "argocd"; "billing.yaml"], File billing_app)].

(** A repository with an application whose metadata is not a mapping, next
    to a sound one. *)
Definition broken_and_sound_application : fs :=
  list_to_map
    [(["repo"], Dir);
     (["repo"; "argocd"], Dir);
     (["repo"; "argocd"; "broken.yaml"], File broken_app);
     (["repo"; "argocd"; "billing.yaml"], File billing_app)].

(** A template directory whose [argocd] part holds a project manifest, and
    an empty target. *)
Definition project_template_and_empty_target : fs :=
  list_to_map
    [(["tpl"], Dir);
     (["tpl"; "argocd"], Dir);
     (["tpl"; "argocd"; "project.yaml"], File project_manifest);
     (["tgt"], Dir)].

(** A chart whose values file sets only the image tag. *)
Definition tagged_chart : fs :=
  list_to_map
    [(["repo"], Dir);
     (["repo"; "chart"], Dir);
     (["repo"; "chart"; "Chart.yaml"], File demo_chart);
     (["repo"; "chart"; "values.yaml"], File tagged_values)].

(** The template [create_templates] builds for the chart [demo]. *)
Definition demo_helm_template : template :=
  {| ttype := "helm"; tname := YStr "demo"; tfiles := helm_files |}.

Definition demo_argocd_template : template :=
  {| ttype := "argocd"; tname := YStr "demo";
     tfiles := [("application.yaml", TemplateEngine.app_template)] |}.

Definition empty_target : fs := list_to_map [(["tgt"], Dir)].


End Examples.

(** ** Further example repositories *)

Module Cases.

(** A repository that lies under a hidden directory, with a chart. *)
Definition hidden_repository : fs :=
  list_to_map
    [([".cache"], Dir);
     ([".cache"; "repo"], Dir);
     ([".cache"; "repo"; "Chart.yaml"], File Examples.demo_chart)].

(** The patterns that the scans of the example repositories find. *)
Definition demo_chart_pattern : pattern :=
  HelmPattern (YStr "demo") ["src"; "deployments"; "helm"; "demo"]
    (YStr "1.0.0") [["src"; "deployments"; "helm"; "demo"; "values.yaml"]]
    None.

Definition demo_application_pattern : pattern :=
  ArgoPattern (YStr "demo") ["src"; "deployments"; "argocd"]
    [["src"; "deployments"; "argocd"; "demo-application.yaml"]] "kustomize".

Definition demo_manifest_pattern : pattern :=
  ArgoPattern (YStr "demo") ["repo"; "argocd"]
    [["repo"; "argocd"; "demo.yaml"]] "kustomize".

Definition tagged_chart_pattern : pattern :=
  HelmPattern (YStr "demo") ["repo"; "chart"] (YStr "1.0.0")
    [["repo"; "chart"; "values.yaml"]] None.

(** A template whose name is an absolute path. *)
Definition absolute_template : template :=
  {| ttype := "helm"; tname := YStr "/srv/demo"; tfiles := helm_files |}.

(** A directory that holds the deployment template of a chart as the
    engine saves it, and an empty target. *)
Definition saved_chart_and_empty_target : fs :=
  list_to_map
    [(["out"], Dir);
     (["out"; "helm"], Dir);
     (["out"; "helm"; "demo"], Dir);
     (["out"; "helm"; "demo"; "templates"], Dir);
     (["out"; "helm"; "demo"; "templates"; "deployment.yaml"],
      File TemplateEngine.deployment_template);
     (["tgt"], Dir)].

End Cases.

(** * Properties *)

(** ** Equality of documents *)

Section yaml_induction.
Variable P : yaml -> Prop.
Hypothesis HNull : P YNull.
Hypothesis HBool : forall b, P (YBool b).
Hypothesis HInt : forall z, P (YInt z).
Hypothesis HStr : forall s, P (YStr s).
Hypothesis HSeq : forall xs, Forall P xs -> P (YSeq xs).
Hypothesis HMap :
  forall kvs, Forall (fun kv => P (fst kv) /\ P (snd kv)) kvs -> P (YMap kvs).

Fixpoint yaml_nested_ind (y : yaml) : P y :=
  match y with
  | YNull => HNull
  | YBool b => HBool b
  | YInt z => HInt z
  | YStr s => HStr s
  | YSeq xs =>
      HSeq xs
        ((fix go (xs : list yaml) : Forall P xs :=
            match xs with
            | [] => List.Forall_nil _
            | x :: xs' => @List.Forall_cons _ P x xs' (yaml_nested_ind x) (go xs')
            end) xs)
  | YMap kvs =>
      HMap kvs
        ((fix go (kvs : list (yaml * yaml))
            : Forall (fun kv => P (fst kv) /\ P (snd kv)) kvs :=
            match kvs with
            | [] => List.Forall_nil _
            | (k, v) :: kvs' =>
                @List.Forall_cons _ (fun kv => P (fst kv) /\ P (snd kv))
                  (k, v) kvs'
                  (conj (yaml_nested_ind k) (yaml_nested_ind v)) (go kvs')
            end) kvs)
  end.
End yaml_induction.

Lemma yaml_eqb_eq (a b : yaml) : Yaml.eqb a b = true <-> a = b.
Proof.
  revert b. induction a as [| x | x | x | xs IH | kvs IH] using yaml_nested_ind;
    intros [| y | y | y | ys | ys]; simpl; try (split; [discriminate | congruence]);
    try (split; reflexivity).
  - rewrite Bool.eqb_true_iff. split; congruence.
  - rewrite Z.eqb_eq. split; congruence.
  - rewrite String.eqb_eq. split; congruence.
  - revert ys. induction IH as [| x xs Hx _ IHxs]; intros [| y ys];
      try (split; [discriminate | congruence]); [split; reflexivity |].
    rewrite andb_true_iff, Hx, IHxs. split.
    + intros [-> E]. congruence.
    + intros E. inversion E. auto.
  - revert ys. induction IH as [| [k v] xs [Hk Hv] _ IHxs]; intros [| [k' v'] ys];
      try (split; [discriminate | congruence]); [split; reflexivity |].
    simpl in Hk, Hv. rewrite !andb_true_iff, Hk, Hv, IHxs. split.
    + intros [[-> ->] E]. congruence.
    + intros E. inversion E. auto.
Qed.


Lemma pattern_eqb_eq (p q : pattern) : pattern_eqb p q = true <-> p = q.
Proof.
  destruct p, q; simpl; try (split; [discriminate | congruence]);
    rewrite !andb_true_iff, !yaml_eqb_eq, !bool_decide_eq_true,
      ?String.eqb_eq; split.
  - intros [[[[-> ->] ->] ->] ->]. reflexivity.
  - intros E. inversion E. auto.
  - intros [[[-> ->] ->] ->]. reflexivity.
  - intros E. inversion E. auto.
Qed.

Lemma append_empty_r (s : string) : (s ++ "")%string = s.
Proof.
  induction s as [| c s IH]; [reflexivity |].
  change (String c (s ++ "")%string = String c s). rewrite IH. reflexivity.
Qed.

Lemma startswith_iff (s p : string) :
  Py.startswith s p = true <-> exists rest, s = (p ++ rest)%string.
Proof.
  revert s. induction p as [| c p IH]; intros s; simpl.
  - split; [exists s; reflexivity | reflexivity].
  - destruct s as [| d s]; [split; [discriminate | intros [? ?]; discriminate] |].
    rewrite andb_true_iff, Ascii.eqb_eq, IH. split.
    + intros [-> [rest ->]]. exists rest. reflexivity.
    + intros [rest E]. inversion E. eauto.
Qed.

Lemma startswith_app (p rest : string) : Py.startswith (p ++ rest) p = true.
Proof. apply startswith_iff. eauto. Qed.

#[global] Arguments Py.startswith : simpl never.

Section Properties.

#[local] Set Default Proof Using "Type".

Variable safe_load : string -> option yaml.
Variable get_remote_url : path -> option string.

(** ** The classifier *)

Lemma or_empty_map (doc : yaml) (kvs : list (yaml * yaml)) :
  Yaml.or_empty doc = YMap kvs -> kvs <> [] -> doc = YMap kvs.
Proof.
  unfold Yaml.or_empty. destruct (Yaml.truthy doc); [auto |].
  intros E. inversion E. congruence.
Qed.

Lemma lookup_nonempty (kvs : list (yaml * yaml)) (k : string) (v : yaml) :
  Yaml.lookup kvs k = Some v -> kvs <> [].
Proof. destruct kvs; simpl; congruence. Qed.

Lemma gitops_application_or_empty (doc : yaml) :
  gitops_application (Yaml.or_empty doc) <-> gitops_application doc.
Proof.
  unfold Yaml.or_empty. destruct (Yaml.truthy doc) eqn:T; [reflexivity |].
  split; intros [_ (kvs & E & L)].
  - inversion E. subst. discriminate.
  - subst. apply lookup_nonempty in L. destruct kvs; [congruence | discriminate].
Qed.

(** On a loaded document the test of the code is the rule of the
    specification, and the test never raises when it answers [true]. *)
Lemma classify_spec (data : yaml) :
  classify data = Ok true <-> gitops_application data.
Proof.
  unfold classify, gitops_application, declares. split.
  - destruct data as [| | | | |kvs]; simpl; try discriminate.
    destruct (Yaml.lookup kvs "apiVersion") as [api|] eqn:A; simpl;
      [| discriminate].
    destruct api as [| | |api| |]; simpl; try discriminate.
    destruct (Py.startswith api "argoproj.io/") eqn:Pre; simpl;
      [| discriminate].
    destruct (Yaml.lookup kvs "kind") as [kind|] eqn:K; simpl;
      [| discriminate].
    intros E. inversion E as [E']. apply yaml_eqb_eq in E'. subst.
    apply startswith_iff in Pre as [rest ->].
    split; [exists rest |]; exists kvs; auto.
  - intros [(rest & kvs & -> & A) (kvs' & E & K)].
    inversion E. subst kvs'. simpl. rewrite A. simpl.
    rewrite ?startswith_app, K. simpl. reflexivity.
Qed.

(** C5. A file is classified as a GitOps application exactly when it can be
    read, its text parses, and the parsed document declares an API group
    that starts with [argoproj.io/] and the kind [Application]; a document of
    kind [Application] whose API group lacks the prefix is rejected; and a
    file whose text does not parse is answered "no match", not an
    exception. *)
Theorem classify_iff_prefix_and_kind :
  (forall (m : fs) (file : path),
     _is_argocd_app safe_load m file = true <->
     exists text doc,
       FS.read_text m file = Ok text /\ safe_load text = Some doc
       /\ gitops_application doc)
  /\ (forall (kvs : list (yaml * yaml)) (api : string),
        Yaml.lookup kvs "kind" = Some (YStr "Application") ->
        Yaml.lookup kvs "apiVersion" = Some (YStr api) ->
        (forall rest, api <> ("argoproj.io/" ++ rest)%string) ->
        classify (YMap kvs) = Ok false)
  /\ (forall (m : fs) (file : path) (text : string),
        FS.read_text m file = Ok text -> safe_load text = None ->
        _is_argocd_app safe_load m file = false).
Proof.
  split; [| split].
  - intros m file. unfold _is_argocd_app, is_argocd_app_try, load_file, load.
    split.
    + destruct (FS.read_text m file) as [text|] eqn:R; simpl; [| discriminate].
      destruct (safe_load text) as [doc|] eqn:L; simpl; [| discriminate].
      destruct (classify (Yaml.or_empty doc)) as [b|] eqn:C; [| discriminate].
      intros ->. exists text, doc. split; [reflexivity |].
      split; [exact L |].
      apply gitops_application_or_empty, classify_spec, C.
    + intros (text & doc & R & L & G). rewrite R. simpl. rewrite L. simpl.
      apply gitops_application_or_empty, classify_spec in G. rewrite G.
      reflexivity.
  - intros kvs api K A Pre. unfold classify. simpl. rewrite A. simpl.
    destruct (Py.startswith api "argoproj.io/") eqn:S; simpl;
      [| reflexivity].
    apply startswith_iff in S as [rest ->]. destruct (Pre rest). reflexivity.
  - intros m file text R L.
    unfold _is_argocd_app, is_argocd_app_try, load_file, load.
    rewrite R. simpl. rewrite L. reflexivity.
Qed.

(** ** Computations *)

Lemma io_bind_ok {A B} (c : io A) (k : A -> io B) (m m' : fs) (r : B) :
  io_bind c k m = (m', Ok r) ->
  exists m1 x, c m = (m1, Ok x) /\ k x m1 = (m', Ok r).
Proof.
  unfold io_bind. destruct (c m) as [m1 [x | e]]; [eauto | discriminate].
Qed.

Lemma for_each_ok {A R} (P : R -> Prop) (body : A -> io (option R))
    (xs : list A) :
  (forall x m m' r, body x m = (m', Ok (Some r)) -> P r) ->
  forall m m' rs, for_each xs body m = (m', Ok rs) -> Forall P rs.
Proof.
  intros Hbody. induction xs as [| x xs IH]; intros m m' rs; simpl.
  - unfold io_ret. intros E. inversion E. constructor.
  - intros E. apply io_bind_ok in E as (m1 & r & Hx & E).
    apply io_bind_ok in E as (m2 & rs' & Hxs & E).
    unfold io_ret in E. inversion E. subst. apply IH in Hxs.
    destruct r; [constructor; eauto | assumption].
Qed.

Lemma read_only_ret {A} (a : A) : read_only (io_ret a).
Proof. intros m. reflexivity. Qed.

Lemma read_only_read {A} (f : fs -> result A) : read_only (io_read f).
Proof. intros m. reflexivity. Qed.

Lemma read_only_bind {A B} (c : io A) (k : A -> io B) :
  read_only c -> (forall x, read_only (k x)) -> read_only (io_bind c k).
Proof.
  intros Hc Hk m. unfold io_bind. specialize (Hc m).
  destruct (c m) as [m1 [x | e]]; simpl in *; subst; [apply Hk | reflexivity].
Qed.

Lemma read_only_for_each {A R} (body : A -> io (option R)) (xs : list A) :
  (forall x, read_only (body x)) -> read_only (for_each xs body).
Proof.
  intros Hbody. induction xs as [| x xs IH]; simpl.
  - apply read_only_ret.
  - apply read_only_bind; [apply Hbody |]. intros r.
    apply read_only_bind; [apply IH |]. intros rs. apply read_only_ret.
Qed.

Ltac read_only_steps :=
  repeat first
    [ apply read_only_ret
    | apply read_only_read
    | apply read_only_bind; [| intros ?] ].

(** ** Dry run *)

Lemma dry_run_helm_chart (template_dir target_repo : path)
    (existing : option pattern) (force : bool) :
  read_only (_apply_helm_chart get_remote_url template_dir target_repo
               existing true force).
Proof.
  unfold _apply_helm_chart.
  destruct (bool_decide (is_Some existing) && negb force); apply read_only_ret.
Qed.

Lemma dry_run_argocd_app (template_file target_repo : path)
    (existing : option pattern) (force : bool) :
  read_only (_apply_argocd_app get_remote_url template_file target_repo
               existing true force).
Proof.
  unfold _apply_argocd_app.
  destruct (bool_decide (is_Some existing) && negb force); apply read_only_ret.
Qed.

Lemma dry_run_entry (target_repo : path) (existing_patterns : list pattern)
    (force : bool) (template_path : path) :
  read_only (apply_entry get_remote_url target_repo existing_patterns true
               force template_path).
Proof.
  intros m. unfold apply_entry. destruct (FS.is_dir m template_path).
  - apply read_only_bind; [apply dry_run_helm_chart |]. intros r.
    apply read_only_ret.
  - destruct (in_suffixes template_path [".yaml"; ".yml"]); [| reflexivity].
    apply read_only_bind; [apply dry_run_argocd_app |]. intros r.
    apply read_only_ret.
Qed.

Lemma dry_run_type_dir (template_dir target_repo : path)
    (existing_patterns : list pattern) (force : bool) (template_type : string) :
  read_only (apply_type_dir get_remote_url template_dir target_repo
               existing_patterns true force template_type).
Proof.
  intros m. unfold apply_type_dir.
  destruct (FS.exists_ m (PathLib.join template_dir template_type));
    [| reflexivity].
  apply read_only_bind; [apply read_only_read |]. intros entries.
  apply read_only_for_each. intros x. apply dry_run_entry.
Qed.

Lemma dry_run_apply_patterns (template_dir target_repo : path) (force : bool) :
  read_only (apply_patterns safe_load get_remote_url template_dir target_repo
               true force).
Proof.
  intros m. unfold apply_patterns.
  apply read_only_bind; [apply dry_run_type_dir |]. intros helm.
  apply read_only_bind; [apply dry_run_type_dir |]. intros argocd.
  apply read_only_ret.
Qed.

Lemma dry_run_helm_template (t : template) (target_repo : path)
    (variables : gmap string Jinja.value) :
  read_only (_apply_helm_template t target_repo variables true).
Proof. unfold _apply_helm_template. read_only_steps. Qed.

Lemma dry_run_argocd_template (t : template) (target_repo : path)
    (variables : gmap string Jinja.value) :
  read_only (_apply_argocd_template t target_repo variables true).
Proof. unfold _apply_argocd_template. read_only_steps. Qed.

Lemma dry_run_apply_patterns_direct (templates : list template)
    (target_repo : path) :
  read_only (apply_patterns_direct get_remote_url templates target_repo true).
Proof.
  unfold apply_patterns_direct. apply read_only_for_each. intros t.
  destruct (String.eqb (ttype t) "helm").
  - apply read_only_bind; [apply dry_run_helm_template |]. intros r.
    apply read_only_ret.
  - destruct (String.eqb (ttype t) "argocd"); [| apply read_only_ret].
    apply read_only_bind; [apply dry_run_argocd_template |]. intros r.
    apply read_only_ret.
Qed.

Lemma create_templates_in_memory (patterns : list pattern) :
  read_only (create_templates patterns None).
Proof.
  unfold create_templates. apply read_only_for_each. intros p.
  destruct (String.eqb (ptype p) "helm"); [read_only_steps |].
  destruct (String.eqb (ptype p) "argocd"); read_only_steps.
Qed.

(** C8. With dry-run enabled no apply changes the file system: the state
    after [apply_patterns] (whatever [force]), after [apply_patterns_direct]
    and after [replicate] is the state before, whether the call returns or
    raises. *)
Theorem dry_run_leaves_file_system :
  forall (template_dir source_repo target_repo : path) (force : bool)
         (templates : list template) (m : fs),
    fst (apply_patterns safe_load get_remote_url template_dir target_repo
           true force m) = m
    /\ fst (apply_patterns_direct get_remote_url templates target_repo true m) = m
    /\ fst (replicate safe_load get_remote_url source_repo target_repo true m) = m.
Proof.
  intros template_dir source_repo target_repo force templates m.
  split; [apply dry_run_apply_patterns |].
  split; [apply dry_run_apply_patterns_direct |].
  unfold replicate.
  destruct (fst (scan_repository safe_load m source_repo)); [reflexivity |].
  apply read_only_bind; [apply create_templates_in_memory |]. intros ts.
  apply read_only_bind; [apply dry_run_apply_patterns_direct |]. intros rs.
  apply read_only_ret.
Qed.

(** ** The decision of an apply from a template directory *)

Lemma last_filter_is_Some {A} (f : A -> bool) (l : list A) :
  bool_decide (is_Some (last (List.filter f l))) = existsb f l.
Proof.
  induction l as [| x l IH]; simpl; [reflexivity |].
  destruct (f x); simpl; [| exact IH].
  apply bool_decide_eq_true. rewrite last_cons.
  destruct (last (List.filter f l)); eauto.
Qed.

Lemma existing_of_has_kind (ps : list pattern) (kind : string) :
  bool_decide (is_Some (existing_of ps kind)) = has_kind ps kind.
Proof. apply last_filter_is_Some. Qed.

Lemma helm_chart_decision (template_dir target_repo : path)
    (existing : option pattern) (dry_run force : bool) (m m' : fs)
    (r : apply_result) :
  _apply_helm_chart get_remote_url template_dir target_repo existing dry_run
    force m = (m', Ok r) ->
  Py.startswith (pattern_id r) "helm/" = true
  /\ status r = decision (bool_decide (is_Some existing)) force dry_run.
Proof.
  unfold _apply_helm_chart, decision.
  destruct (bool_decide (is_Some existing) && negb force).
  { unfold io_ret. intros E. inversion E. split; reflexivity. }
  destruct dry_run.
  { unfold io_ret. intros E. inversion E. split; reflexivity. }
  intros E. apply io_bind_ok in E as (m1 & ? & _ & E).
  apply io_bind_ok in E as (m2 & ? & _ & E).
  apply io_bind_ok in E as (m3 & ? & _ & E).
  unfold io_ret in E. inversion E. split; reflexivity.
Qed.

Lemma argocd_app_decision (template_file target_repo : path)
    (existing : option pattern) (dry_run force : bool) (m m' : fs)
    (r : apply_result) :
  _apply_argocd_app get_remote_url template_file target_repo existing dry_run
    force m = (m', Ok r) ->
  Py.startswith (pattern_id r) "argocd/" = true
  /\ status r = decision (bool_decide (is_Some existing)) force dry_run.
Proof.
  unfold _apply_argocd_app, decision.
  destruct (bool_decide (is_Some existing) && negb force).
  { unfold io_ret. intros E. inversion E. split; reflexivity. }
  destruct dry_run.
  { unfold io_ret. intros E. inversion E. split; reflexivity. }
  intros E. apply io_bind_ok in E as (m1 & ? & _ & E).
  apply io_bind_ok in E as (m2 & ? & _ & E).
  apply io_bind_ok in E as (m3 & ? & _ & E).
  apply io_bind_ok in E as (m4 & ? & _ & E).
  unfold io_ret in E. inversion E. split; reflexivity.
Qed.

Lemma apply_entry_obeys (target_repo : path) (ps : list pattern)
    (dry_run force : bool) (template_path : path) (m m' : fs)
    (r : apply_result) :
  apply_entry get_remote_url target_repo ps dry_run force template_path m
  = (m', Ok (Some r)) ->
  obeys ps force dry_run r.
Proof.
  unfold apply_entry, obeys. destruct (FS.is_dir m template_path).
  - intros E. apply io_bind_ok in E as (m1 & x & H & E).
    unfold io_ret in E. inversion E. subst.
    apply helm_chart_decision in H. rewrite existing_of_has_kind in H. auto.
  - destruct (in_suffixes template_path [".yaml"; ".yml"]); [| discriminate].
    intros E. apply io_bind_ok in E as (m1 & x & H & E).
    unfold io_ret in E. inversion E. subst.
    apply argocd_app_decision in H. rewrite existing_of_has_kind in H. auto.
Qed.

Lemma apply_type_dir_obeys (template_dir target_repo : path)
    (ps : list pattern) (dry_run force : bool) (template_type : string)
    (m m' : fs) (rs : list apply_result) :
  apply_type_dir get_remote_url template_dir target_repo ps dry_run force
    template_type m = (m', Ok rs) ->
  Forall (obeys ps force dry_run) rs.
Proof.
  unfold apply_type_dir.
  destruct (FS.exists_ m (PathLib.join template_dir template_type)).
  - intros E. apply io_bind_ok in E as (m1 & entries & _ & E).
    revert E. apply for_each_ok. intros x m2 m3 r. apply apply_entry_obeys.
  - intros E. inversion E. constructor.
Qed.

(** Every result of an apply from a template directory carries the decision
    for its kind, taken on the patterns the scan of the target found. *)
Lemma apply_patterns_obeys (template_dir target_repo : path)
    (dry_run force : bool) (m m' : fs) (rs : list apply_result) :
  apply_patterns safe_load get_remote_url template_dir target_repo dry_run
    force m = (m', Ok rs) ->
  Forall (obeys (fst (scan_repository safe_load m target_repo)) force dry_run)
    rs.
Proof.
  unfold apply_patterns. intros E.
  apply io_bind_ok in E as (m1 & helm & H1 & E).
  apply io_bind_ok in E as (m2 & argocd & H2 & E).
  unfold io_ret in E. inversion E. subst.
  apply Forall_app. split; eapply apply_type_dir_obeys; eassumption.
Qed.

(** C1, amended. Under dry-run an apply from a template directory changes
    nothing, and each result it returns is [skipped] when the target already
    holds a pattern of the kind and [force] is off, and [would_apply]
    otherwise; in particular it is [would_apply] for every pattern when
    [force] is on or the target holds no pattern. *)
Theorem dry_run_skips_before_previewing
    (template_dir target_repo : path) (force : bool) (m : fs)
    (rs : list apply_result) :
  snd (apply_patterns safe_load get_remote_url template_dir target_repo true
         force m) = Ok rs ->
  fst (apply_patterns safe_load get_remote_url template_dir target_repo true
         force m) = m
  /\ Forall (obeys (fst (scan_repository safe_load m target_repo)) force true)
       rs
  /\ (force = true \/ fst (scan_repository safe_load m target_repo) = [] ->
      Forall (fun r => status r = would_apply) rs).
Proof.
  intros E.
  destruct (apply_patterns safe_load get_remote_url template_dir target_repo
              true force m) as [m' r] eqn:Run.
  simpl in E. subst r. pose proof (apply_patterns_obeys _ _ _ _ _ _ _ Run) as H.
  split; [| split; [exact H |]].
  - change m' with (fst (m', Ok rs : result (list apply_result))).
    rewrite <- Run. apply dry_run_apply_patterns.
  - intros Hcase. eapply Forall_impl; [exact H |].
    intros r [[_ ->] | [_ ->]]; unfold decision;
      destruct Hcase as [-> | ->]; simpl;
      rewrite ?andb_false_r; reflexivity.
Qed.

(** ** The direct apply *)

Lemma for_each_filter {A R} (f : A -> bool) (Q : A -> R -> Prop)
    (body : A -> io (option R)) (xs : list A) :
  (forall x m m' r, body x m = (m', Ok r) ->
     match r with
     | Some r => f x = true /\ Q x r
     | None => f x = false
     end) ->
  forall m m' rs, for_each xs body m = (m', Ok rs) ->
    Forall2 Q (List.filter f xs) rs.
Proof.
  intros Hbody. induction xs as [| x xs IH]; intros m m' rs; simpl.
  - unfold io_ret. intros E. inversion E. constructor.
  - intros E. apply io_bind_ok in E as (m1 & r & Hx & E).
    apply io_bind_ok in E as (m2 & rs' & Hxs & E).
    unfold io_ret in E. inversion E. subst. apply IH in Hxs.
    apply Hbody in Hx. destruct r as [r |].
    + destruct Hx as [-> Hq]. constructor; assumption.
    + rewrite Hx. assumption.
Qed.

Lemma helm_template_status (t : template) (target_repo : path)
    (variables : gmap string Jinja.value) (dry_run : bool) (m m' : fs)
    (r : apply_result) :
  _apply_helm_template t target_repo variables dry_run m = (m', Ok r) ->
  status r = if dry_run then would_apply else applied.
Proof.
  unfold _apply_helm_template. intros E.
  apply io_bind_ok in E as (m1 & ? & _ & E).
  apply io_bind_ok in E as (m2 & ? & _ & E).
  destruct dry_run.
  - unfold io_ret in E. inversion E. reflexivity.
  - apply io_bind_ok in E as (m3 & ? & _ & E).
    unfold io_ret in E. inversion E. reflexivity.
Qed.

Lemma argocd_template_status (t : template) (target_repo : path)
    (variables : gmap string Jinja.value) (dry_run : bool) (m m' : fs)
    (r : apply_result) :
  _apply_argocd_template t target_repo variables dry_run m = (m', Ok r) ->
  status r = if dry_run then would_apply else applied.
Proof.
  unfold _apply_argocd_template. intros E.
  apply io_bind_ok in E as (m1 & ? & _ & E).
  destruct dry_run.
  - unfold io_ret in E. inversion E. reflexivity.
  - apply io_bind_ok in E as (m2 & ? & _ & E).
    apply io_bind_ok in E as (m3 & ? & _ & E).
    apply io_bind_ok in E as (m4 & ? & _ & E).
    apply io_bind_ok in E as (m5 & ? & _ & E).
    unfold io_ret in E. inversion E. reflexivity.
Qed.

Lemma direct_statuses (templates : list template) (target_repo : path)
    (dry_run : bool) (m m' : fs) (rs : list apply_result) :
  apply_patterns_direct get_remote_url templates target_repo dry_run m
  = (m', Ok rs) ->
  Forall2 (fun _ r => status r = if dry_run then would_apply else applied)
    (List.filter recognized templates) rs.
Proof.
  unfold apply_patterns_direct. apply for_each_filter.
  intros t m1 m2 r. unfold recognized.
  destruct (String.eqb (ttype t) "helm").
  - intros E. apply io_bind_ok in E as (m3 & x & H & E).
    unfold io_ret in E. inversion E. subst.
    split; [reflexivity |]. eapply helm_template_status, H.
  - destruct (String.eqb (ttype t) "argocd").
    + intros E. apply io_bind_ok in E as (m3 & x & H & E).
      unfold io_ret in E. inversion E. subst.
      split; [reflexivity |]. eapply argocd_template_status, H.
    + unfold io_ret. intros E. inversion E. reflexivity.
Qed.



Lemma write_text_ok (p : path) (content : string) (m m' : fs) (u : unit) :
  FS.write_text p content m = (m', Ok u) -> m' !! p = Some (File content).
Proof.
  unfold FS.write_text.
  destruct (FS.node_at m p) as [[c |] |];
    destruct (FS.node_at m (PathLib.parent p)) as [[c' |] |];
    intros E; inversion E; apply lookup_insert_eq.
Qed.

Lemma argocd_template_overwrites (t : template) (target_repo : path)
    (variables : gmap string Jinja.value) (m m' : fs) (r : apply_result) :
  _apply_argocd_template t target_repo variables false m = (m', Ok r) ->
  exists name body out,
    format_value (tname t) = Ok name
    /\ files_item (tfiles t) "application.yaml" = Ok body
    /\ Jinja.render body variables = Ok out
    /\ m' !! PathLib.joinstr (target_repo ++ ["deployments"; "argocd"])
                (name ++ "-application.yaml") = Some (File out).
Proof.
  unfold _apply_argocd_template. intros E.
  apply io_bind_ok in E as (m1 & name & Hname & E).
  apply io_bind_ok in E as (m2 & ? & _ & E).
  apply io_bind_ok in E as (m3 & body & Hbody & E).
  apply io_bind_ok in E as (m4 & out & Hout & E).
  apply io_bind_ok in E as (m5 & u & Hw & E).
  unfold io_ret in E. inversion E. subst.
  unfold io_read in *. inversion Hname. inversion Hbody. inversion Hout.
  exists name, body, out. repeat split; try assumption.
  eapply write_text_ok, Hw.
Qed.


(** ** Rendering *)

Fixpoint eval_plain (vars : gmap string Jinja.value) (e : Jinja.expr)
    {struct e} :
  plain_expr e = true -> exists v, Jinja.eval vars e = Ok v.
Proof.
  destruct e as [v | x | e d | a b]; simpl.
  - eauto.
  - unfold Jinja.resolve. destruct (vars !! x); [eauto |].
    destruct (Jinja.is_global x); [discriminate | eauto].
  - intros H. apply andb_true_iff in H as [He Hd].
    destruct (eval_plain vars e He) as [v ->]. simpl.
    destruct d as [d |]; simpl; [| eauto].
    destruct (eval_plain vars d Hd) as [dv ->]. simpl. eauto.
  - intros H. apply andb_true_iff in H as [Ha Hb].
    destruct (eval_plain vars a Ha) as [x ->].
    destruct (eval_plain vars b Hb) as [y ->]. simpl. eauto.
Qed.

Lemma concat_outputs_plain (vars : gmap string Jinja.value)
    (ns : list Jinja.tnode) :
  Forall (fun n => exists out, Jinja.render_node vars n = Ok out) ns ->
  exists out, Jinja.concat_outputs (Jinja.render_node vars) ns = Ok out.
Proof.
  induction 1 as [| n ns [s Hs] _ [r IH]]; simpl; [eauto |].
  rewrite Hs, IH. eauto.
Qed.

Fixpoint render_node_plain (vars : gmap string Jinja.value) (n : Jinja.tnode)
    {struct n} :
  plain_node n = true -> exists out, Jinja.render_node vars n = Ok out.
Proof.
  destruct n as [s | e | e body]; simpl.
  - eauto.
  - intros H. destruct (eval_plain vars e H) as [v ->]. eauto.
  - intros H. apply andb_true_iff in H as [He Hb].
    destruct (eval_plain vars e He) as [v ->].
    destruct (Jinja.truthy v); [| eauto].
    apply concat_outputs_plain. clear -Hb render_node_plain.
    induction body as [| n body IH]; simpl in *; constructor.
    + apply andb_true_iff in Hb as [Hn _]. apply render_node_plain, Hn.
    + apply andb_true_iff in Hb as [_ Hb]. apply IH, Hb.
Qed.

(** A compiled template that reads no environment name renders with every
    variable set. *)
Lemma render_nodes_plain (vars : gmap string Jinja.value)
    (ns : list Jinja.tnode) :
  forallb plain_node ns = true ->
  exists out, Jinja.render_nodes vars ns = Ok out.
Proof.
  intros H. apply concat_outputs_plain.
  induction ns as [| n ns IH]; simpl in *; constructor.
  - apply andb_true_iff in H as [Hn _]. apply render_node_plain, Hn.
  - apply andb_true_iff in H as [_ H]. apply IH, H.
Qed.

(** C4, amended. A placeholder with no binding and no default is not an
    error: it renders as the empty string. A placeholder with a default
    renders its binding when it has one and its default otherwise, so that
    a template whose names are all plain renders with every variable set,
    however partial; the chart, values and application templates of the
    package are of that kind. *)
Theorem unbound_placeholder_renders_empty :
  (forall (vars : gmap string Jinja.value) (x : string),
     vars !! x = None -> Jinja.is_global x = false ->
     Jinja.render_nodes vars [Jinja.NPrint (Jinja.EName x)] = Ok "")
  /\ (forall (vars : gmap string Jinja.value) (x : string) (d : Jinja.value),
        Jinja.is_global x = false ->
        Jinja.render_nodes vars
          [Jinja.NPrint (Jinja.EDefault (Jinja.EName x)
                           (Some (Jinja.EConst d)))]
        = Ok (Jinja.to_str match vars !! x with
                           | Some Jinja.JUndefined | None => d
                           | Some v => v
                           end))
  /\ (forall (source : string) (ns : list Jinja.tnode)
             (vars : gmap string Jinja.value),
        Jinja.compile source = Ok ns -> forallb plain_node ns = true ->
        exists out, render_template source vars = Ok out)
  /\ (forall (vars : gmap string Jinja.value) (source : string),
        In source [TemplateEngine.chart_template;
                   TemplateEngine.values_template;
                   TemplateEngine.app_template] ->
        exists out, render_template source vars = Ok out).
Proof.
  assert (Hcompiled : forall source ns vars,
             Jinja.compile source = Ok ns -> forallb plain_node ns = true ->
             exists out, render_template source vars = Ok out).
  { intros source ns vars Hc Hp. unfold render_template, Jinja.render.
    rewrite Hc. simpl. apply render_nodes_plain, Hp. }
  split; [| split; [| split]].
  - intros vars x Hx Hg. unfold Jinja.render_nodes. simpl.
    unfold Jinja.resolve. rewrite Hx, Hg. reflexivity.
  - intros vars x d Hg. unfold Jinja.render_nodes. simpl.
    unfold Jinja.resolve. destruct (vars !! x) as [v |]; simpl.
    + destruct v; simpl; rewrite ?append_empty_r; reflexivity.
    + rewrite Hg. simpl. rewrite ?append_empty_r. reflexivity.
  - exact Hcompiled.
  - intros vars source Hin.
    destruct Hin as [<- | [<- | [<- | []]]].
    + destruct (Jinja.compile TemplateEngine.chart_template) as [ns |] eqn:E;
        [| vm_compute in E; discriminate].
      apply (Hcompiled _ ns vars E).
      vm_compute in E. inversion E. vm_compute. reflexivity.
    + destruct (Jinja.compile TemplateEngine.values_template) as [ns |] eqn:E;
        [| vm_compute in E; discriminate].
      apply (Hcompiled _ ns vars E).
      vm_compute in E. inversion E. vm_compute. reflexivity.
    + destruct (Jinja.compile TemplateEngine.app_template) as [ns |] eqn:E;
        [| vm_compute in E; discriminate].
      apply (Hcompiled _ ns vars E).
      vm_compute in E. inversion E. vm_compute. reflexivity.
Qed.

(** ** Parameters of a chart *)





Arguments Yaml.lookup : simpl never.




Lemma read_text_exists (m : fs) (p : path) (text : string) :
  FS.read_text m p = Ok text -> FS.exists_ m p = true.
Proof.
  unfold FS.read_text, FS.exists_. destruct (FS.node_at m p) as [[c |] |];
    try discriminate. intros _. apply bool_decide_eq_true. eauto.
Qed.


(** ** Listings *)

Lemma select_NoDup (m : fs) (P : path -> bool) : NoDup (FS.select m P).
Proof. apply NoDup_fst_map_to_list. Qed.

Lemma in_select (m : fs) (P : path -> bool) (q : path) :
  In q (FS.select m P) <-> P q = true /\ is_Some (m !! q).
Proof.
  unfold FS.select. rewrite <- list_elem_of_In, list_elem_of_fmap. split.
  - intros ([q' v] & -> & H). apply elem_of_map_to_list in H.
    apply map_lookup_filter_Some in H as [H HP]. simpl in *.
    split; [apply Is_true_true, HP | eauto].
  - intros [HP [v Hv]]. exists (q, v). split; [reflexivity |].
    apply elem_of_map_to_list, map_lookup_filter_Some.
    split; [exact Hv | apply Is_true_true, HP].
Qed.

Lemma rglob_NoDup (m : fs) (d : path) (f : string -> bool) :
  NoDup (FS.rglob m d f).
Proof.
  unfold FS.rglob. destruct (FS.is_dir m d); [apply select_NoDup | constructor].
Qed.

Lemma in_rglob_name (m : fs) (d : path) (f : string -> bool) (q : path) :
  In q (FS.rglob m d f) -> f (PathLib.name q) = true /\ q <> [].
Proof.
  unfold FS.rglob. destruct (FS.is_dir m d); [| intros []].
  intros H. apply in_select in H as [H _].
  apply andb_true_iff in H as [Hb Hf]. split; [exact Hf |].
  unfold PathLib.below in Hb. apply andb_true_iff in Hb as [Hpre Hne].
  apply bool_decide_eq_true in Hpre as [k ->]. apply negb_true_iff in Hne.
  apply bool_decide_eq_false in Hne. intros E. apply Hne.
  apply app_eq_nil in E as [-> ->]. reflexivity.
Qed.

Lemma parent_name (q : path) :
  q <> [] -> q = PathLib.parent q ++ [PathLib.name q].
Proof. apply app_removelast_last. Qed.

(** ** The chart detector *)

Lemma analyze_helm_chart_ok (m : fs) (chart_dir : path) (p : pattern) :
  analyze_helm_chart_try safe_load m chart_dir = Ok p ->
  ptype p = "helm" /\ ppath p = chart_dir.
Proof.
  unfold analyze_helm_chart_try.
  destruct (load_file safe_load m (PathLib.join chart_dir "Chart.yaml"))
    as [data |]; simpl; [| discriminate].
  destruct (Yaml.get data "name" (YStr (PathLib.name chart_dir)));
    simpl; [| discriminate].
  destruct (Yaml.get data "version" (YStr "0.1.0")); simpl; [| discriminate].
  intros E. inversion E. split; reflexivity.
Qed.

Lemma helm_loop_patterns (m : fs) (files : list path) (p : pattern) :
  In p (fst (helm_detect_loop safe_load m files)) <->
  exists f, In f files /\ excluded f = false
            /\ analyze_helm_chart_try safe_load m (PathLib.parent f) = Ok p.
Proof. clear get_remote_url.
  induction files as [| f files IH]; simpl.
  - split; [intros [] | intros (f & [] & _)].
  - destruct (helm_detect_loop safe_load m files) as [ps ds]. simpl in IH.
    unfold _analyze_helm_chart.
    destruct (excluded f) eqn:X; simpl.
    + rewrite IH. split.
      * intros (g & Hg & H). exists g. auto.
      * intros (g & [-> | Hg] & Xg & H); [congruence | eauto].
    + destruct (analyze_helm_chart_try safe_load m (PathLib.parent f))
        as [q | e] eqn:A; simpl; rewrite ?IH; split.
      * intros [<- | (g & Hg & H)]; [exists f; auto | exists g; tauto].
      * intros (g & [-> | Hg] & Xg & H); [left; congruence | right; eauto].
      * intros (g & Hg & H). exists g. auto.
      * intros (g & [-> | Hg] & Xg & H); [congruence | eauto].
Qed.

Lemma helm_loop_diagnostics (m : fs) (files : list path) (f : path) (e : exn) :
  In f files -> excluded f = false ->
  analyze_helm_chart_try safe_load m (PathLib.parent f) = Raise e ->
  In (HelmError (PathLib.parent f) e) (snd (helm_detect_loop safe_load m files)).
Proof.
  intros Hf X A. induction files as [| g files IH]; simpl; [destruct Hf |].
  destruct (helm_detect_loop safe_load m files) as [ps ds]. simpl in IH.
  unfold _analyze_helm_chart. destruct Hf as [-> | Hf].
  - rewrite X, A. simpl. left. reflexivity.
  - destruct (excluded g); simpl; [auto |].
    destruct (analyze_helm_chart_try safe_load m (PathLib.parent g));
      simpl; auto.
Qed.

(** The directories of the chart patterns are the parents of the chart
    files whose analysis succeeds, in the order of the files. *)
Lemma helm_loop_paths (m : fs) (files : list path) :
  List.map ppath (fst (helm_detect_loop safe_load m files))
  = List.map PathLib.parent
      (List.filter
         (fun f => negb (excluded f)
                   && is_ok (analyze_helm_chart_try safe_load m (PathLib.parent f)))
         files).
Proof.
  induction files as [| f files IH]; simpl; [reflexivity |].
  destruct (helm_detect_loop safe_load m files) as [ps ds]. simpl in IH.
  unfold _analyze_helm_chart. destruct (excluded f); simpl; [exact IH |].
  destruct (analyze_helm_chart_try safe_load m (PathLib.parent f))
    as [q | e] eqn:A; simpl; [| exact IH].
  apply analyze_helm_chart_ok in A as [_ ->]. rewrite IH. reflexivity.
Qed.

Lemma helm_detect_NoDup (m : fs) (repo_path : path) :
  NoDup (List.map ppath (fst (helm_detect safe_load m repo_path))).
Proof.
  unfold helm_detect. rewrite helm_loop_paths.
  apply NoDup_fmap_2_strong.
  - intros f g Hf Hg E.
    apply list_elem_of_In, filter_In in Hf as [Hf _].
    apply list_elem_of_In, filter_In in Hg as [Hg _].
    apply in_rglob_name in Hf as [Nf Hf], Hg as [Ng Hg].
    apply String.eqb_eq in Nf, Ng.
    rewrite (parent_name f Hf), (parent_name g Hg), E, <- Nf, <- Ng.
    reflexivity.
  - apply NoDup_ListNoDup, List.NoDup_filter, NoDup_ListNoDup, rglob_NoDup.
Qed.

Lemma helm_detect_types (m : fs) (repo_path : path) (p : pattern) :
  In p (fst (helm_detect safe_load m repo_path)) -> ptype p = "helm".
Proof. clear get_remote_url.
  unfold helm_detect. intros H. apply helm_loop_patterns in H as (f & _ & _ & A).
  apply analyze_helm_chart_ok in A. tauto.
Qed.

(** ** The application detector *)

Lemma analyze_argocd_app_ok (m : fs) (app_file : path) (p : pattern) :
  analyze_argocd_app_try safe_load m app_file = Ok p ->
  ptype p = "argocd" /\ ppath p = PathLib.parent app_file
  /\ pconfigs p = [app_file].
Proof.
  unfold analyze_argocd_app_try.
  destruct (load_file safe_load m app_file) as [data |]; simpl; [| discriminate].
  destruct (Yaml.get data "metadata" (YMap [])) as [md |]; simpl;
    [| discriminate].
  destruct (Yaml.get data "spec" (YMap [])) as [spec |]; simpl; [| discriminate].
  destruct (Yaml.get md "name" (YStr (PathLib.stem app_file))); simpl;
    [| discriminate].
  destruct (Yaml.get spec "source" (YMap [])) as [src |]; simpl;
    [| discriminate].
  destruct (Yaml.has src "helm"); simpl; [| discriminate].
  intros E. inversion E. repeat split; reflexivity.
Qed.

Lemma found_nil (m : fs) (p : pattern) : ~ found safe_load m [] p.
Proof. intros (f & [] & _). Qed.

Lemma found_app (m : fs) (a b : list path) (p : pattern) :
  found safe_load m (a ++ b) p <-> found safe_load m a p \/ found safe_load m b p.
Proof.
  unfold found. split.
  - intros (f & Hf & H). apply in_app_iff in Hf as [Hf | Hf]; eauto.
  - intros [(f & Hf & H) | (f & Hf & H)]; exists f;
      (split; [apply in_app_iff; auto | exact H]).
Qed.

Lemma reported_app (m : fs) (a b : list path) (d : diagnostic) :
  reported safe_load m (a ++ b) d <-> reported safe_load m a d \/ reported safe_load m b d.
Proof.
  unfold reported. split.
  - intros (f & e & Hf & H). apply in_app_iff in Hf as [Hf | Hf]; eauto.
  - intros [(f & e & Hf & H) | (f & e & Hf & H)]; exists f, e;
      (split; [apply in_app_iff; auto | exact H]).
Qed.

Lemma found_cons (m : fs) (f : path) (files : list path) (p : pattern) :
  found safe_load m (f :: files) p <-> found safe_load m [f] p \/ found safe_load m files p.
Proof. apply (found_app m [f] files). Qed.

Lemma reported_cons (m : fs) (f : path) (files : list path) (d : diagnostic) :
  reported safe_load m (f :: files) d <-> reported safe_load m [f] d \/ reported safe_load m files d.
Proof. apply (reported_app m [f] files). Qed.

Lemma found_one (m : fs) (f : path) (p : pattern) :
  found safe_load m [f] p <->
  _is_argocd_app safe_load m f = true
  /\ analyze_argocd_app_try safe_load m f = Ok p.
Proof.
  unfold found. split.
  - intros (g & [<- | []] & H). exact H.
  - intros H. exists f. split; [left; reflexivity | exact H].
Qed.

Lemma reported_one (m : fs) (f : path) (d : diagnostic) :
  reported safe_load m [f] d <->
  exists e, _is_argocd_app safe_load m f = true
            /\ analyze_argocd_app_try safe_load m f = Raise e
            /\ d = ArgoError f e.
Proof.
  unfold reported. split.
  - intros (g & e & [<- | []] & H). eauto.
  - intros (e & H). exists f, e. split; [left; reflexivity | exact H].
Qed.

Lemma scan_argocd_loop_spec (m : fs) (files : list path) :
  (forall p, In p (fst (scan_argocd_loop safe_load m files)) <-> found safe_load m files p)
  /\ (forall d, In d (snd (scan_argocd_loop safe_load m files))
                <-> reported safe_load m files d).
Proof.
  induction files as [| f files [IHp IHd]]; simpl.
  - split; intros x; (split; [intros [] |]).
    + intros H. destruct (found_nil m x H).
    + intros (g & e & [] & _).
  - destruct (scan_argocd_loop safe_load m files) as [ps ds]. simpl in *.
    unfold _analyze_argocd_app. split; intros x.
    + rewrite found_cons, found_one, <- IHp.
      destruct (_is_argocd_app safe_load m f); simpl;
        [destruct (analyze_argocd_app_try safe_load m f) as [q | e]; simpl |].
      * split; [intros [<- | H]; auto |
                intros [[_ E] | H]; [left; congruence | auto]].
      * split; [auto | intros [[_ E] | H]; [discriminate | auto]].
      * split; [auto | intros [[E _] | H]; [discriminate | auto]].
    + rewrite reported_cons, reported_one, <- IHd.
      destruct (_is_argocd_app safe_load m f); simpl;
        [destruct (analyze_argocd_app_try safe_load m f) as [q | e]; simpl |].
      * split; [auto | intros [(e & _ & E & _) | H]; [discriminate | auto]].
      * split; [intros [<- | H]; eauto |
                intros [(e' & _ & E & ->) | H]; [left; congruence | auto]].
      * split; [auto | intros [(e & E & _) | H]; [discriminate | auto]].
Qed.

Lemma in_concat_map {A B} (g : A -> list B) (xs : list A) (y : B) :
  In y (List.concat (List.map g xs)) <-> exists x, In x xs /\ In y (g x).
Proof.
  rewrite in_concat. split.
  - intros (l & Hl & Hy). apply in_map_iff in Hl as (x & <- & Hx). eauto.
  - intros (x & Hx & Hy). exists (g x). split; [apply in_map, Hx | exact Hy].
Qed.

Lemma argocd_dirs_loop_spec (m : fs) (repo_path : path) (subdirs : list path) :
  (forall p, In p (fst (argocd_dirs_loop safe_load m repo_path subdirs))
             <-> found safe_load m (conventional m repo_path subdirs) p)
  /\ (forall d, In d (snd (argocd_dirs_loop safe_load m repo_path subdirs))
                <-> reported safe_load m (conventional m repo_path subdirs) d).
Proof.
  induction subdirs as [| sub subdirs [IHp IHd]]; simpl.
  - split; intros x; (split; [intros [] |]).
    + intros H. destruct (found_nil m x H).
    + intros (g & e & [] & _).
  - unfold conventional. simpl. fold (conventional m repo_path subdirs).
    destruct (argocd_dirs_loop safe_load m repo_path subdirs) as [ps' ds'].
    simpl in *.
    destruct (FS.exists_ m (repo_path ++ sub) && FS.is_dir m (repo_path ++ sub)).
    + unfold _scan_argocd_directory.
      destruct (scan_argocd_loop_spec m
                  (FS.glob m (repo_path ++ sub) (fun n => Py.endswith n ".yaml")))
        as [Hp Hd].
      destruct (scan_argocd_loop safe_load m
                  (FS.glob m (repo_path ++ sub) (fun n => Py.endswith n ".yaml")))
        as [ps ds]. simpl in *.
      split; intros x.
      * rewrite in_app_iff, found_app, Hp, IHp. reflexivity.
      * rewrite in_app_iff, reported_app, Hd, IHd. reflexivity.
    + simpl. split; intros x.
      * rewrite IHp. reflexivity.
      * rewrite IHd. reflexivity.
Qed.

Lemma existsb_pattern_eqb (p : pattern) (ps : list pattern) :
  existsb (pattern_eqb p) ps = true <-> In p ps.
Proof.
  rewrite existsb_exists. split.
  - intros (q & Hq & E). apply pattern_eqb_eq in E. subst. exact Hq.
  - intros H. exists p. split; [exact H | apply pattern_eqb_eq; reflexivity].
Qed.

Lemma argocd_files_loop_spec (m : fs) (files : list path)
    (acc : list pattern * list diagnostic) :
  (forall p, In p (fst (argocd_files_loop safe_load m files acc))
             <-> In p (fst acc) \/ found safe_load m files p)
  /\ (forall d, In d (snd (argocd_files_loop safe_load m files acc))
                <-> In d (snd acc) \/ reported safe_load m files d).
Proof.
  revert acc. induction files as [| f files IH]; intros [ps ds]; simpl.
  - split; intros x; (split; [auto | intros [H | H]; [exact H |]]).
    + destruct (found_nil m x H).
    + destruct H as (g & e & [] & _).
  - unfold _analyze_argocd_app.
    match goal with
    | |- context [argocd_files_loop _ _ _ ?a] => destruct (IH a) as [Hp Hd]
    end.
    split; intros x.
    + rewrite Hp, found_cons, found_one.
      destruct (_is_argocd_app safe_load m f); simpl;
        [destruct (analyze_argocd_app_try safe_load m f) as [q | e]; simpl;
         [destruct (existsb (pattern_eqb q) ps) eqn:Q; simpl;
          [apply existsb_pattern_eqb in Q | rewrite in_app_iff; simpl] |] |];
        split; intros H;
        repeat match goal with
               | H : _ \/ _ |- _ => destruct H as [H | H]
               | H : _ /\ _ |- _ => destruct H as [? H]
               | H : False |- _ => destruct H
               | H : Ok _ = Ok _ |- _ => inversion H; clear H; subst
               | H : _ = _ |- _ => discriminate H
               end; subst; auto.
    + rewrite Hd, reported_cons, reported_one.
      destruct (_is_argocd_app safe_load m f); simpl;
        [destruct (analyze_argocd_app_try safe_load m f) as [q | e]; simpl;
         [destruct (existsb (pattern_eqb q) ps); simpl; rewrite app_nil_r
         | rewrite in_app_iff; simpl] |];
        split; intros H;
        repeat match goal with
               | H : _ \/ _ |- _ => destruct H as [H | H]
               | H : exists _, _ |- _ => destruct H as [? H]
               | H : _ /\ _ |- _ => destruct H as [? H]
               | H : False |- _ => destruct H
               | H : Raise _ = Raise _ |- _ => inversion H; clear H; subst
               | H : _ = _ |- _ => discriminate H
               end; subst; eauto 6.
Qed.

Lemma argocd_candidates_split (m : fs) (repo_path : path) :
  argocd_candidates m repo_path
  = conventional m repo_path argocd_paths
    ++ FS.rglob m repo_path application_yaml.
Proof. reflexivity. Qed.

(** The application detector finds the patterns of its classified
    candidates and reports those whose analysis raises. *)
Lemma argocd_detect_spec (m : fs) (repo_path : path) :
  (forall p, In p (fst (argocd_detect safe_load m repo_path))
             <-> found safe_load m (argocd_candidates m repo_path) p)
  /\ (forall d, In d (snd (argocd_detect safe_load m repo_path))
                <-> reported safe_load m (argocd_candidates m repo_path) d).
Proof.
  unfold argocd_detect. rewrite argocd_candidates_split.
  destruct (argocd_files_loop_spec m (FS.rglob m repo_path application_yaml)
              (argocd_dirs_loop safe_load m repo_path argocd_paths)) as [Hp Hd].
  destruct (argocd_dirs_loop_spec m repo_path argocd_paths) as [Hp' Hd'].
  split; intros x.
  - rewrite Hp, Hp', found_app. reflexivity.
  - rewrite Hd, Hd', reported_app. reflexivity.
Qed.

Lemma argocd_detect_types (m : fs) (repo_path : path) (p : pattern) :
  In p (fst (argocd_detect safe_load m repo_path)) -> ptype p = "argocd".
Proof. clear get_remote_url.
  intros H. apply argocd_detect_spec in H as (f & _ & _ & A).
  apply analyze_argocd_app_ok in A. tauto.
Qed.

Lemma scan_repository_split (m : fs) (repo_path : path) :
  scan_repository safe_load m repo_path
  = (fst (helm_detect safe_load m repo_path)
       ++ fst (argocd_detect safe_load m repo_path),
     snd (helm_detect safe_load m repo_path)
       ++ snd (argocd_detect safe_load m repo_path)).
Proof.
  unfold scan_repository.
  destruct (helm_detect safe_load m repo_path),
    (argocd_detect safe_load m repo_path). reflexivity.
Qed.

(** C9. A scan returns patterns and diagnostic lines, never an exception.
    For every file a detector analyses, a successful analysis puts its
    pattern in the result; an analysis that raises puts a diagnostic line
    for the file in the output and leaves the file out of the result, the
    patterns of the other files being found all the same. *)
Theorem scan_fails_open (m : fs) (repo_path : path) :
  (forall f, In f (helm_candidates m repo_path) ->
     match analyze_helm_chart_try safe_load m (PathLib.parent f) with
     | Ok p => In p (fst (scan_repository safe_load m repo_path))
     | Raise e =>
         In (HelmError (PathLib.parent f) e)
           (snd (scan_repository safe_load m repo_path))
         /\ forall p, In p (fst (scan_repository safe_load m repo_path)) ->
                      ptype p = "helm" -> ppath p <> PathLib.parent f
     end)
  /\ (forall f, In f (argocd_candidates m repo_path) ->
        _is_argocd_app safe_load m f = true ->
        match analyze_argocd_app_try safe_load m f with
        | Ok p => In p (fst (scan_repository safe_load m repo_path))
        | Raise e =>
            In (ArgoError f e) (snd (scan_repository safe_load m repo_path))
            /\ forall p, In p (fst (scan_repository safe_load m repo_path)) ->
                         ptype p = "argocd" -> pconfigs p <> [f]
        end).
Proof.
  rewrite scan_repository_split. simpl. split.
  - intros f Hf. unfold helm_candidates in Hf.
    apply filter_In in Hf as [Hf X]. apply negb_true_iff in X.
    destruct (analyze_helm_chart_try safe_load m (PathLib.parent f))
      as [p | e] eqn:A.
    + apply in_app_iff. left. apply helm_loop_patterns. eauto.
    + split.
      * apply in_app_iff. left. apply helm_loop_diagnostics; assumption.
      * intros p Hp T E. apply in_app_iff in Hp as [Hp | Hp].
        -- apply helm_loop_patterns in Hp as (g & _ & _ & B).
           pose proof (analyze_helm_chart_ok _ _ _ B) as [_ Hg].
           rewrite Hg in E. rewrite E in B. congruence.
        -- apply argocd_detect_types in Hp. congruence.
  - intros f Hf C.
    destruct (analyze_argocd_app_try safe_load m f) as [p | e] eqn:A.
    + apply in_app_iff. right. apply argocd_detect_spec. exists f. auto.
    + split.
      * apply in_app_iff. right. apply argocd_detect_spec. exists f, e. auto.
      * intros p Hp T E. apply in_app_iff in Hp as [Hp | Hp].
        -- apply helm_detect_types in Hp. congruence.
        -- apply argocd_detect_spec in Hp as (g & _ & _ & B).
           pose proof (analyze_argocd_app_ok _ _ _ B) as (_ & _ & Hg).
           rewrite Hg in E. inversion E. subst. congruence.
Qed.

(** C3, amended. Within one scan, kind and source path identify a chart
    pattern: no two chart patterns have the same path. Application patterns
    carry the directory of their file as path, so that two applications of
    one directory share kind and path. *)
Theorem chart_paths_unique_in_scan (m : fs) (repo_path : path) :
  NoDup (List.map ppath
           (List.filter (fun p => String.eqb (ptype p) "helm")
              (fst (scan_repository safe_load m repo_path))))
  /\ (forall p, In p (fst (scan_repository safe_load m repo_path)) ->
        ptype p = "argocd" ->
        exists f, pconfigs p = [f] /\ ppath p = PathLib.parent f).
Proof.
  rewrite scan_repository_split. simpl. split.
  - rewrite List.filter_app.
    assert (H1 : List.filter (fun p => String.eqb (ptype p) "helm")
                   (fst (helm_detect safe_load m repo_path))
                 = fst (helm_detect safe_load m repo_path)).
    { apply forallb_filter_id, forallb_forall. intros p Hp.
      apply helm_detect_types in Hp. rewrite Hp. reflexivity. }
    assert (H2 : List.filter (fun p => String.eqb (ptype p) "helm")
                   (fst (argocd_detect safe_load m repo_path)) = []).
    { destruct (List.filter _ (fst (argocd_detect safe_load m repo_path)))
        as [| p l] eqn:E; [reflexivity |].
      assert (Hp : In p (p :: l)) by (left; reflexivity).
      rewrite <- E in Hp. apply filter_In in Hp as [Hp T].
      apply argocd_detect_types in Hp. rewrite Hp in T. discriminate. }
    rewrite H1, H2, app_nil_r. apply helm_detect_NoDup.
  - intros p Hp T. apply in_app_iff in Hp as [Hp | Hp].
    + apply helm_detect_types in Hp. congruence.
    + apply argocd_detect_spec in Hp as (f & _ & _ & A).
      apply analyze_argocd_app_ok in A as (_ & Hd & Hc). eauto.
Qed.

(** ** Directories and files *)

Lemma mkdir_from_spec (todo : path) :
  forall (m : fs) (done : path),
    (forall q c, In q (mkdir_steps done todo) -> m !! q <> Some (File c)) ->
    exists m',
      FS.mkdir_from m done todo = (m', Ok tt)
      /\ (forall q, In q (mkdir_steps done todo) -> m' !! q = Some Dir)
      /\ (forall q, ~ In q (mkdir_steps done todo) -> m' !! q = m !! q).
Proof.
  induction todo as [| part todo IH]; intros m done Hfree; simpl.
  - exists m. split; [reflexivity |]. split; [intros q [] | reflexivity].
  - destruct (m !! (done ++ [part])) as [[c |] |] eqn:E.
    + destruct (Hfree (done ++ [part]) c); [left; reflexivity | exact E].
    + destruct (IH m (done ++ [part])) as (m' & Hrun & Hdir & Hother).
      { intros q c Hq. apply Hfree. right. exact Hq. }
      exists m'. split; [exact Hrun |]. split.
      * intros q [<- | Hq]; [| apply Hdir, Hq].
        destruct (in_dec (List.list_eq_dec String.string_dec) (done ++ [part])
                    (mkdir_steps (done ++ [part]) todo)) as [Hin | Hout].
        -- apply Hdir, Hin.
        -- rewrite (Hother _ Hout). exact E.
      * intros q Hq. apply Hother. intros Hin. apply Hq. right. exact Hin.
    + destruct (IH (<[done ++ [part] := Dir]> m) (done ++ [part]))
        as (m' & Hrun & Hdir & Hother).
      { intros q c Hq. destruct (decide (done ++ [part] = q)) as [<- | Hne].
        - rewrite lookup_insert_eq. discriminate.
        - rewrite lookup_insert_ne by exact Hne. apply Hfree. right. exact Hq. }
      exists m'. split; [exact Hrun |]. split.
      * intros q [<- | Hq]; [| apply Hdir, Hq].
        destruct (in_dec (List.list_eq_dec String.string_dec) (done ++ [part])
                    (mkdir_steps (done ++ [part]) todo)) as [Hin | Hout].
        -- apply Hdir, Hin.
        -- rewrite (Hother _ Hout). apply lookup_insert_eq.
      * intros q Hq. rewrite Hother.
        -- apply lookup_insert_ne. intros <-. apply Hq. left. reflexivity.
        -- intros Hin. apply Hq. right. exact Hin.
Qed.

Lemma mkdir_steps_app (a b done : path) :
  mkdir_steps done (a ++ b) = mkdir_steps done a ++ mkdir_steps (done ++ a) b.
Proof.
  revert done. induction a as [| x a IH]; intros done; simpl.
  - rewrite app_nil_r. reflexivity.
  - rewrite IH, <- app_assoc. reflexivity.
Qed.

Lemma in_mkdir_steps (todo done q : path) :
  In q (mkdir_steps done todo) ->
  exists a b, a <> [] /\ todo = a ++ b /\ q = done ++ a.
Proof.
  revert done. induction todo as [| part todo IH]; intros done; simpl;
    [intros [] |].
  intros [<- | H].
  - exists [part], todo. repeat split. discriminate.
  - apply IH in H as (a & b & Ha & -> & ->).
    exists (part :: a), b. rewrite <- app_assoc. repeat split. discriminate.
Qed.

Lemma mkdir_from_keeps_files (todo : path) :
  forall (m : fs) (done q : path) (c : string),
    m !! q = Some (File c) ->
    fst (FS.mkdir_from m done todo) !! q = Some (File c).
Proof.
  induction todo as [| part todo IH]; intros m done q c Hq; simpl; [exact Hq |].
  destruct (m !! (done ++ [part])) as [[c' |] |] eqn:E.
  - exact Hq.
  - apply IH, Hq.
  - apply IH. rewrite lookup_insert_ne; [exact Hq |]. congruence.
Qed.

Lemma keeps_ret {A} (q : path) (c : string) (a : A) : keeps q c (io_ret a).
Proof. intros m H. exact H. Qed.

Lemma keeps_read {A} (q : path) (c : string) (f : fs -> result A) :
  keeps q c (io_read f).
Proof. intros m H. exact H. Qed.

Lemma keeps_bind {A B} (q : path) (c : string) (comp : io A) (k : A -> io B) :
  keeps q c comp -> (forall x, keeps q c (k x)) -> keeps q c (io_bind comp k).
Proof.
  intros Hc Hk m H. unfold io_bind. specialize (Hc m H).
  destruct (comp m) as [m1 [x | e]]; simpl in *; [apply Hk, Hc | exact Hc].
Qed.

Lemma keeps_for_each {A R} (q : path) (c : string)
    (body : A -> io (option R)) (xs : list A) :
  (forall x, keeps q c (body x)) -> keeps q c (for_each xs body).
Proof.
  intros Hbody. induction xs as [| x xs IH]; simpl; [apply keeps_ret |].
  apply keeps_bind; [apply Hbody |]. intros r.
  apply keeps_bind; [apply IH |]. intros rs. apply keeps_ret.
Qed.

Lemma keeps_for_each_ {A} (q : path) (c : string) (body : A -> io unit)
    (xs : list A) :
  Forall (fun x => keeps q c (body x)) xs -> keeps q c (for_each_ xs body).
Proof.
  induction 1 as [| x xs Hx _ IH]; simpl; [apply keeps_ret |].
  apply keeps_bind; [exact Hx |]. intros _. exact IH.
Qed.

Lemma keeps_mkdir_p (q : path) (c : string) (p : path) :
  keeps q c (FS.mkdir_p p).
Proof. intros m H. apply mkdir_from_keeps_files, H. Qed.

Lemma keeps_write_text (q : path) (c : string) (p : path) (content : string) :
  p <> q -> keeps q c (FS.write_text p content).
Proof.
  intros Hne m H. unfold FS.write_text.
  destruct (FS.node_at m p) as [[c' |] |];
    destruct (FS.node_at m (PathLib.parent p)) as [[c'' |] |]; simpl;
    rewrite ?lookup_insert_ne by exact Hne; exact H.
Qed.

Lemma keeps_write_rendered (q : path) (c : string) (target_path : path)
    (variables : gmap string Jinja.value) (entry : string * string) :
  PathLib.joinstr target_path (fst entry) <> q ->
  keeps q c (write_rendered target_path variables entry).
Proof.
  intros Hne. unfold write_rendered.
  apply keeps_bind; [apply keeps_mkdir_p |]. intros _.
  apply keeps_bind; [apply keeps_read |]. intros rendered.
  apply keeps_write_text, Hne.
Qed.

Lemma parent_snoc (p : path) (part : string) :
  PathLib.parent (p ++ [part]) = p.
Proof. apply removelast_last. Qed.

Lemma node_at_snoc (m : fs) (p : path) (part : string) :
  FS.node_at m (p ++ [part]) = m !! (p ++ [part]).
Proof. destruct p; reflexivity. Qed.

Lemma render_chart (target_repo : path) :
  Jinja.render TemplateEngine.chart_template
    (_extract_variables_for_repo get_remote_url target_repo)
  = Ok (rendered_chart (PathLib.name target_repo)).
Proof. vm_compute. reflexivity. Qed.

Lemma keeps_after {A B} (q : path) (c : string) (comp : io A)
    (k : A -> io B) (m : fs) :
  fst (comp m) !! q = Some (File c) -> (forall x, keeps q c (k x)) ->
  fst (io_bind comp k m) !! q = Some (File c).
Proof.
  intros H Hk. unfold io_bind.
  destruct (comp m) as [m1 [x | e]]; simpl in *; [apply Hk, H | exact H].
Qed.

(** Joining a path with a literal name. *)
Ltac join_literals :=
  lazy beta iota zeta delta
    [PathLib.joinstr Py.startswith PathLib.parts PathLib.split_on List.filter
     negb andb String.eqb Ascii.eqb Bool.eqb fst snd String.append].

Ltac path_ne :=
  let E := fresh "E" in
  join_literals; intros E; repeat rewrite <- app_assoc in E; simpl in E;
  apply app_inv_head in E; discriminate E.

Lemma contains_start (s sub : string) :
  Py.startswith s sub = true -> Py.contains s sub = true.
Proof. intros H. destruct s; simpl; rewrite H; reflexivity. Qed.

Lemma contains_skip (a s sub : string) :
  Py.contains s sub = true -> Py.contains (a ++ s) sub = true.
Proof.
  intros H. induction a as [| c a IH]; [exact H |].
  change (Py.contains (String c (a ++ s)) sub = true). simpl.
  rewrite IH. apply orb_true_r.
Qed.

Lemma rendered_chart_contains (n : string) :
  Py.contains (rendered_chart n) ("name: " ++ n) = true
  /\ Py.contains (rendered_chart n) "version: 0.1.0" = true.
Proof.
  split.
  - change (rendered_chart n)
      with ("apiVersion: v2
" ++ (("name: " ++ n) ++ "
description: A Helm chart for " ++ n ++ "
type: application
version: 0.1.0
appVersion: 1.0.0"))%string.
    apply contains_skip, contains_start, startswith_app.
  - unfold rendered_chart.
    apply (contains_skip "apiVersion: v2
name: "), contains_skip.
    apply (contains_skip "
description: A Helm chart for "), contains_skip.
    vm_compute. reflexivity.
Qed.

Lemma keeps_argocd_demo (q : path) (c : string) (target_repo : path)
    (files : list (string * string)) (variables : gmap string Jinja.value) :
  (target_repo ++ ["deployments"; "argocd"]) ++ ["demo-application.yaml"] <> q ->
  keeps q c
    (_apply_argocd_template
       {| ttype := "argocd"; tname := YStr "demo"; tfiles := files |}
       target_repo variables false).
Proof.
  intros Hne m H. unfold _apply_argocd_template.
  unfold io_bind at 1. simpl. revert m H.
  apply keeps_bind; [apply keeps_mkdir_p |]. intros _.
  apply keeps_bind; [apply keeps_read |]. intros content.
  apply keeps_bind; [apply keeps_read |]. intros rendered.
  apply keeps_bind; [apply keeps_write_text, Hne |]. intros _.
  apply keeps_ret.
Qed.

(** The first file of the chart is written when the target is an existing,
    empty directory. *)
Lemma write_chart_descriptor (m : fs) (target_repo : path) :
  (forall q, q `prefix_of` target_repo -> q <> [] -> m !! q = Some Dir) ->
  (forall q, q <> [] -> m !! (target_repo ++ q) = None) ->
  fst (write_rendered (target_repo ++ ["deployments"; "helm"; "demo"])
         (_extract_variables_for_repo get_remote_url target_repo)
         ("Chart.yaml", TemplateEngine.chart_template) m)
    !! (target_repo ++ ["deployments"; "helm"; "demo"; "Chart.yaml"])
  = Some (File (rendered_chart (PathLib.name target_repo))).
Proof.
  intros Hdirs Hempty. unfold write_rendered.
  change (PathLib.joinstr (target_repo ++ ["deployments"; "helm"; "demo"])
            (fst ("Chart.yaml", TemplateEngine.chart_template)))
    with ((target_repo ++ ["deployments"; "helm"; "demo"]) ++ ["Chart.yaml"]).
  rewrite parent_snoc. unfold FS.mkdir_p.
  destruct (mkdir_from_spec (target_repo ++ ["deployments"; "helm"; "demo"])
              m []) as (m1 & Hrun & Hdir & Hother).
  { intros q c Hq. rewrite mkdir_steps_app in Hq.
    apply in_app_iff in Hq as [Hq | Hq].
    - apply in_mkdir_steps in Hq as (a & b & Ha & -> & ->). simpl.
      rewrite Hdirs; [discriminate | exists b; reflexivity | exact Ha].
    - apply in_mkdir_steps in Hq as (a & b & Ha & _ & ->). simpl.
      rewrite Hempty; [discriminate | exact Ha]. }
  unfold io_bind at 1. rewrite Hrun.
  unfold io_bind at 1, io_read. rewrite render_chart.
  unfold FS.write_text. rewrite node_at_snoc, parent_snoc.
  assert (Htarget : FS.node_at m1 (target_repo ++ ["deployments"; "helm"; "demo"])
                    = Some Dir).
  { change (target_repo ++ ["deployments"; "helm"; "demo"])
      with (target_repo ++ ["deployments"; "helm"] ++ ["demo"]).
    rewrite !app_assoc, node_at_snoc. apply Hdir.
    rewrite <- !app_assoc. simpl. rewrite mkdir_steps_app. apply in_app_iff.
    right. simpl. right. right. left. rewrite <- !app_assoc. reflexivity. }
  assert (Hfile : m1 !! ((target_repo ++ ["deployments"; "helm"; "demo"])
                           ++ ["Chart.yaml"]) = None).
  { rewrite Hother.
    - rewrite <- app_assoc. apply Hempty. discriminate.
    - intros Hq. apply in_mkdir_steps in Hq as (a & b & _ & Hab & Hq).
      simpl in Hq. subst a. apply (f_equal length) in Hab.
      rewrite !length_app in Hab. simpl in Hab. lia. }
  rewrite Hfile, Htarget. simpl. rewrite <- app_assoc. apply lookup_insert_eq.
Qed.

Lemma fst_bind_ret {A B} (comp : io A) (f : A -> B) (m : fs) :
  fst (io_bind comp (fun x => io_ret (f x)) m) = fst (comp m).
Proof. unfold io_bind. destruct (comp m) as [m1 [x | e]]; reflexivity. Qed.

(** C2, amended. When the scan of the source finds the chart [demo] and the
    application [demo], replicating into an existing, empty target writes
    [deployments/helm/demo/Chart.yaml] with the name of the target
    repository (not the name [demo] of the chart) and the version [0.1.0] of
    the template (not the version the source declares). *)
Theorem replicate_names_chart_after_target
    (m : fs) (source_repo target_repo : path) (hp ap : pattern) :
  fst (scan_repository safe_load m source_repo) = [hp; ap] ->
  ptype hp = "helm" -> pname hp = YStr "demo" ->
  ptype ap = "argocd" -> pname ap = YStr "demo" ->
  (forall q, q `prefix_of` target_repo -> q <> [] -> m !! q = Some Dir) ->
  (forall q, q <> [] -> m !! (target_repo ++ q) = None) ->
  fst (replicate safe_load get_remote_url source_repo target_repo false m)
    !! (target_repo ++ ["deployments"; "helm"; "demo"; "Chart.yaml"])
  = Some (File (rendered_chart (PathLib.name target_repo)))
  /\ Py.contains (rendered_chart (PathLib.name target_repo))
       ("name: " ++ PathLib.name target_repo) = true
  /\ Py.contains (rendered_chart (PathLib.name target_repo))
       "version: 0.1.0" = true.
Proof.
  intros Hscan Th Nh Ta Na Hdirs Hempty.
  split; [| apply rendered_chart_contains].
  unfold replicate. rewrite Hscan.
  destruct hp as [hn hd hv hc ht | ]; [| discriminate Th].
  destruct ap as [| an ad ac ast]; [discriminate Ta |].
  simpl in Nh, Na. subst hn an.
  unfold io_bind at 1. simpl. rewrite fst_bind_ret.
  unfold apply_patterns_direct. simpl.
  apply keeps_after.
  - apply keeps_after; [| intros r; apply keeps_ret].
    unfold _apply_helm_template. unfold io_bind at 1. simpl.
    unfold io_bind at 1. simpl.
    apply keeps_after; [| intros r; apply keeps_ret].
    unfold helm_files. simpl.
    apply keeps_after.
    + join_literals. rewrite <- app_assoc. simpl.
      apply write_chart_descriptor; assumption.
    + intros _.
      apply keeps_bind; [apply keeps_write_rendered; path_ne |]. intros _.
      apply keeps_bind; [apply keeps_write_rendered; path_ne |]. intros _.
      apply keeps_ret.
  - intros r. apply keeps_bind; [| intros rs; apply keeps_ret].
    apply keeps_bind; [| intros rs; apply keeps_ret].
    apply keeps_bind; [| intros r'; apply keeps_ret].
    apply keeps_argocd_demo. path_ne.
Qed.

(** ** Running an apply again *)

Section Replay.

Variable template_dir : path.

Lemma extends_refl (a : fs) : extends template_dir a a.
Proof. repeat split; eauto. Qed.

Lemma extends_trans (a b c : fs) :
  extends template_dir a b -> extends template_dir b c ->
  extends template_dir a c.
Proof.
  intros (D1 & F1 & R1) (D2 & F2 & R2). repeat split.
  - intros q H. apply D2, D1, H.
  - intros q x H. destruct (F1 q x H) as [y Hy]. eapply F2, Hy.
  - intros q H. rewrite (R1 q H). apply R2, H.
Qed.

Lemma between_region (a b fin : fs) :
  extends template_dir a fin -> between a b fin ->
  forall q, template_dir `prefix_of` q -> a !! q = b !! q.
Proof.
  intros (_ & _ & R) Hb q Hq. destruct (Hb q) as [-> | ->];
    [reflexivity | apply R, Hq].
Qed.

Lemma replayable_ret {A} (x : A) : replayable template_dir (io_ret x).
Proof.
  split.
  - intros a. apply extends_refl.
  - intros a a' y fin b E _ Hb. unfold io_ret in *. inversion E. subst.
    eauto.
Qed.

Lemma replayable_read {A} (f : fs -> result A) :
  regional template_dir f -> replayable template_dir (io_read f).
Proof.
  intros Hf. split.
  - intros a. apply extends_refl.
  - intros a a' y fin b E Hext Hb. unfold io_read in *. inversion E. subst a'.
    exists b. split; [| exact Hb].
    rewrite <- (Hf a b); [congruence |].
    eapply between_region; eassumption.
Qed.

Lemma replayable_bind {A B} (comp : io A) (k : A -> io B) :
  replayable template_dir comp ->
  (forall x, (exists a a', comp a = (a', Ok x)) ->
             replayable template_dir (k x)) ->
  replayable template_dir (io_bind comp k).
Proof.
  intros [Mc Rc] Hk. split.
  - intros a. unfold io_bind. specialize (Mc a).
    destruct (comp a) as [a1 [x | e]] eqn:E; simpl in *; [| exact Mc].
    eapply extends_trans; [exact Mc |]. apply Hk. eauto.
  - intros a a' y fin b E Hext Hb. apply io_bind_ok in E as (a1 & x & E1 & E2).
    destruct (Hk x) as [Mk Rk]; [eauto |].
    assert (Hext1 : extends template_dir a1 fin).
    { eapply extends_trans; [| exact Hext].
      specialize (Mk a1). rewrite E2 in Mk. exact Mk. }
    destruct (Rc _ _ _ _ _ E1 Hext1 Hb) as (b1 & Eb1 & Hb1).
    destruct (Rk _ _ _ _ _ E2 Hext Hb1) as (b' & Eb' & Hb').
    exists b'. split; [| exact Hb']. unfold io_bind. rewrite Eb1. exact Eb'.
Qed.

Lemma replayable_if {A : Type} (cond : fs -> bool) (c1 c2 : io A) :
  regional template_dir cond ->
  replayable template_dir c1 -> replayable template_dir c2 ->
  replayable template_dir (fun m => if cond m then c1 m else c2 m).
Proof.
  intros Hcond [M1 R1] [M2 R2]. split.
  - intros a. destruct (cond a); [apply M1 | apply M2].
  - intros a a' y fin b E Hext Hb.
    assert (Hext0 : extends template_dir a fin).
    { eapply extends_trans; [| exact Hext].
      assert (a' = fst (if cond a then c1 a else c2 a)) as -> by (rewrite E; reflexivity).
      destruct (cond a); [apply M1 | apply M2]. }
    rewrite <- (Hcond a b) by (eapply between_region; eassumption).
    destruct (cond a); [eapply R1 | eapply R2]; eassumption.
Qed.


Lemma replayable_for_each_ {A} (body : A -> io unit) (xs : list A) :
  Forall (fun x => replayable template_dir (body x)) xs ->
  replayable template_dir (for_each_ xs body).
Proof.
  induction 1 as [| x xs Hx _ IH]; simpl; [apply replayable_ret |].
  apply replayable_bind; [exact Hx |]. intros _ _. exact IH.
Qed.

Lemma extends_insert_dir (a : fs) (q : path) :
  a !! q = None -> ~ template_dir `prefix_of` q ->
  extends template_dir a (<[q := Dir]> a).
Proof.
  intros Hq Hclear. repeat split.
  - intros p H. destruct (decide (q = p)) as [<- | Hne];
      [apply lookup_insert_eq | rewrite lookup_insert_ne by exact Hne; exact H].
  - intros p c H. destruct (decide (q = p)) as [<- | Hne]; [congruence |].
    rewrite lookup_insert_ne by exact Hne. eauto.
  - intros p H. destruct (decide (q = p)) as [<- | Hne]; [contradiction |].
    rewrite lookup_insert_ne by exact Hne. reflexivity.
Qed.

Lemma mkdir_from_extends (todo : path) :
  forall (a : fs) (done : path),
    (forall q, In q (mkdir_steps done todo) -> ~ template_dir `prefix_of` q) ->
    extends template_dir a (fst (FS.mkdir_from a done todo)).
Proof.
  induction todo as [| part todo IH]; intros a done Hclear; simpl;
    [apply extends_refl |].
  destruct (a !! (done ++ [part])) as [[c |] |] eqn:E.
  - apply extends_refl.
  - apply IH. intros q Hq. apply Hclear. right. exact Hq.
  - eapply extends_trans.
    + apply extends_insert_dir; [exact E |]. apply Hclear. left. reflexivity.
    + apply IH. intros q Hq. apply Hclear. right. exact Hq.
Qed.

Lemma mkdir_from_replay (todo : path) :
  forall (a a' fin b : fs) (done : path) (u : unit),
    (forall q, In q (mkdir_steps done todo) -> ~ template_dir `prefix_of` q) ->
    FS.mkdir_from a done todo = (a', Ok u) ->
    extends template_dir a' fin -> between a b fin ->
    exists b', FS.mkdir_from b done todo = (b', Ok u) /\ between a' b' fin.
Proof.
  induction todo as [| part todo IH]; intros a a' fin b done u Hclear;
    simpl.
  - intros E _ Hb. inversion E. subst. eauto.
  - assert (Hrest : forall q, In q (mkdir_steps (done ++ [part]) todo) ->
                              ~ template_dir `prefix_of` q).
    { intros q Hq. apply Hclear. right. exact Hq. }
    destruct (a !! (done ++ [part])) as [[c |] |] eqn:E; [discriminate | |].
    + intros Run Hext Hb.
      assert (Hfin : fin !! (done ++ [part]) = Some Dir).
      { destruct Hext as (D & _ & _). apply D.
        pose proof (mkdir_from_extends todo a (done ++ [part]) Hrest)
          as (D' & _ & _).
        rewrite Run in D'. apply D', E. }
      assert (Eb : b !! (done ++ [part]) = Some Dir).
      { destruct (Hb (done ++ [part])) as [-> | ->]; assumption. }
      rewrite Eb. eapply IH; eassumption.
    + intros Run Hext Hb.
      assert (Hfin : fin !! (done ++ [part]) = Some Dir).
      { destruct Hext as (D & _ & _). apply D.
        pose proof (mkdir_from_extends todo (<[done ++ [part] := Dir]> a)
                      (done ++ [part]) Hrest) as (D' & _ & _).
        rewrite Run in D'. apply D', lookup_insert_eq. }
      destruct (Hb (done ++ [part])) as [Eb | Eb]; rewrite Eb, ?E, ?Hfin.
      * eapply IH; [exact Hrest | exact Run | exact Hext |].
        intros q. destruct (decide (done ++ [part] = q)) as [<- | Hne].
        -- left. rewrite !lookup_insert_eq. reflexivity.
        -- rewrite !lookup_insert_ne by exact Hne. apply Hb.
      * eapply IH; [exact Hrest | exact Run | exact Hext |].
        intros q. destruct (decide (done ++ [part] = q)) as [<- | Hne].
        -- left. rewrite lookup_insert_eq, Eb, Hfin. reflexivity.
        -- rewrite lookup_insert_ne by exact Hne. apply Hb.
Qed.

Lemma replayable_mkdir_p (p : path) :
  (forall q, In q (mkdir_steps [] p) -> ~ template_dir `prefix_of` q) ->
  replayable template_dir (FS.mkdir_p p).
Proof.
  intros Hclear. split.
  - intros a. apply mkdir_from_extends, Hclear.
  - intros a a' u fin b. apply mkdir_from_replay, Hclear.
Qed.

Lemma node_at_between (a b fin : fs) (q : path) :
  between a b fin ->
  FS.node_at b q = FS.node_at a q \/ FS.node_at b q = FS.node_at fin q.
Proof. intros Hb. destruct q; [left; reflexivity | apply Hb]. Qed.

Lemma node_at_extends_dir (a b : fs) (q : path) :
  extends template_dir a b ->
  FS.node_at a q = Some Dir -> FS.node_at b q = Some Dir.
Proof. intros (D & _ & _). destruct q; [auto | apply D]. Qed.

Lemma write_text_state (p : path) (content : string) (a a' : fs) (u : unit) :
  FS.write_text p content a = (a', Ok u) ->
  a' = <[p := File content]> a
  /\ FS.node_at a p <> Some Dir
  /\ FS.node_at a (PathLib.parent p) = Some Dir.
Proof.
  unfold FS.write_text.
  destruct (FS.node_at a p) as [[c |] |];
    destruct (FS.node_at a (PathLib.parent p)) as [[c' |] |];
    intros E; inversion E; repeat split; congruence.
Qed.

Lemma write_text_extends (p : path) (content : string) (a : fs) :
  ~ template_dir `prefix_of` p ->
  extends template_dir a (fst (FS.write_text p content a)).
Proof.
  intros Hclear. unfold FS.write_text.
  destruct (FS.node_at a p) as [[c |] |] eqn:Ep;
    destruct (FS.node_at a (PathLib.parent p)) as [[c' |] |];
    simpl; try apply extends_refl;
    (destruct p as [| s p]; [discriminate Ep |]; simpl in Ep;
     repeat split;
     [ intros q H; destruct (decide (s :: p = q)) as [<- | Hne];
       [congruence | rewrite lookup_insert_ne by exact Hne; exact H]
     | intros q x H; destruct (decide (s :: p = q)) as [<- | Hne];
       [rewrite lookup_insert_eq; eauto
       | rewrite lookup_insert_ne by exact Hne; eauto]
     | intros q H; destruct (decide (s :: p = q)) as [<- | Hne];
       [contradiction | rewrite lookup_insert_ne by exact Hne; reflexivity] ]).
Qed.

Lemma replayable_write_text (p : path) (content : string) :
  ~ template_dir `prefix_of` p ->
  replayable template_dir (FS.write_text p content).
Proof.
  intros Hclear. split.
  - intros a. apply write_text_extends, Hclear.
  - intros a a' u fin b Run Hext Hb.
    pose proof (write_text_extends p content a Hclear) as Hmono.
    rewrite Run in Hmono. simpl in Hmono.
    apply write_text_state in Run as (-> & Hp & Hparent).
    assert (Hfile : exists c', fin !! p = Some (File c')).
    { destruct Hext as (_ & F & _). eapply F, lookup_insert_eq. }
    destruct Hfile as [c' Hfin].
    assert (Hbp : FS.node_at b p <> Some Dir).
    { destruct (node_at_between a b fin p Hb) as [-> | ->]; [exact Hp |].
      destruct p; [exfalso; apply Hp; reflexivity |]. simpl. congruence. }
    assert (Hbparent : FS.node_at b (PathLib.parent p) = Some Dir).
    { destruct (node_at_between a b fin (PathLib.parent p) Hb) as [-> | ->];
        [exact Hparent |].
      eapply node_at_extends_dir; [| exact Hparent].
      eapply extends_trans; eassumption. }
    exists (<[p := File content]> b). split.
    + unfold FS.write_text. rewrite Hbparent.
      destruct (FS.node_at b p) as [[c |] |]; [| congruence |];
        destruct u; reflexivity.
    + intros q. destruct (decide (p = q)) as [<- | Hne].
      * left. rewrite !lookup_insert_eq. reflexivity.
      * rewrite !lookup_insert_ne by exact Hne. apply Hb.
Qed.

(** *** Reading under the template directory *)

Lemma select_ext (a b : fs) (P : path -> bool) :
  (forall q, P q = true -> a !! q = b !! q) ->
  FS.select a P = FS.select b P.
Proof.
  intros H. unfold FS.select. f_equal. f_equal.
  apply map_filter_strong_ext_1. intros q x. simpl. split.
  - intros [HP Hq]. split; [exact HP |]. rewrite <- H; [exact Hq |].
    apply Is_true_true, HP.
  - intros [HP Hq]. split; [exact HP |]. rewrite H; [exact Hq |].
    apply Is_true_true, HP.
Qed.

Lemma node_at_region (a b : fs) (p : path) :
  (forall q, template_dir `prefix_of` q -> a !! q = b !! q) ->
  template_dir `prefix_of` p -> FS.node_at a p = FS.node_at b p.
Proof. intros H Hp. destruct p; [reflexivity | apply H, Hp]. Qed.

Lemma regional_const {A} (x : A) : regional template_dir (fun _ => x).
Proof. intros a b _. reflexivity. Qed.

Lemma regional_read_text (p : path) :
  template_dir `prefix_of` p ->
  regional template_dir (fun m => FS.read_text m p).
Proof.
  intros Hp a b H. unfold FS.read_text.
  rewrite (node_at_region a b p H Hp). reflexivity.
Qed.

Lemma regional_is_file (p : path) :
  template_dir `prefix_of` p ->
  regional template_dir (fun m => FS.is_file m p).
Proof.
  intros Hp a b H. unfold FS.is_file.
  rewrite (node_at_region a b p H Hp). reflexivity.
Qed.

Lemma regional_is_dir (p : path) :
  template_dir `prefix_of` p ->
  regional template_dir (fun m => FS.is_dir m p).
Proof.
  intros Hp a b H. unfold FS.is_dir.
  rewrite (node_at_region a b p H Hp). reflexivity.
Qed.


Lemma entry_under (d q : path) :
  FS.entry_of d q = true -> d `prefix_of` q.
Proof.
  unfold FS.entry_of. intros H. apply andb_true_iff in H as [Hp Hq].
  apply bool_decide_eq_true in Hp. apply negb_true_iff, bool_decide_eq_false in Hq.
  exists [PathLib.name q]. rewrite <- Hp. apply parent_name, Hq.
Qed.

Lemma below_under (d q : path) :
  PathLib.below d q = true -> d `prefix_of` q.
Proof.
  unfold PathLib.below. intros H. apply andb_true_iff in H as [Hp _].
  apply bool_decide_eq_true in Hp. exact Hp.
Qed.


Lemma regional_rglob (d : path) (f : string -> bool) :
  template_dir `prefix_of` d ->
  regional template_dir (fun m => Ok (FS.rglob m d f)).
Proof.
  intros Hd a b H. unfold FS.rglob.
  rewrite (regional_is_dir d Hd a b H).
  rewrite (select_ext a b); [reflexivity |].
  intros q Hq. apply andb_true_iff in Hq as [Hq _]. apply H.
  etrans; [exact Hd | apply below_under, Hq].
Qed.

(** *** Writing under the target's [deployments] *)

Variable target_repo : path.

Hypothesis Hapart : apart template_dir (target_repo ++ ["deployments"]).

Lemma clear_of_template (p q : path) :
  (target_repo ++ ["deployments"]) `prefix_of` p -> q `prefix_of` p ->
  ~ template_dir `prefix_of` q.
Proof using Type Hapart.
  intros HD Hq Ht. destruct Hapart as [H1 H2].
  destruct (prefix_weak_total _ _ _ HD Hq) as [H | H].
  - destruct (prefix_weak_total _ _ _ Ht H) as [H' | H']; auto.
  - apply H1. etrans; eassumption.
Qed.

Lemma steps_clear (p : path) :
  (target_repo ++ ["deployments"]) `prefix_of` p ->
  forall q, In q (mkdir_steps [] p) -> ~ template_dir `prefix_of` q.
Proof using Type Hapart.
  intros HD q Hq. apply in_mkdir_steps in Hq as (a & b & _ & -> & ->).
  apply (clear_of_template (a ++ b)); [exact HD | exists b; reflexivity].
Qed.

Lemma parent_under (d p : path) :
  d `prefix_of` p -> p <> d -> d `prefix_of` PathLib.parent p.
Proof.
  intros [w ->] Hne. destruct (decide (w = [])) as [-> | Hw].
  - rewrite app_nil_r in Hne. contradiction.
  - rewrite (app_removelast_last "" Hw), app_assoc.
    fold (PathLib.name w). rewrite parent_snoc. eexists. reflexivity.
Qed.

Lemma replayable_mkdir_under (p : path) :
  (target_repo ++ ["deployments"]) `prefix_of` p ->
  replayable template_dir (FS.mkdir_p p).
Proof using Type Hapart. intros H. apply replayable_mkdir_p, steps_clear, H. Qed.

Lemma replayable_write_under (p : path) (content : string) :
  (target_repo ++ ["deployments"]) `prefix_of` p ->
  replayable template_dir (FS.write_text p content).
Proof using Type Hapart.
  intros H. apply replayable_write_text.
  apply (clear_of_template p); [exact H | reflexivity].
Qed.

Lemma deployments_under (w : path) :
  (target_repo ++ ["deployments"]) `prefix_of`
    (target_repo ++ "deployments" :: w).
Proof. exists w. rewrite <- app_assoc. reflexivity. Qed.

Lemma replayable_copy_chart_file (chart_dir : path) (chart_name : string)
    (file_path : path) :
  template_dir `prefix_of` file_path ->
  replayable template_dir
    (copy_chart_file get_remote_url chart_dir target_repo
       (target_repo ++ ["deployments"; "helm"; chart_name]) file_path).
Proof using Type Hapart.
  intros Hfile. unfold copy_chart_file.
  set (target_file := (target_repo ++ ["deployments"; "helm"; chart_name])
                        ++ drop (length chart_dir) file_path).
  assert (Hunder : (target_repo ++ ["deployments"]) `prefix_of` target_file).
  { unfold target_file. rewrite <- app_assoc. simpl. apply deployments_under. }
  assert (Hparent : (target_repo ++ ["deployments"])
                      `prefix_of` PathLib.parent target_file).
  { apply parent_under; [exact Hunder |]. unfold target_file.
    rewrite <- app_assoc. simpl. intros E. apply app_inv_head in E.
    discriminate E. }
  apply (replayable_if (fun m => FS.is_file m file_path)
           _ (io_ret tt)); [apply regional_is_file, Hfile | | apply replayable_ret].
  apply replayable_bind; [apply replayable_mkdir_under, Hparent |]. intros _ _.
  destruct (in_suffixes file_path [".yaml"; ".yml"; ".j2"]).
  - apply replayable_bind;
      [apply replayable_read, regional_read_text, Hfile |]. intros content _.
    apply replayable_bind; [apply replayable_read, regional_const |].
    intros rendered _. apply replayable_write_under, Hunder.
  - apply replayable_bind;
      [apply replayable_read, regional_read_text, Hfile |]. intros content _.
    apply replayable_write_under, Hunder.
Qed.

Lemma replayable_helm_chart (chart_dir : path) (existing : option pattern) :
  template_dir `prefix_of` chart_dir ->
  replayable template_dir
    (_apply_helm_chart get_remote_url chart_dir target_repo existing false true).
Proof using Type Hapart.
  intros Hdir. unfold _apply_helm_chart. rewrite andb_false_r.
  apply replayable_bind.
  { apply replayable_mkdir_under, deployments_under. }
  intros _ _. apply replayable_bind.
  { apply replayable_read, regional_rglob, Hdir. }
  intros files (a & a' & E). unfold io_read in E. inversion E. subst.
  apply replayable_bind; [| intros _ _; apply replayable_ret].
  apply replayable_for_each_, Forall_forall. intros f Hf.
  apply replayable_copy_chart_file.
  apply list_elem_of_In in Hf. unfold FS.rglob in Hf.
  destruct (FS.is_dir a' chart_dir); [| destruct Hf].
  apply in_select in Hf as [Hf _]. apply andb_true_iff in Hf as [Hf _].
  etrans; [exact Hdir | apply below_under, Hf].
Qed.

Lemma replayable_argocd_app (template_file : path) (existing : option pattern) :
  template_dir `prefix_of` template_file ->
  replayable template_dir
    (_apply_argocd_app get_remote_url template_file target_repo existing
       false true).
Proof using Type Hapart.
  intros Hfile. unfold _apply_argocd_app. rewrite andb_false_r.
  apply replayable_bind.
  { apply replayable_mkdir_under.
    change (target_repo ++ ["deployments"; "argocd"; PathLib.name template_file])
      with (target_repo ++ ["deployments"; "argocd"] ++ [PathLib.name template_file]).
    rewrite app_assoc, parent_snoc. apply deployments_under. }
  intros _ _. apply replayable_bind;
    [apply replayable_read, regional_read_text, Hfile |]. intros content _.
  apply replayable_bind; [apply replayable_read, regional_const |].
  intros rendered _.
  apply replayable_bind; [| intros _ _; apply replayable_ret].
  apply replayable_write_under, deployments_under.
Qed.



End Replay.

(** With [force] the patterns of the target play no part. *)






(** The loops of [apply_patterns] on the patterns [ps] of the target. *)
Lemma apply_patterns_loops (template_dir target_repo : path)
    (dry_run force : bool) (m : fs) :
  apply_patterns safe_load get_remote_url template_dir target_repo dry_run
    force m
  = (let* helm := apply_type_dir get_remote_url template_dir target_repo
                    (fst (scan_repository safe_load m target_repo))
                    dry_run force "helm" in
     let* argocd := apply_type_dir get_remote_url template_dir target_repo
                      (fst (scan_repository safe_load m target_repo))
                      dry_run force "argocd" in
     io_ret (helm ++ argocd)) m.
Proof. reflexivity. Qed.





End Properties.

(** * The properties on the example repositories *)

Section OnExamples.

Import Examples.

(** ** Dry run *)

(** C1, as stated, fails: under dry-run, without [force], a chart template
    applied to a target that already holds a chart is reported [skipped],
    not [would_apply]. *)
Lemma dry_run_reports_skipped :
  snd (apply_patterns loader no_remote ["tpl"] ["tgt"] true false
         chart_template_and_charted_target)
  = Ok [{| pattern_id := "helm/demo"; status := skipped;
           message := "Helm chart already exists" |}]
  /\ skipped <> would_apply.
Proof. split; [vm_compute; reflexivity | discriminate]. Qed.

Lemma dry_run_skips_before_previewing_witness :
  fst (apply_patterns loader no_remote ["tpl"] ["tgt"] true false
         chart_template_and_charted_target)
  = chart_template_and_charted_target
  /\ Forall (obeys (fst (scan_repository loader
                           chart_template_and_charted_target ["tgt"]))
               false true)
       [{| pattern_id := "helm/demo"; status := skipped;
           message := "Helm chart already exists" |}]
  /\ (false = true
      \/ fst (scan_repository loader chart_template_and_charted_target ["tgt"])
         = [] ->
      Forall (fun r => status r = would_apply)
        [{| pattern_id := "helm/demo"; status := skipped;
            message := "Helm chart already exists" |}]).
Proof.
  apply (dry_run_skips_before_previewing loader no_remote ["tpl"] ["tgt"]
           false chart_template_and_charted_target).
  vm_compute. reflexivity.
Defined.

(** ** Replication *)

(** C2, as stated, fails: replicating the chart [demo] and the application
    [demo] into the empty target [tgt] leaves a chart descriptor that names
    [tgt] and does not contain [name: demo], and no application manifest:
    the run raises while it renders the deployment template of the chart. *)
Lemma replicate_misses_name_and_application :
  snd (replicate loader no_remote ["src"] ["tgt"] false source_and_empty_target)
  = Raise TemplateSyntaxError
  /\ fst (replicate loader no_remote ["src"] ["tgt"] false
            source_and_empty_target)
       !! ["tgt"; "deployments"; "helm"; "demo"; "Chart.yaml"]
     = Some (File (rendered_chart "tgt"))
  /\ Py.contains (rendered_chart "tgt") "name: demo" = false
  /\ fst (replicate loader no_remote ["src"] ["tgt"] false
            source_and_empty_target)
       !! ["tgt"; "deployments"; "argocd"; "demo-application.yaml"]
     = None.
Proof. repeat split; vm_compute; reflexivity. Qed.

Lemma replicate_names_chart_after_target_witness :
  fst (replicate loader no_remote ["src"] ["tgt"] false source_and_empty_target)
    !! (["tgt"] ++ ["deployments"; "helm"; "demo"; "Chart.yaml"])
  = Some (File (rendered_chart (PathLib.name ["tgt"])))
  /\ Py.contains (rendered_chart (PathLib.name ["tgt"]))
       ("name: " ++ PathLib.name ["tgt"]) = true
  /\ Py.contains (rendered_chart (PathLib.name ["tgt"])) "version: 0.1.0"
     = true.
Proof.
  apply (replicate_names_chart_after_target loader no_remote
           source_and_empty_target ["src"] ["tgt"]
           (HelmPattern (YStr "demo") ["src"; "deployments"; "helm"; "demo"]
              (YStr "1.0.0")
              [["src"; "deployments"; "helm"; "demo"; "values.yaml"]] None)
           (ArgoPattern (YStr "demo") ["src"; "deployments"; "argocd"]
              [["src"; "deployments"; "argocd"; "demo-application.yaml"]]
              "kustomize")).
  - vm_compute. reflexivity.
  - reflexivity.
  - reflexivity.
  - reflexivity.
  - reflexivity.
  - intros q [k Hk] Hq. destruct q as [| s [| s' q]].
    + destruct Hq. reflexivity.
    + simpl in Hk. injection Hk as <-. vm_compute. reflexivity.
    + discriminate Hk.
  - intros [| s q] Hq; [destruct Hq; reflexivity |].
    apply not_elem_of_list_to_map_1. simpl. intros Hin.
    repeat (apply elem_of_cons in Hin as [Hin | Hin]; [discriminate Hin |]).
    apply elem_of_nil in Hin. exact Hin.
Defined.

(** ** Scans *)

(** C3, as stated, fails: the two applications of one [argocd] directory
    are two patterns with the same kind and the same path. *)
Lemma two_applications_share_kind_and_path :
  List.map (fun p => (ptype p, ppath p))
    (fst (scan_repository loader two_applications ["repo"]))
  = [("argocd", ["repo"; "argocd"]); ("argocd", ["repo"; "argocd"])]
  /\ ~ NoDup (List.map (fun p => (ptype p, ppath p))
                (fst (scan_repository loader two_applications ["repo"]))).
Proof.
  assert (E : List.map (fun p => (ptype p, ppath p))
                (fst (scan_repository loader two_applications ["repo"]))
              = [("argocd", ["repo"; "argocd"]); ("argocd", ["repo"; "argocd"])])
    by (vm_compute; reflexivity).
  split; [exact E |]. rewrite E. intros H.
  apply NoDup_cons in H as [H _]. apply H. left.
Qed.

Lemma chart_paths_unique_in_scan_witness :
  NoDup (List.map ppath
           (List.filter (fun p => String.eqb (ptype p) "helm")
              (fst (scan_repository loader source_and_empty_target ["src"]))))
  /\ exists f,
       pconfigs (ArgoPattern (YStr "demo") ["src"; "deployments"; "argocd"]
                   [["src"; "deployments"; "argocd"; "demo-application.yaml"]]
                   "kustomize") = [f]
       /\ ppath (ArgoPattern (YStr "demo") ["src"; "deployments"; "argocd"]
                   [["src"; "deployments"; "argocd"; "demo-application.yaml"]]
                   "kustomize") = PathLib.parent f.
Proof.
  split.
  - apply (chart_paths_unique_in_scan loader source_and_empty_target ["src"]).
  - apply (chart_paths_unique_in_scan loader source_and_empty_target ["src"]).
    + vm_compute. right. left. reflexivity.
    + reflexivity.
Defined.

Lemma scan_fails_open_witness :
  In (ArgoError ["repo"; "argocd"; "broken.yaml"] AttributeError)
    (snd (scan_repository loader broken_and_sound_application ["repo"]))
  /\ In (ArgoPattern (YStr "billing") ["repo"; "argocd"]
           [["repo"; "argocd"; "billing.yaml"]] "kustomize")
       (fst (scan_repository loader broken_and_sound_application ["repo"])).
Proof.
  split.
  - apply (proj2 (scan_fails_open loader broken_and_sound_application ["repo"])
             ["repo"; "argocd"; "broken.yaml"]).
    + vm_compute. left. reflexivity.
    + vm_compute. reflexivity.
  - apply (proj2 (scan_fails_open loader broken_and_sound_application ["repo"])
             ["repo"; "argocd"; "billing.yaml"]).
    + vm_compute. right. left. reflexivity.
    + vm_compute. reflexivity.
Defined.

(** ** Rendering *)

(** C4, as stated, fails: a placeholder with no binding and no default is
    rendered as the empty string, and the render succeeds. *)
Lemma unbound_placeholder_is_blanked :
  render_template "name: {{ app_name }}" ∅ = Ok "name: ".
Proof. vm_compute. reflexivity. Qed.

Lemma unbound_placeholder_renders_empty_witness :
  Jinja.render_nodes ∅ [Jinja.NPrint (Jinja.EName "app_name")] = Ok ""
  /\ exists out, render_template TemplateEngine.values_template ∅ = Ok out.
Proof.
  split.
  - apply (proj1 unbound_placeholder_renders_empty ∅ "app_name");
      vm_compute; reflexivity.
  - apply (proj2 (proj2 (proj2 unbound_placeholder_renders_empty)) ∅).
    simpl. right. left. reflexivity.
Defined.

(** ** Classification and parameters *)

Lemma classify_iff_prefix_and_kind_witness :
  _is_argocd_app loader two_applications ["repo"; "argocd"; "demo.yaml"] = true
  /\ classify (YMap [(YStr "apiVersion", YStr "apps/v1");
                     (YStr "kind", YStr "Application")]) = Ok false.
Proof.
  split.
  - apply (proj1 (classify_iff_prefix_and_kind loader) two_applications).
    eexists. eexists. split; [vm_compute; reflexivity |].
    split; [vm_compute; reflexivity |]. split.
    + exists "v1alpha1". eexists. split; reflexivity.
    + eexists. split; reflexivity.
  - apply (proj1 (proj2 (classify_iff_prefix_and_kind loader)) _ "apps/v1").
    + reflexivity.
    + reflexivity.
    + intros rest E. discriminate E.
Defined.


(** ** Applying twice *)



(** ** The direct apply *)



End OnExamples.

(** * Further properties of the scanner *)

Section Scanner.

Variable safe_load : string -> option yaml.

#[local] Set Default Proof Using "Type".

(** ** Listings of an empty directory *)

Lemma select_nil (m : fs) (P : path -> bool) :
  (forall q, P q = true -> m !! q = None) -> FS.select m P = [].
Proof.
  intros H. destruct (FS.select m P) as [| q l] eqn:E; [reflexivity |].
  assert (Hq : In q (FS.select m P)) by (rewrite E; left; reflexivity).
  apply in_select in Hq as [HP [v Hv]]. rewrite (H q HP) in Hv. discriminate.
Qed.

Lemma rglob_nil (m : fs) (d : path) (f : string -> bool) :
  (forall q, PathLib.below d q = true -> m !! q = None) -> FS.rglob m d f = [].
Proof.
  intros H. unfold FS.rglob. destruct (FS.is_dir m d); [| reflexivity].
  apply select_nil. intros q Hq. apply andb_true_iff in Hq as [Hq _].
  apply H, Hq.
Qed.

Lemma below_app (d w : path) : w <> [] -> PathLib.below d (d ++ w) = true.
Proof.
  intros Hw. unfold PathLib.below. apply andb_true_iff. split.
  - apply bool_decide_eq_true. exists w. reflexivity.
  - apply negb_true_iff, bool_decide_eq_false. intros E.
    apply Hw. apply (app_inv_head d). rewrite app_nil_r. symmetry. exact E.
Qed.

Lemma exists_below_empty (m : fs) (d w : path) :
  (forall q, PathLib.below d q = true -> m !! q = None) -> w <> [] ->
  FS.exists_ m (d ++ w) = false.
Proof.
  intros H Hw. unfold FS.exists_, FS.node_at.
  destruct (d ++ w) as [| x l] eqn:E.
  - apply app_eq_nil in E as [_ ->]. contradiction.
  - rewrite <- E, (H (d ++ w) (below_app d w Hw)).
    apply bool_decide_eq_false. intros [v Hv]. discriminate.
Qed.

(** X1. A repository without any entry gives no pattern and no diagnostic
    line. *)
Theorem scan_of_empty_repository (m : fs) (repo_path : path) :
  (forall q, PathLib.below repo_path q = true -> m !! q = None) ->
  scan_repository safe_load m repo_path = ([], []).
Proof.
  intros Hempty. unfold scan_repository, helm_detect, argocd_detect.
  rewrite !(rglob_nil m repo_path) by exact Hempty. simpl.
  rewrite !(exists_below_empty m repo_path) by (exact Hempty || discriminate).
  reflexivity.
Qed.

(** ** Parts that exclude a chart *)

Lemma excluded_iff (file : path) :
  excluded file = true <-> exists part, In part file /\ excluding part.
Proof.
  unfold excluded, excluding. rewrite !orb_true_iff, !existsb_exists. split.
  - intros [[(x & Hx & H) | (x & Hx & H)] | (x & Hx & H)]; exists x;
      (split; [exact Hx |]); try apply String.eqb_eq in H; auto.
  - intros (x & Hx & [H | [H | H]]).
    + left. left. eauto.
    + left. right. exists x. split; [exact Hx | apply String.eqb_eq; auto].
    + right. exists x. split; [exact Hx | apply String.eqb_eq; auto].
Qed.

Lemma in_rglob_below (m : fs) (d : path) (f : string -> bool) (q : path) :
  In q (FS.rglob m d f) -> PathLib.below d q = true /\ is_Some (m !! q).
Proof.
  unfold FS.rglob. destruct (FS.is_dir m d); [| intros []].
  intros H. apply in_select in H as [H Hq].
  apply andb_true_iff in H as [H _]. auto.
Qed.

(** X2. The chart detector looks at every part of the path of a chart
    file, the parts of the repository path included: a chart it reports
    has no hidden part, no [node_modules] and no [vendor] anywhere in its
    path, and a repository whose own path has such a part yields no chart
    at all, and no diagnostic line. *)
Theorem charts_on_excluded_paths_are_passed_over (m : fs) (repo_path : path) :
  (forall p part,
     In p (fst (helm_detect safe_load m repo_path)) ->
     In part (ppath p) -> ~ excluding part)
  /\ (forall part,
        In part repo_path -> excluding part ->
        helm_detect safe_load m repo_path = ([], [])).
Proof.
  split.
  - intros p part Hp Hpart Hex. unfold helm_detect in Hp.
    apply helm_loop_patterns in Hp as (f & Hf & X & A).
    apply analyze_helm_chart_ok in A as [_ Hpath].
    apply in_rglob_name in Hf as [_ Hne].
    assert (E : excluded f = true).
    { apply excluded_iff. exists part. split; [| exact Hex].
      rewrite (parent_name f Hne), <- Hpath. apply in_app_iff. left.
      exact Hpart. }
    congruence.
  - intros part Hpart Hex. unfold helm_detect.
    assert (Hall : forall f,
              In f (FS.rglob m repo_path (String.eqb "Chart.yaml")) ->
              excluded f = true).
    { intros f Hf. apply in_rglob_below in Hf as [Hf _].
      apply below_under in Hf as [w ->]. apply excluded_iff.
      exists part. split; [apply in_app_iff; left; exact Hpart | exact Hex]. }
    induction (FS.rglob m repo_path (String.eqb "Chart.yaml")) as [| f l IH];
      simpl; [reflexivity |].
    rewrite IH by (intros g Hg; apply Hall; right; exact Hg).
    rewrite (Hall f) by (left; reflexivity). reflexivity.
Qed.

(** ** Where the patterns of a scan come from *)

Lemma load_file_is_file (m : fs) (f : path) (doc : yaml) :
  load_file safe_load m f = Ok doc -> f <> [] ->
  exists text, m !! f = Some (File text).
Proof.
  unfold load_file, FS.read_text, FS.node_at. intros H Hne.
  destruct f as [| x l]; [contradiction |].
  destruct (m !! (x :: l)) as [[text |] |]; try discriminate. eauto.
Qed.

Lemma chart_is_file (m : fs) (chart_dir : path) (p : pattern) :
  analyze_helm_chart_try safe_load m chart_dir = Ok p ->
  exists text, m !! PathLib.join chart_dir "Chart.yaml" = Some (File text).
Proof.
  unfold analyze_helm_chart_try. intros H.
  destruct (load_file safe_load m (PathLib.join chart_dir "Chart.yaml"))
    as [doc |] eqn:L; [| discriminate].
  apply load_file_is_file in L; [exact L |].
  unfold PathLib.join. intros E. apply app_eq_nil in E as [_ E]. discriminate.
Qed.

Lemma manifest_is_file (m : fs) (f : path) :
  _is_argocd_app safe_load m f = true -> f <> [] ->
  exists text, m !! f = Some (File text).
Proof.
  unfold _is_argocd_app, is_argocd_app_try. intros H Hne.
  destruct (load_file safe_load m f) as [doc |] eqn:L; [| discriminate].
  eapply load_file_is_file; eassumption.
Qed.

Lemma in_glob (m : fs) (d : path) (f : string -> bool) (q : path) :
  In q (FS.glob m d f) ->
  PathLib.parent q = d /\ q <> [] /\ f (PathLib.name q) = true.
Proof.
  unfold FS.glob. destruct (FS.is_dir m d); [| intros []].
  intros H. apply in_select in H as [H _].
  apply andb_true_iff in H as [H Hf]. unfold FS.entry_of in H.
  apply andb_true_iff in H as [Hp Hne]. apply bool_decide_eq_true in Hp.
  apply negb_true_iff, bool_decide_eq_false in Hne. auto.
Qed.

Lemma in_conventional (m : fs) (repo_path : path) (subdirs : list path)
    (q : path) :
  In q (conventional m repo_path subdirs) ->
  exists sub, In sub subdirs /\ PathLib.parent q = repo_path ++ sub
              /\ q <> [] /\ Py.endswith (PathLib.name q) ".yaml" = true.
Proof.
  unfold conventional. intros H. apply in_concat_map in H as (sub & Hsub & H).
  destruct (FS.exists_ m (repo_path ++ sub) && FS.is_dir m (repo_path ++ sub));
    [| destruct H].
  apply in_glob in H. exists sub. tauto.
Qed.

Lemma candidate_place (m : fs) (repo_path f : path) :
  In f (argocd_candidates m repo_path) ->
  PathLib.below repo_path f = true /\ Py.endswith (PathLib.name f) ".yaml" = true.
Proof.
  unfold argocd_candidates. intros H. apply in_app_iff in H as [H | H].
  - apply in_conventional in H as (sub & Hsub & Hp & Hne & Hy).
    split; [| exact Hy]. rewrite (parent_name f Hne), Hp, <- app_assoc.
    apply below_app. destruct sub; discriminate.
  - pose proof (in_rglob_below _ _ _ _ H) as [Hb _].
    apply in_rglob_name in H as [Hn _]. unfold application_yaml in Hn.
    apply andb_true_iff in Hn as [Hn _]. auto.
Qed.

(** X3. Every pattern of a scan comes from a regular file below the
    repository: a chart from the [Chart.yaml] of its directory, an
    application from its one config file, whose name ends in [.yaml], which
    the classifier accepts and whose directory is the path of the pattern. *)
Theorem scanned_patterns_come_from_files (m : fs) (repo_path : path)
    (p : pattern) :
  In p (fst (scan_repository safe_load m repo_path)) ->
  (ptype p = "helm"
   /\ PathLib.below repo_path (PathLib.join (ppath p) "Chart.yaml") = true
   /\ exists text,
        m !! PathLib.join (ppath p) "Chart.yaml" = Some (File text))
  \/ (ptype p = "argocd"
      /\ exists f text,
           pconfigs p = [f] /\ ppath p = PathLib.parent f
           /\ PathLib.below repo_path f = true
           /\ Py.endswith (PathLib.name f) ".yaml" = true
           /\ m !! f = Some (File text)
           /\ _is_argocd_app safe_load m f = true).
Proof.
  rewrite scan_repository_split. simpl. intros H.
  apply in_app_iff in H as [H | H].
  - left. unfold helm_detect in H.
    apply helm_loop_patterns in H as (f & Hf & _ & A).
    pose proof (analyze_helm_chart_ok _ _ _ _ A) as [T Hpath].
    pose proof (in_rglob_below _ _ _ _ Hf) as [Hb _].
    apply in_rglob_name in Hf as [Hn Hne]. apply String.eqb_eq in Hn.
    assert (E : PathLib.join (ppath p) "Chart.yaml" = f).
    { unfold PathLib.join. rewrite Hpath, Hn. symmetry.
      apply parent_name, Hne. }
    rewrite E. split; [exact T |]. split; [exact Hb |].
    rewrite <- E, Hpath. eapply chart_is_file, A.
  - right. apply argocd_detect_spec in H as (f & Hf & C & A).
    apply analyze_argocd_app_ok in A as (T & Hpath & Hc).
    apply candidate_place in Hf as [Hb Hy].
    split; [exact T |].
    destruct (manifest_is_file m f C) as [text Hfile].
    { intros ->. unfold PathLib.below in Hb.
      apply andb_true_iff in Hb as [Hb Hne].
      apply bool_decide_eq_true in Hb as [w Hw].
      symmetry in Hw. apply app_eq_nil in Hw as [-> ->].
      apply negb_true_iff, bool_decide_eq_false in Hne. auto. }
    exists f, text. auto 10.
Qed.

(** ** No pattern twice *)

Lemma scan_argocd_loop_configs (m : fs) (files : list path) :
  List.map pconfigs (fst (scan_argocd_loop safe_load m files))
  = List.map (fun f => [f]) (List.filter (gives_pattern safe_load m) files).
Proof.
  induction files as [| f files IH]; simpl; [reflexivity |].
  destruct (scan_argocd_loop safe_load m files) as [ps ds]. simpl in IH.
  unfold gives_pattern at 1, _analyze_argocd_app.
  destruct (_is_argocd_app safe_load m f); simpl; [| exact IH].
  destruct (analyze_argocd_app_try safe_load m f) as [p | e] eqn:A; simpl;
    [| exact IH].
  apply analyze_argocd_app_ok in A as (_ & _ & ->). rewrite IH. reflexivity.
Qed.

Lemma argocd_dirs_loop_configs (m : fs) (repo_path : path)
    (subdirs : list path) :
  List.map pconfigs (fst (argocd_dirs_loop safe_load m repo_path subdirs))
  = List.map (fun f => [f])
      (List.filter (gives_pattern safe_load m) (conventional m repo_path subdirs)).
Proof.
  induction subdirs as [| sub subdirs IH]; simpl; [reflexivity |].
  unfold conventional. simpl. fold (conventional m repo_path subdirs).
  destruct (argocd_dirs_loop safe_load m repo_path subdirs) as [ps' ds'].
  simpl in IH. rewrite List.filter_app, List.map_app, <- IH.
  destruct (FS.exists_ m (repo_path ++ sub) && FS.is_dir m (repo_path ++ sub)).
  - unfold _scan_argocd_directory.
    rewrite <- scan_argocd_loop_configs.
    destruct (scan_argocd_loop safe_load m
                (FS.glob m (repo_path ++ sub) (fun n => Py.endswith n ".yaml")))
      as [ps ds]. simpl. apply List.map_app.
  - reflexivity.
Qed.

Lemma glob_NoDup (m : fs) (d : path) (f : string -> bool) :
  NoDup (FS.glob m d f).
Proof.
  unfold FS.glob. destruct (FS.is_dir m d); [apply select_NoDup | constructor].
Qed.

Lemma conventional_NoDup (m : fs) (repo_path : path) (subdirs : list path) :
  NoDup subdirs -> NoDup (conventional m repo_path subdirs).
Proof.
  induction 1 as [| sub subdirs Hsub _ IH]; [constructor |].
  unfold conventional. simpl. fold (conventional m repo_path subdirs).
  apply NoDup_app. split; [| split; [| exact IH]].
  - destruct (FS.exists_ m (repo_path ++ sub) && FS.is_dir m (repo_path ++ sub));
      [apply glob_NoDup | constructor].
  - intros q Hq Hq'. apply list_elem_of_In in Hq, Hq'.
    destruct (FS.exists_ m (repo_path ++ sub) && FS.is_dir m (repo_path ++ sub));
      [| destruct Hq].
    apply in_glob in Hq as (Hp & _).
    apply in_conventional in Hq' as (sub' & Hsub' & Hp' & _).
    rewrite Hp in Hp'. apply app_inv_head in Hp'. subst sub'.
    apply Hsub, list_elem_of_In, Hsub'.
Qed.

Lemma argocd_paths_NoDup : NoDup argocd_paths.
Proof.
  apply NoDup_ListNoDup. unfold argocd_paths.
  repeat constructor; simpl; intuition discriminate.
Qed.

Lemma singleton_inj (f g : path) : [f] = [g] -> f = g.
Proof. intros E. inversion E. reflexivity. Qed.

Lemma argocd_dirs_loop_NoDup (m : fs) (repo_path : path) :
  NoDup (fst (argocd_dirs_loop safe_load m repo_path argocd_paths)).
Proof.
  apply (NoDup_fmap_1 pconfigs).
  change (NoDup (List.map pconfigs
                   (fst (argocd_dirs_loop safe_load m repo_path argocd_paths)))).
  rewrite argocd_dirs_loop_configs.
  apply NoDup_fmap_2_strong.
  - intros f g _ _. apply singleton_inj.
  - apply NoDup_ListNoDup, List.NoDup_filter, NoDup_ListNoDup,
      conventional_NoDup, argocd_paths_NoDup.
Qed.

Lemma argocd_files_loop_NoDup (m : fs) (files : list path)
    (acc : list pattern * list diagnostic) :
  NoDup (fst acc) -> NoDup (fst (argocd_files_loop safe_load m files acc)).
Proof.
  revert acc. induction files as [| f files IH]; intros [ps ds] Hacc; simpl;
    [exact Hacc |].
  apply IH. destruct (_is_argocd_app safe_load m f); [| exact Hacc].
  unfold _analyze_argocd_app.
  destruct (analyze_argocd_app_try safe_load m f) as [p | e]; simpl;
    [| exact Hacc].
  destruct (existsb (pattern_eqb p) ps) eqn:Q; simpl; [exact Hacc |].
  apply NoDup_app. split; [exact Hacc |]. split.
  - intros q Hq Hq'. apply list_elem_of_In in Hq, Hq'.
    destruct Hq' as [<- | []].
    apply existsb_pattern_eqb in Hq. congruence.
  - apply NoDup_singleton.
Qed.

(** X4. A scan reports no pattern twice, also when a manifest of a
    conventional directory is found again by its name. *)
Theorem scan_reports_each_pattern_once (m : fs) (repo_path : path) :
  NoDup (fst (scan_repository safe_load m repo_path)).
Proof.
  rewrite scan_repository_split. simpl. apply NoDup_app. split; [| split].
  - apply (NoDup_fmap_1 ppath), helm_detect_NoDup.
  - intros p Hp Hp'. apply list_elem_of_In in Hp, Hp'.
    apply helm_detect_types in Hp. apply argocd_detect_types in Hp'.
    congruence.
  - unfold argocd_detect. apply argocd_files_loop_NoDup, argocd_dirs_loop_NoDup.
Qed.

End Scanner.

Section Analysing.

Variable safe_load : string -> option yaml.

#[local] Set Default Proof Using "Type".

(** ** Parameters of an application *)

Lemma read_destination_fixed (spec : yaml) (a b : ArgoParams.t) :
  read_destination spec a = Ok b -> same_fixed a b.
Proof.
  unfold read_destination, same_fixed.
  destruct (Yaml.has spec "destination") as [[] |]; simpl;
    try discriminate.
  - destruct (Yaml.item spec "destination") as [d |]; simpl; [| discriminate].
    destruct (Yaml.get d "namespace" (ArgoParams.namespace a)); simpl;
      [| discriminate].
    intros E. inversion E. auto.
  - intros E. inversion E. auto.
Qed.

Lemma read_source_fixed (spec : yaml) (a b : ArgoParams.t) :
  read_source spec a = Ok b -> same_fixed a b.
Proof.
  unfold read_source, same_fixed.
  destruct (Yaml.has spec "source") as [[] |]; simpl; try discriminate.
  - destruct (Yaml.item spec "source") as [d |]; simpl; [| discriminate].
    destruct (Yaml.get d "repoURL" (ArgoParams.repoURL a)); simpl;
      [| discriminate].
    destruct (Yaml.get d "path" (ArgoParams.path a)); simpl; [| discriminate].
    intros E. inversion E. auto.
  - intros E. inversion E. auto.
Qed.

Lemma same_fixed_trans (a b c : ArgoParams.t) :
  same_fixed a b -> same_fixed b c -> same_fixed a c.
Proof. unfold same_fixed. intuition congruence. Qed.

Lemma read_manifest_fixed (m : fs) (a b : ArgoParams.t) (f : path) :
  read_manifest safe_load m a f = Ok b -> same_fixed a b.
Proof.
  unfold read_manifest.
  destruct (FS.exists_ m f); [| intros E; inversion E; repeat split].
  destruct (load_file safe_load m f) as [doc |]; simpl; [| discriminate].
  destruct (Yaml.has doc "spec") as [[] |]; simpl; try discriminate;
    [| intros E; inversion E; repeat split].
  destruct (Yaml.item doc "spec") as [spec |]; simpl; [| discriminate].
  destruct (read_destination spec a) as [a1 |] eqn:D; simpl; [| discriminate].
  intros S. eapply same_fixed_trans;
    [eapply read_destination_fixed, D | eapply read_source_fixed, S].
Qed.

Lemma read_manifests_fixed (m : fs) (configs : list path) :
  forall a b, read_manifests safe_load m a configs = Ok b -> same_fixed a b.
Proof.
  induction configs as [| f configs IH]; intros a b; simpl.
  - intros E. inversion E. repeat split.
  - destruct (read_manifest safe_load m a f) as [a1 |] eqn:R; simpl;
      [| discriminate].
    intros H. eapply same_fixed_trans;
      [eapply read_manifest_fixed, R | apply IH, H].
Qed.

Lemma read_manifests_absent (m : fs) (configs : list path) (a : ArgoParams.t) :
  Forall (fun c => FS.exists_ m c = false) configs ->
  read_manifests safe_load m a configs = Ok a.
Proof.
  induction 1 as [| c cs Hc _ IH]; simpl; [reflexivity |].
  unfold read_manifest. rewrite Hc. simpl. exact IH.
Qed.

Lemma has_YMap (kvs : list (yaml * yaml)) (k : string) :
  Yaml.has (YMap kvs) k = Ok (bool_decide (is_Some (Yaml.lookup kvs k))).
Proof. reflexivity. Qed.

(** X5. The parameters of an application: the name is the name of the
    pattern, and the project and the revision are [default] and [HEAD]
    whatever the manifest declares; without a manifest on disk, or with one
    that has no [spec], the namespace is [argocd] and the URL and the path
    are empty; with a [spec] whose destination and source are mappings,
    the namespace is that of the destination and the URL and the path are
    those of the source, each with its default when the key is absent. *)
Theorem application_parameters_from_destination_and_source :
  (forall (m : fs) (p : pattern) (params : ArgoParams.t),
     _extract_argocd_parameters safe_load m p = Ok params ->
     ArgoParams.appName params = pname p
     /\ ArgoParams.project params = YStr "default"
     /\ ArgoParams.targetRevision params = YStr "HEAD")
  /\ (forall (m : fs) (p : pattern),
        Forall (fun c => FS.exists_ m c = false) (pconfigs p) ->
        _extract_argocd_parameters safe_load m p
        = Ok {| ArgoParams.appName := pname p;
                ArgoParams.namespace := YStr "argocd";
                ArgoParams.project := YStr "default";
                ArgoParams.repoURL := YStr "";
                ArgoParams.targetRevision := YStr "HEAD";
                ArgoParams.path := YStr "" |})
  /\ (forall (m : fs) (p : pattern) (f : path) (text : string) (doc : yaml)
             (kvs : list (yaml * yaml)),
        pconfigs p = [f] ->
        FS.read_text m f = Ok text -> safe_load text = Some doc ->
        Yaml.or_empty doc = YMap kvs ->
        Yaml.lookup kvs "spec" = None ->
        _extract_argocd_parameters safe_load m p
        = Ok {| ArgoParams.appName := pname p;
                ArgoParams.namespace := YStr "argocd";
                ArgoParams.project := YStr "default";
                ArgoParams.repoURL := YStr "";
                ArgoParams.targetRevision := YStr "HEAD";
                ArgoParams.path := YStr "" |})
  /\ (forall (m : fs) (p : pattern) (f : path) (text : string) (doc : yaml)
             (kvs spec : list (yaml * yaml)),
        pconfigs p = [f] ->
        FS.read_text m f = Ok text -> safe_load text = Some doc ->
        Yaml.or_empty doc = YMap kvs ->
        Yaml.lookup kvs "spec" = Some (YMap spec) ->
        (forall d, Yaml.lookup spec "destination" = Some d ->
                   exists given, d = YMap given) ->
        (forall s, Yaml.lookup spec "source" = Some s ->
                   exists given, s = YMap given) ->
        _extract_argocd_parameters safe_load m p
        = Ok {| ArgoParams.appName := pname p;
                ArgoParams.namespace :=
                  match Yaml.lookup spec "destination" with
                  | Some (YMap d) =>
                      default (YStr "argocd") (Yaml.lookup d "namespace")
                  | _ => YStr "argocd"
                  end;
                ArgoParams.project := YStr "default";
                ArgoParams.repoURL :=
                  match Yaml.lookup spec "source" with
                  | Some (YMap s) => default (YStr "") (Yaml.lookup s "repoURL")
                  | _ => YStr ""
                  end;
                ArgoParams.targetRevision := YStr "HEAD";
                ArgoParams.path :=
                  match Yaml.lookup spec "source" with
                  | Some (YMap s) => default (YStr "") (Yaml.lookup s "path")
                  | _ => YStr ""
                  end |}).
Proof.
  split; [| split; [| split]].
  - intros m p params H. apply read_manifests_fixed in H as (H1 & H2 & H3).
    simpl in *. auto.
  - intros m p H. unfold _extract_argocd_parameters.
    rewrite read_manifests_absent by exact H. reflexivity.
  - intros m p f text doc kvs Hc R L O S.
    unfold _extract_argocd_parameters. rewrite Hc. simpl.
    unfold read_manifest. rewrite (read_text_exists _ _ _ R).
    unfold load_file, load. rewrite R. simpl. rewrite L. simpl. rewrite O.
    rewrite has_YMap, S. reflexivity.
  - intros m p f text doc kvs spec Hc R L O S Hd Hs.
    unfold _extract_argocd_parameters. rewrite Hc. simpl.
    unfold read_manifest. rewrite (read_text_exists _ _ _ R).
    unfold load_file, load. rewrite R. simpl. rewrite L. simpl. rewrite O.
    rewrite has_YMap, S. simpl. unfold Yaml.item. rewrite S. simpl.
    unfold read_destination, read_source. rewrite !has_YMap.
    unfold Yaml.item.
    destruct (Yaml.lookup spec "destination") as [d |] eqn:D;
      [destruct (Hd d eq_refl) as [dg ->] |];
      (destruct (Yaml.lookup spec "source") as [s |] eqn:So;
       [destruct (Hs s eq_refl) as [sg ->] |]);
      simpl; reflexivity.
Qed.

(** ** Analysing what a scan found *)

Lemma get_is_map (d : yaml) (k : string) (dflt v : yaml) :
  Yaml.get d k dflt = Ok v ->
  exists kvs, d = YMap kvs /\ v = default dflt (Yaml.lookup kvs k).
Proof.
  destruct d; simpl; try discriminate. intros E. inversion E. eauto.
Qed.

Lemma read_destination_raises (spec : list (yaml * yaml)) (a : ArgoParams.t) :
  (exists b, read_destination (YMap spec) a = Ok b)
  \/ read_destination (YMap spec) a = Raise AttributeError.
Proof.
  unfold read_destination. rewrite has_YMap. simpl. unfold Yaml.item.
  destruct (Yaml.lookup spec "destination") as [d |]; simpl; [| eauto].
  destruct d; simpl; eauto.
Qed.

Lemma read_source_raises (spec : list (yaml * yaml)) (a : ArgoParams.t) :
  (exists b, read_source (YMap spec) a = Ok b)
  \/ read_source (YMap spec) a = Raise AttributeError.
Proof.
  unfold read_source. rewrite has_YMap. simpl. unfold Yaml.item.
  destruct (Yaml.lookup spec "source") as [d |]; simpl; [| eauto].
  destruct d; simpl; eauto.
Qed.

(** X6. The analysis of an application that a scan of the same files
    found reads and parses its manifest again without fail: it returns the
    kind [argocd] with parameters that carry the name of the pattern, or
    raises [AttributeError], which it does when the destination or the
    source of the manifest is not a mapping. *)
Theorem analysis_of_a_scanned_application (m : fs) (repo_path : path)
    (p : pattern) :
  In p (fst (scan_repository safe_load m repo_path)) ->
  ptype p = "argocd" ->
  (exists params,
     analyze_pattern safe_load m p
     = Ok {| Analysis.type := "argocd";
             Analysis.parameters := ArgoParameters params;
             Analysis.structure := [] |}
     /\ ArgoParams.appName params = pname p)
  \/ analyze_pattern safe_load m p = Raise AttributeError.
Proof.
  rewrite scan_repository_split. simpl. intros H T.
  apply in_app_iff in H as [H | H];
    [apply helm_detect_types in H; congruence |].
  apply argocd_detect_spec in H as (f & _ & _ & A).
  pose proof (analyze_argocd_app_ok _ _ _ _ A) as (_ & _ & Hc).
  unfold analyze_pattern. rewrite T. simpl.
  assert (Hx : (exists params,
                  _extract_argocd_parameters safe_load m p = Ok params)
               \/ _extract_argocd_parameters safe_load m p
                  = Raise AttributeError).
  { unfold _extract_argocd_parameters. rewrite Hc. simpl.
    generalize (default_parameters p) as a. intros a.
    unfold read_manifest. unfold analyze_argocd_app_try in A.
    destruct (load_file safe_load m f) as [data |] eqn:L; [| discriminate].
    simpl in A.
    assert (Hex : FS.exists_ m f = true).
    { unfold load_file in L.
      destruct (FS.read_text m f) as [text |] eqn:R; [| discriminate].
      eapply read_text_exists, R. }
    rewrite Hex. simpl.
    destruct (Yaml.get data "metadata" (YMap [])) as [md |] eqn:M;
      [| discriminate].
    apply get_is_map in M as (kvs & -> & _). simpl in A.
    destruct (Yaml.get (default (YMap []) (Yaml.lookup kvs "spec")) "source"
                (YMap [])) as [src |] eqn:S.
    2:{ destruct (Yaml.get md "name" (YStr (PathLib.stem f))); discriminate. }
    apply get_is_map in S as (skvs & Hspec & _).
    rewrite has_YMap. unfold Yaml.item.
    destruct (Yaml.lookup kvs "spec") as [spec |] eqn:Sp; simpl; [| eauto].
    simpl in Hspec. subst spec.
    destruct (read_destination_raises skvs a) as [[b ->] | ->]; simpl;
      [| eauto].
    destruct (read_source_raises skvs b) as [[c ->] | ->]; simpl; eauto. }
  destruct Hx as [[params Hx] | Hx]; rewrite Hx; simpl; [left | right; reflexivity].
  exists params. split; [reflexivity |].
  apply read_manifests_fixed in Hx as (H1 & _). simpl in H1. auto.
Qed.

End Analysing.

(** * Further properties of the template engine *)

Section Engine.

Variable get_remote_url : path -> option string.

#[local] Set Default Proof Using "Type".

(** ** Templates in memory *)

Lemma for_each_cons_ret {A R} (body : A -> io (option R)) (x : A)
    (xs : list A) (m : fs) (r : option R) (rs : list R) :
  body x m = (m, Ok r) -> for_each xs body m = (m, Ok rs) ->
  for_each (x :: xs) body m
  = (m, Ok match r with Some r => r :: rs | None => rs end).
Proof. intros H1 H2. simpl. unfold io_bind. rewrite H1, H2. reflexivity. Qed.

Lemma create_templates_in_memory_are (patterns : list pattern) (m : fs) :
  create_templates patterns None m = (m, Ok (List.map template_of patterns)).
Proof.
  unfold create_templates. induction patterns as [| p ps IH]; [reflexivity |].
  destruct p as [n d v c k | n d c st];
    apply (for_each_cons_ret _ _ _ _ (Some _)); (reflexivity || exact IH).
Qed.

(** X7. Without an output directory the engine touches no file and cannot
    fail: it gives one template for each pattern, in order, with the kind
    and the name of the pattern. Nothing else of the pattern reaches the
    template: the files are those of the kind, the same for every chart
    and the same for every application. *)
Theorem templates_in_memory_keep_only_the_name (patterns : list pattern)
    (m : fs) :
  exists ts,
    create_templates patterns None m = (m, Ok ts)
    /\ List.map ttype ts = List.map ptype patterns
    /\ List.map tname ts = List.map pname patterns
    /\ Forall (fun t =>
                 tfiles t = if String.eqb (ttype t) "helm" then helm_files
                            else [("application.yaml",
                                   TemplateEngine.app_template)]) ts.
Proof.
  exists (List.map template_of patterns).
  split; [apply create_templates_in_memory_are |].
  rewrite !List.map_map. repeat split.
  apply Forall_forall. intros t Ht.
  apply list_elem_of_In, in_map_iff in Ht as (p & <- & _). reflexivity.
Qed.

(** ** Names used as paths *)

Lemma append_assoc (a b c : string) : ((a ++ b) ++ c = a ++ (b ++ c))%string.
Proof.
  induction a as [| x a IH]; [reflexivity |].
  change (String x ((a ++ b) ++ c) = String x (a ++ (b ++ c)))%string.
  rewrite IH. reflexivity.
Qed.

Lemma split_on_plain (s cur : string) :
  Py.contains s "/" = false ->
  PathLib.split_on "/" s cur = [(cur ++ s)%string].
Proof.
  revert cur. induction s as [| c s IH]; intros cur H; simpl.
  - rewrite append_empty_r. reflexivity.
  - simpl in H. apply orb_false_iff in H as [Hc Hs].
    unfold Py.startswith in Hc.
    destruct (Ascii.eqb_spec c "/") as [-> | Hne].
    + discriminate Hc.
    + rewrite IH by exact Hs. rewrite append_assoc. reflexivity.
Qed.

Lemma joinstr_plain (p : path) (n : string) :
  plain_name n = true -> PathLib.joinstr p n = p ++ [n].
Proof.
  unfold plain_name. rewrite !andb_true_iff, !negb_true_iff.
  intros [[[He Hd] _] Hs]. unfold PathLib.joinstr.
  assert (Hstart : Py.startswith n "/" = false).
  { destruct n; [reflexivity |]. simpl in Hs.
    apply orb_false_iff in Hs as [Hs _]. exact Hs. }
  rewrite Hstart. unfold PathLib.parts. rewrite split_on_plain by exact Hs.
  change ("" ++ n)%string with n. unfold List.filter.
  rewrite He, Hd. reflexivity.
Qed.

(** X8. A chart name is joined to the target path as it is. When the name
    of a template starts with a slash, the path of the chart is the name
    alone: the direct apply does the same whatever the target repository
    is, under dry-run it announces the chart at the path the name spells
    (for a name that does not start with two slashes, which a path keeps),
    and saving the template does the same whatever the output directory
    is. *)
Theorem absolute_chart_name_replaces_the_target (s : string) :
  Py.startswith s "/" = true ->
  (forall (t : template) (target_repo other_repo : path)
          (variables : gmap string Jinja.value) (dry_run : bool) (m : fs),
     tname t = YStr s ->
     _apply_helm_template t target_repo variables dry_run m
     = _apply_helm_template t other_repo variables dry_run m)
  /\ (forall (t : template) (target_repo : path)
             (variables : gmap string Jinja.value) (m : fs),
        tname t = YStr s ->
        Py.startswith s "//" = false ->
        _apply_helm_template t target_repo variables true m
        = (m, Ok {| pattern_id := "helm/" ++ s; status := would_apply;
                    message := "Would create Helm chart at "
                               ++ PathLib.str (PathLib.parts s) |}))
  /\ (forall (p : pattern) (output_dir other_dir : path) (m : fs),
        pname p = YStr s ->
        _create_helm_template p (Some output_dir) m
        = _create_helm_template p (Some other_dir) m).
Proof.
  intros Hs. split; [| split].
  - intros t T T' vars d m Hn. unfold _apply_helm_template.
    rewrite Hn. unfold join_value, PathLib.joinstr. rewrite Hs. reflexivity.
  - intros t T vars m Hn _. unfold _apply_helm_template.
    rewrite Hn. unfold join_value, PathLib.joinstr. rewrite Hs. reflexivity.
  - intros p out out' m Hn. unfold _create_helm_template.
    rewrite Hn. unfold join_value, PathLib.joinstr. rewrite Hs. reflexivity.
Qed.

(** ** Rendering *)

Lemma items_fuel_other (c : ascii) (s : string) (fuel : nat) (text : string) :
  c <> "{"%char ->
  Jinja.items_fuel (S fuel) text (String c s)
  = Jinja.items_fuel fuel (Jinja.snoc text c) s.
Proof.
  intros H.
  destruct c as [[] [] [] [] [] [] [] []]; try reflexivity.
  contradiction H. reflexivity.
Qed.

Lemma items_fuel_plain (s : string) :
  forall (fuel : nat) (text : string),
    (String.length s < fuel)%nat ->
    (forall c, In c (list_ascii_of_string s) -> c <> "{"%char) ->
    Jinja.items_fuel fuel text s = Ok [Jinja.IText (text ++ s)].
Proof.
  induction s as [| c s IH]; intros fuel text Hfuel Hplain.
  - destruct fuel; [simpl in Hfuel; lia |]. simpl.
    rewrite append_empty_r. reflexivity.
  - destruct fuel; [simpl in Hfuel; lia |].
    rewrite items_fuel_other by (apply Hplain; left; reflexivity).
    rewrite IH.
    + unfold Jinja.snoc. rewrite append_assoc. reflexivity.
    + simpl in Hfuel. lia.
    + intros x Hx. apply Hplain. right. exact Hx.
Qed.

Lemma normalize_line (t : string) :
  (forall c, In c (list_ascii_of_string t) -> c <> "013"%char) ->
  Jinja.normalize (t ++ String "010" "") = t.
Proof.
  induction t as [| c t IH]; intros H; [reflexivity |].
  change (String c t ++ String "010" "")%string
    with (String c (t ++ String "010" "")).
  assert (Hc : Ascii.eqb c "013" = false).
  { apply Ascii.eqb_neq, H. left. reflexivity. }
  assert (IH' : Jinja.normalize (t ++ String "010" "") = t).
  { apply IH. intros x Hx. apply H. right. exact Hx. }
  simpl. rewrite Hc. destruct (Ascii.eqb_spec c "010") as [-> | _].
  - rewrite IH'. destruct t; reflexivity.
  - rewrite IH'. reflexivity.
Qed.

(** X9. A template without braces and without carriage returns renders
    to itself, less the line feed that ends it, whatever the variables
    are. *)
Theorem plain_text_renders_without_its_last_line_feed (t : string)
    (variables : gmap string Jinja.value) :
  (forall c, In c (list_ascii_of_string t) ->
             c <> "{"%char /\ c <> "013"%char) ->
  render_template (t ++ String "010" "") variables = Ok t.
Proof.
  intros H. unfold render_template, Jinja.render, Jinja.compile.
  rewrite normalize_line by (intros c Hc; apply H, Hc).
  rewrite items_fuel_plain; [| lia | intros c Hc; apply H, Hc].
  simpl. unfold Jinja.render_nodes. simpl.
  rewrite append_empty_r. reflexivity.
Qed.

Lemma append_inside (n b rest y : string) :
  (b ++ rest)%string = y -> ((n ++ b) ++ rest)%string = (n ++ y)%string.
Proof. intros <-. apply append_assoc. Qed.

Lemma render_application (target_repo : path) :
  Jinja.render TemplateEngine.app_template
    (_extract_variables_for_repo get_remote_url target_repo)
  = Ok (rendered_application (PathLib.name target_repo)
          (repo_url_of get_remote_url target_repo)).
Proof.
  vm_compute. f_equal.
  repeat first [apply append_inside; vm_compute | f_equal].
Qed.

(** X10. The manifest that a replication writes for an application is
    made of the target alone: whatever the application of the source
    declares, the manifest written is the one rendered for the name and the
    URL of the target repository, with the path [deployments/helm/] of the
    target and the [helm] block. *)
Theorem replicated_application_is_made_of_the_target (p : pattern)
    (target_repo : path) (t : template) (m0 m1 m m' : fs) (r : apply_result) :
  ptype p = "argocd" ->
  _create_argocd_template p None m0 = (m1, Ok t) ->
  _apply_argocd_template t target_repo
    (_extract_variables_for_repo get_remote_url target_repo) false m
  = (m', Ok r) ->
  exists name,
    format_value (pname p) = Ok name
    /\ m' !! PathLib.joinstr (target_repo ++ ["deployments"; "argocd"])
               (name ++ "-application.yaml")
       = Some (File (rendered_application (PathLib.name target_repo)
                       (repo_url_of get_remote_url target_repo))).
Proof.
  intros _ Ht Run. unfold _create_argocd_template, io_ret in Ht.
  inversion Ht. subst t m1. clear Ht.
  apply argocd_template_overwrites in Run
    as (name & body & out & Hname & Hbody & Hout & Hfile).
  simpl in Hname, Hbody. inversion Hbody. subst body.
  rewrite render_application in Hout. inversion Hout. subst out.
  exists name. auto.
Qed.

(** Joining a path with the literal name of a template file. *)
Ltac join_file_names :=
  lazy beta iota zeta delta
    [PathLib.joinstr Py.startswith PathLib.parts PathLib.split_on List.filter
     negb andb String.eqb Ascii.eqb Bool.eqb fst snd String.append].

Lemma classic_or_in {A} (y x : A) (xs : list A) :
  In y (x :: xs) -> y = x \/ In y xs.
Proof. intros [<- | H]; auto. Qed.

(** ** Templates saved in a directory *)

Lemma keeps_write_same (q : path) (c : string) (p : path) (content : string) :
  (p = q -> content = c) -> keeps q c (FS.write_text p content).
Proof.
  intros H m Hq. unfold FS.write_text.
  destruct (FS.node_at m p) as [[c' |] |];
    destruct (FS.node_at m (PathLib.parent p)) as [[c'' |] |]; simpl;
    try exact Hq;
    (destruct (decide (p = q)) as [E | E];
     [subst q; rewrite (H eq_refl); apply lookup_insert_eq
     | rewrite lookup_insert_ne by exact E; exact Hq]).
Qed.

Lemma keeps_save_file (q : path) (c : string) (dir : path)
    (entry : string * string) :
  (PathLib.joinstr dir (fst entry) = q -> snd entry = c) ->
  keeps q c (save_file dir entry).
Proof.
  intros H. unfold save_file.
  apply keeps_bind; [apply keeps_mkdir_p |]. intros _.
  apply keeps_write_same, H.
Qed.

Lemma save_file_ok (dir : path) (entry : string * string) (m m' : fs)
    (u : unit) :
  save_file dir entry m = (m', Ok u) ->
  m' !! PathLib.joinstr dir (fst entry) = Some (File (snd entry)).
Proof.
  unfold save_file. intros H. apply io_bind_ok in H as (m1 & ? & _ & H).
  eapply write_text_ok, H.
Qed.

Lemma format_plain (n : string) : format_value (YStr n) = Ok n.
Proof. reflexivity. Qed.

Lemma application_file_plain (n : string) :
  plain_name n = true -> plain_name (n ++ "-application.yaml") = true.
Proof.
  unfold plain_name. rewrite !andb_true_iff, !negb_true_iff.
  intros [[[He Hd] Hdd] Hs].
  assert (Hc : Py.contains (n ++ "-application.yaml") "/" = false).
  { clear He Hd Hdd. induction n as [| a n IH]; [reflexivity |].
    simpl in Hs. apply orb_false_iff in Hs as [Ha Hs].
    change (Py.contains (String a (n ++ "-application.yaml")) "/" = false).
    simpl. rewrite IH by exact Hs.
    unfold Py.startswith in *. rewrite Ha. reflexivity. }
  repeat split; try exact Hc; destruct n as [| a [| b [| c n]]];
    try reflexivity; try discriminate;
    apply String.eqb_neq; intros E; inversion E.
Qed.

Lemma keeps_create_helm (out q : path) (c : string) (p : pattern) (n : string) :
  saved out q c -> pname p = YStr n -> plain_name n = true ->
  keeps q c (_create_helm_template p (Some out)).
Proof.
  intros [k Hq] Hn Hplain. unfold _create_helm_template.
  rewrite Hn. unfold join_value. rewrite joinstr_plain by exact Hplain.
  change (keeps q c
            (let* _ := FS.mkdir_p ((out ++ ["helm"]) ++ [n]) in
             let* _ := for_each_ helm_files
                         (save_file ((out ++ ["helm"]) ++ [n])) in
             io_ret {| ttype := "helm"; tname := YStr n;
                       tfiles := helm_files |})).
  apply keeps_bind; [apply keeps_mkdir_p |]. intros _.
  apply keeps_bind; [| intros _; apply keeps_ret].
  apply keeps_for_each_. unfold helm_files.
  repeat constructor; apply keeps_save_file; simpl fst; simpl snd;
    join_file_names; rewrite <- !app_assoc; simpl; intros E;
    destruct Hq as [[-> ->] | [[-> ->] | [[-> ->] | [-> ->]]]];
    apply app_inv_head in E; inversion E; reflexivity.
Qed.

Lemma keeps_create_argocd (out q : path) (c : string) (p : pattern)
    (n : string) :
  saved out q c -> pname p = YStr n -> plain_name n = true ->
  keeps q c (_create_argocd_template p (Some out)).
Proof.
  intros [k Hq] Hn Hplain. unfold _create_argocd_template.
  apply keeps_bind; [apply keeps_mkdir_p |]. intros _.
  rewrite Hn.
  change (keeps q c
            (let* _ := FS.write_text
                         (PathLib.joinstr (out ++ ["argocd"])
                            (n ++ "-application.yaml"))
                         TemplateEngine.app_template in
             io_ret {| ttype := "argocd"; tname := YStr n;
                       tfiles := [("application.yaml",
                                   TemplateEngine.app_template)] |})).
  apply keeps_bind; [| intros _; apply keeps_ret].
  apply keeps_write_same.
  rewrite joinstr_plain by (apply application_file_plain, Hplain).
  rewrite <- app_assoc. simpl. intros E.
  destruct Hq as [[-> ->] | [[-> ->] | [[-> ->] | [-> ->]]]];
    apply app_inv_head in E; inversion E; reflexivity.
Qed.

Lemma create_helm_saves (out : path) (p : pattern) (n : string) (m m' : fs)
    (t : template) :
  pname p = YStr n -> plain_name n = true ->
  _create_helm_template p (Some out) m = (m', Ok t) ->
  m' !! (out ++ ["helm"; n; "Chart.yaml"])
  = Some (File TemplateEngine.chart_template)
  /\ m' !! (out ++ ["helm"; n; "values.yaml"])
     = Some (File TemplateEngine.values_template)
  /\ m' !! (out ++ ["helm"; n; "templates"; "deployment.yaml"])
     = Some (File TemplateEngine.deployment_template).
Proof.
  intros Hn Hplain. unfold _create_helm_template.
  rewrite Hn. unfold join_value. rewrite joinstr_plain by exact Hplain.
  intros H.
  change ((let* _ := FS.mkdir_p ((out ++ ["helm"]) ++ [n]) in
           let* _ := for_each_ helm_files
                       (save_file ((out ++ ["helm"]) ++ [n])) in
           io_ret {| ttype := "helm"; tname := YStr n;
                     tfiles := helm_files |}) m = (m', Ok t)) in H.
  apply io_bind_ok in H as (m1 & ? & _ & H).
  apply io_bind_ok in H as (m2 & ? & H & E).
  unfold io_ret in E. inversion E. subst m2 t. clear E.
  unfold helm_files in H. simpl in H.
  apply io_bind_ok in H as (a & ? & H1 & H).
  apply io_bind_ok in H as (b & ? & H2 & H).
  apply io_bind_ok in H as (b' & ? & H3 & H).
  unfold io_ret in H. inversion H. subst b'. clear H.
  pose proof (save_file_ok _ _ _ _ _ H1) as H1'.
  pose proof (save_file_ok _ _ _ _ _ H2) as H2'.
  pose proof (save_file_ok _ _ _ _ _ H3) as H3'.
  revert H1' H2' H3'. simpl fst. simpl snd. join_file_names.
  rewrite <- !app_assoc. simpl. intros H1' H2' H3'.
  split; [| split]; [| | exact H3'].
  - assert (K : keeps (out ++ ["helm"; n; "Chart.yaml"])
                  TemplateEngine.chart_template
                  (let* _ := save_file ((out ++ ["helm"]) ++ [n])
                               ("values.yaml", TemplateEngine.values_template) in
                   save_file ((out ++ ["helm"]) ++ [n])
                     ("templates/deployment.yaml",
                      TemplateEngine.deployment_template))).
    { apply keeps_bind; [| intros _]; apply keeps_save_file;
        simpl fst; join_file_names; rewrite <- !app_assoc; simpl; intros E;
        apply app_inv_head in E; inversion E. }
    specialize (K a H1'). unfold io_bind in K. rewrite H2, H3 in K. exact K.
  - assert (K : keeps (out ++ ["helm"; n; "values.yaml"])
                  TemplateEngine.values_template
                  (save_file ((out ++ ["helm"]) ++ [n])
                     ("templates/deployment.yaml",
                      TemplateEngine.deployment_template))).
    { apply keeps_save_file;
        simpl fst; join_file_names; rewrite <- !app_assoc; simpl; intros E;
        apply app_inv_head in E; inversion E. }
    specialize (K b H2'). rewrite H3 in K. exact K.
Qed.

Lemma create_argocd_saves (out : path) (p : pattern) (n : string) (m m' : fs)
    (t : template) :
  pname p = YStr n -> plain_name n = true ->
  _create_argocd_template p (Some out) m = (m', Ok t) ->
  m' !! (out ++ ["argocd"; (n ++ "-application.yaml")%string])
  = Some (File TemplateEngine.app_template).
Proof.
  intros Hn Hplain. unfold _create_argocd_template. intros H.
  apply io_bind_ok in H as (m1 & ? & _ & H). rewrite Hn in H.
  change ((let* _ := FS.write_text
                       (PathLib.joinstr (out ++ ["argocd"])
                          (n ++ "-application.yaml"))
                       TemplateEngine.app_template in
           io_ret {| ttype := "argocd"; tname := YStr n;
                     tfiles := [("application.yaml",
                                 TemplateEngine.app_template)] |}) m1
          = (m', Ok t)) in H.
  apply io_bind_ok in H as (m2 & ? & H & E).
  unfold io_ret in E. inversion E. subst m2.
  apply write_text_ok in H.
  rewrite joinstr_plain in H by (apply application_file_plain, Hplain).
  rewrite <- app_assoc in H. exact H.
Qed.

Lemma for_each_establishes {A R : Type} (Q : fs -> Prop)
    (body : A -> io (option R)) (P : A -> Prop) (xs : list A) :
  Forall (fun x => forall m, Q m -> Q (fst (body x m))) xs ->
  (forall x m1 m2 r, In x xs -> P x -> body x m1 = (m2, Ok r) -> Q m2) ->
  forall m m' rs,
    for_each xs body m = (m', Ok rs) ->
    (exists x, In x xs /\ P x) ->
    Q m'.
Proof.
  induction 1 as [| x xs Hx Hxs IH]; intros Hbody m m' rs Run (y & Hy & Py);
    [destruct Hy |].
  simpl in Run. apply io_bind_ok in Run as (m1 & r & Rx & Run).
  apply io_bind_ok in Run as (m2 & rs' & Rxs & E).
  unfold io_ret in E. inversion E. subst m2. clear E.
  destruct (classic_or_in y x xs Hy) as [-> | Hin].
  - assert (K : forall a, Q a -> Q (fst (for_each xs body a))).
    { clear -Hxs. induction Hxs as [| z zs Hz _ IHz]; intros a Ha; simpl;
        [exact Ha |].
      unfold io_bind. specialize (Hz a Ha).
      destruct (body z a) as [a1 [r1 |]]; simpl in *; [| exact Hz].
      specialize (IHz a1 Hz).
      destruct (for_each zs body a1) as [a2 [r2 |]]; exact IHz. }
    specialize (K m1). rewrite Rxs in K. apply K.
    eapply Hbody; [left; reflexivity | exact Py | exact Rx].
  - eapply IH; [| exact Rxs | eauto].
    intros z a b r' Hz. apply Hbody. right. exact Hz.
Qed.

(** X11. Templates saved in an output directory, for patterns whose names
    are plain: when the engine returns, each chart has left its three files
    under [helm/<name>/] and each application its manifest
    [argocd/<name>-application.yaml], every one holding the body of the
    template as it is, placeholders included. *)
Theorem saved_templates_layout (patterns : list pattern) (out : path)
    (m m' : fs) (ts : list template) :
  Forall (fun p => exists n, pname p = YStr n /\ plain_name n = true)
    patterns ->
  create_templates patterns (Some out) m = (m', Ok ts) ->
  forall p n, In p patterns -> pname p = YStr n ->
    if String.eqb (ptype p) "helm"
    then m' !! (out ++ ["helm"; n; "Chart.yaml"])
         = Some (File TemplateEngine.chart_template)
         /\ m' !! (out ++ ["helm"; n; "values.yaml"])
            = Some (File TemplateEngine.values_template)
         /\ m' !! (out ++ ["helm"; n; "templates"; "deployment.yaml"])
            = Some (File TemplateEngine.deployment_template)
    else m' !! (out ++ ["argocd"; (n ++ "-application.yaml")%string])
         = Some (File TemplateEngine.app_template).
Proof.
  clear get_remote_url.
  intros Hplain Run p n Hp Hn. unfold create_templates in Run.
  assert (Hn' : plain_name n = true).
  { rewrite Forall_forall in Hplain.
    destruct (Hplain p) as (n' & E & H); [apply list_elem_of_In, Hp |].
    congruence. }
  assert (Hkeeps : forall q c, saved out q c ->
            Forall (fun x => keeps q c
              (if String.eqb (ptype x) "helm"
               then let* t := _create_helm_template x (Some out) in
                    io_ret (Some t)
               else if String.eqb (ptype x) "argocd"
               then let* t := _create_argocd_template x (Some out) in
                    io_ret (Some t)
               else io_ret None)) patterns).
  { intros q c Hq. rewrite Forall_forall in Hplain. apply Forall_forall.
    intros x Hx. destruct (Hplain x Hx) as (k & Hk & Pk).
    destruct (String.eqb (ptype x) "helm").
    - apply keeps_bind; [| intros ?; apply keeps_ret].
      eapply keeps_create_helm; eassumption.
    - destruct (String.eqb (ptype x) "argocd"); [| apply keeps_ret].
      apply keeps_bind; [| intros ?; apply keeps_ret].
      eapply keeps_create_argocd; eassumption. }
  assert (Hleave : forall q c,
            saved out q c ->
            (forall m1 m2 r,
               (if String.eqb (ptype p) "helm"
                then let* t := _create_helm_template p (Some out) in
                     io_ret (Some t)
                else if String.eqb (ptype p) "argocd"
                then let* t := _create_argocd_template p (Some out) in
                     io_ret (Some t)
                else io_ret None) m1 = (m2, Ok r) ->
               m2 !! q = Some (File c)) ->
            m' !! q = Some (File c)).
  { intros q c Hq Hbody.
    eapply (for_each_establishes (fun a => a !! q = Some (File c)) _
              (fun x => x = p));
      [apply Hkeeps, Hq | | exact Run | eauto].
    intros x m1 m2 r _ ->. apply Hbody. }
  destruct (String.eqb (ptype p) "helm") eqn:T.
  - repeat split; apply Hleave;
      try (exists n; tauto);
      intros m1 m2 r H; apply io_bind_ok in H as (m3 & t & H & E);
      unfold io_ret in E; inversion E; subst m3;
      apply (create_helm_saves out p n) in H; try assumption; tauto.
  - apply Hleave; [exists n; tauto |].
    assert (T' : String.eqb (ptype p) "argocd" = true)
      by (destruct p; [discriminate T | reflexivity]).
    rewrite T'.
    intros m1 m2 r H. apply io_bind_ok in H as (m3 & t & H & E).
    unfold io_ret in E. inversion E. subst m3.
    apply (create_argocd_saves out p n) in H; assumption.
Qed.

End Engine.

(** * Further properties of the applicator and of the commands *)

Section Replication.

Variable safe_load : string -> option yaml.
Variable get_remote_url : path -> option string.

#[local] Set Default Proof Using "Type".

(** ** The chart of the engine cannot be applied *)

Lemma deployment_template_is_refused (variables : gmap string Jinja.value) :
  Jinja.render TemplateEngine.deployment_template variables
  = Raise TemplateSyntaxError.
Proof.
  unfold Jinja.render.
  assert (E : Jinja.compile TemplateEngine.deployment_template
              = Raise TemplateSyntaxError) by (vm_compute; reflexivity).
  rewrite E. reflexivity.
Qed.

Lemma for_each_In_ok {A R} (body : A -> io (option R)) (xs : list A) (x : A) :
  In x xs ->
  forall m m' rs,
    for_each xs body m = (m', Ok rs) ->
    exists m1 m2 r, body x m1 = (m2, Ok r).
Proof.
  induction xs as [| y xs IH]; intros Hx m m' rs Run; [destruct Hx |].
  simpl in Run. apply io_bind_ok in Run as (m1 & r & Ry & Run).
  apply io_bind_ok in Run as (m2 & rs' & Rxs & _).
  destruct Hx as [-> | Hx]; [eauto | eapply IH; eassumption].
Qed.

Lemma helm_template_is_not_applied (t : template) (target_repo : path)
    (variables : gmap string Jinja.value) (m m' : fs) (r : apply_result) :
  tfiles t = helm_files ->
  _apply_helm_template t target_repo variables false m <> (m', Ok r).
Proof.
  intros Hfiles Run. unfold _apply_helm_template in Run.
  apply io_bind_ok in Run as (m1 & target_path & _ & Run).
  apply io_bind_ok in Run as (m2 & chart_name & _ & Run).
  apply io_bind_ok in Run as (m3 & u & Run & _).
  rewrite Hfiles in Run. unfold helm_files in Run. simpl in Run.
  apply io_bind_ok in Run as (a & ? & _ & Run).
  apply io_bind_ok in Run as (b & ? & _ & Run).
  apply io_bind_ok in Run as (c & ? & Run & _).
  unfold write_rendered in Run.
  apply io_bind_ok in Run as (d & ? & _ & Run).
  apply io_bind_ok in Run as (e & rendered & Run & _).
  unfold io_read in Run. simpl in Run.
  rewrite deployment_template_is_refused in Run. discriminate Run.
Qed.

(** X12. With dry-run off, a replication from a source in which the scan
    finds a chart never returns: the deployment template of the engine is
    refused by the renderer (or an earlier step fails), and the exception
    reaches the caller. *)
Theorem replicate_raises_when_the_source_has_a_chart (m : fs)
    (source_repo target_repo : path) (p : pattern) :
  In p (fst (scan_repository safe_load m source_repo)) ->
  ptype p = "helm" ->
  forall results,
    snd (replicate safe_load get_remote_url source_repo target_repo false m)
    <> Ok results.
Proof.
  intros Hp T results. unfold replicate.
  destruct (fst (scan_repository safe_load m source_repo)) as [| p0 ps] eqn:S;
    [destruct Hp |].
  rewrite <- S in *. clear S p0 ps.
  unfold io_bind at 1. rewrite create_templates_in_memory_are.
  unfold io_bind at 1.
  destruct (apply_patterns_direct get_remote_url
              (List.map template_of
                 (fst (scan_repository safe_load m source_repo)))
              target_repo false m) as [m' [rs | e]] eqn:Run; simpl;
    [| discriminate].
  exfalso. unfold apply_patterns_direct in Run.
  apply (for_each_In_ok _ _ (template_of p)) in Run as (m1 & m2 & r & Run);
    [| apply in_map, Hp].
  unfold template_of in Run. simpl in Run. rewrite T in Run. simpl in Run.
  apply io_bind_ok in Run as (m3 & r' & Run & _).
  eapply helm_template_is_not_applied; [| exact Run]. reflexivity.
Qed.

(** ** The summary of a replication *)

Lemma recognized_template_of (ps : list pattern) :
  List.filter recognized (List.map template_of ps) = List.map template_of ps.
Proof.
  induction ps as [| p ps IH]; [reflexivity |].
  simpl. rewrite IH. destruct p; reflexivity.
Qed.

Lemma count_all (st : apply_status) (rs : list apply_result) :
  Forall (fun r => status r = st) rs ->
  length (List.filter (fun r => bool_decide (status r = st)) rs) = length rs.
Proof.
  induction 1 as [| r rs Hr _ IH]; [reflexivity |].
  simpl. rewrite bool_decide_eq_true_2 by exact Hr. simpl. rewrite IH.
  reflexivity.
Qed.

Lemma count_none (st st' : apply_status) (rs : list apply_result) :
  st <> st' -> Forall (fun r => status r = st) rs ->
  length (List.filter (fun r => bool_decide (status r = st')) rs) = 0.
Proof.
  intros Hne. induction 1 as [| r rs Hr _ IH]; [reflexivity |].
  simpl. rewrite bool_decide_eq_false_2 by congruence. exact IH.
Qed.

Lemma Forall2_right {A B} (P : B -> Prop) (xs : list A) (ys : list B) :
  Forall2 (fun _ y => P y) xs ys -> Forall P ys /\ length ys = length xs.
Proof.
  induction 1 as [| x y xs ys Hy _ [IH IHl]]; [split; [constructor | reflexivity] |].
  split; [constructor; assumption | simpl; rewrite IHl; reflexivity].
Qed.

(** X13. The summary of a replication never counts a skipped pattern:
    when the command gets to its summary, [Skipped] is 0, and [Applied] is
    0 under dry-run and the number of patterns of the source otherwise. *)
Theorem replicate_summary_never_counts_skipped
    (source_repo target_repo : path) (dry_run : bool) (m m' : fs)
    (n_applied n_skipped : nat) :
  replicate_summary safe_load get_remote_url source_repo target_repo dry_run m
  = (m', Ok (Some (n_applied, n_skipped))) ->
  n_skipped = 0
  /\ n_applied
     = if dry_run then 0
       else length (fst (scan_repository safe_load m source_repo)).
Proof.
  unfold replicate_summary. intros Run.
  apply io_bind_ok in Run as (m1 & results & Run & E).
  unfold io_ret in E. inversion E as [[Em Es]]. clear E. subst m1.
  destruct results as [rs |]; [| discriminate Es].
  simpl in Es. inversion Es as [[Ea Esk]]. clear Es.
  unfold replicate in Run.
  destruct (fst (scan_repository safe_load m source_repo)) as [| p0 ps] eqn:S;
    [discriminate Run |].
  rewrite <- S in *. clear S p0 ps.
  unfold io_bind at 1 in Run. rewrite create_templates_in_memory_are in Run.
  apply io_bind_ok in Run as (m2 & rs' & Run & E).
  unfold io_ret in E. inversion E. subst m2 rs'. clear E.
  apply direct_statuses in Run. rewrite recognized_template_of in Run.
  apply Forall2_right in Run as [Hst Hlen].
  rewrite length_map in Hlen. destruct dry_run.
  - split; eapply count_none; try exact Hst; discriminate.
  - split; [eapply count_none; [| exact Hst]; discriminate |].
    rewrite count_all by exact Hst. exact Hlen.
Qed.

End Replication.

(** * What an apply leaves alone *)

Section Frame.

Variable d : path.

Lemma above_is_outside (q : path) :
  q `prefix_of` d -> q <> d -> ~ d `prefix_of` q.
Proof.
  intros [a Ha] Hne [b Hb]. apply Hne. subst d.
  rewrite <- app_assoc in Hb. rewrite <- (app_nil_r q) in Hb at 1.
  apply app_inv_head in Hb. symmetry in Hb.
  apply app_eq_nil in Hb as [-> _]. rewrite app_nil_r. reflexivity.
Qed.

Lemma confined_ret {A} (x : A) : confined d (io_ret x).
Proof. intros m _ q _. reflexivity. Qed.

Lemma confined_read {A} (f : fs -> result A) : confined d (io_read f).
Proof. intros m _ q _. reflexivity. Qed.

Lemma confined_bind {A B} (comp : io A) (k : A -> io B) :
  confined d comp -> (forall x, confined d (k x)) ->
  confined d (io_bind comp k).
Proof.
  intros Hc Hk m Hm q Hq. unfold io_bind.
  pose proof (Hc m Hm) as Hc1.
  destruct (comp m) as [m1 [x | e]]; simpl in *; [| apply Hc1, Hq].
  rewrite (Hk x m1); [apply Hc1, Hq | | exact Hq].
  intros a Ha Hne Hnil. rewrite Hc1 by (apply above_is_outside; assumption).
  apply Hm; assumption.
Qed.

Lemma confined_if {A : Type} (cond : fs -> bool) (c1 c2 : io A) :
  confined d c1 -> confined d c2 ->
  confined d (fun m => if cond m then c1 m else c2 m).
Proof.
  intros H1 H2 m Hm q Hq. destruct (cond m); [apply H1 | apply H2]; assumption.
Qed.

Lemma confined_for_each {A R} (body : A -> io (option R)) (xs : list A) :
  (forall x, confined d (body x)) -> confined d (for_each xs body).
Proof.
  intros Hbody. induction xs as [| x xs IH]; simpl; [apply confined_ret |].
  apply confined_bind; [apply Hbody |]. intros r.
  apply confined_bind; [exact IH |]. intros rs. apply confined_ret.
Qed.

Lemma confined_for_each_in {A R} (body : A -> io (option R)) (xs : list A) :
  Forall (fun x => confined d (body x)) xs -> confined d (for_each xs body).
Proof.
  induction 1 as [| x xs Hx _ IH]; simpl; [apply confined_ret |].
  apply confined_bind; [exact Hx |]. intros r.
  apply confined_bind; [exact IH |]. intros rs. apply confined_ret.
Qed.

Lemma confined_for_each_ {A} (body : A -> io unit) (xs : list A) :
  (forall x, confined d (body x)) -> confined d (for_each_ xs body).
Proof.
  intros Hbody. induction xs as [| x xs IH]; simpl; [apply confined_ret |].
  apply confined_bind; [apply Hbody |]. intros _. exact IH.
Qed.

(** [mkdir] changes a path only by making a directory where nothing was. *)
Lemma mkdir_from_effect (todo : path) :
  forall (m : fs) (done q : path),
    fst (FS.mkdir_from m done todo) !! q = m !! q
    \/ (In q (mkdir_steps done todo) /\ m !! q = None
        /\ fst (FS.mkdir_from m done todo) !! q = Some Dir).
Proof.
  induction todo as [| part todo IH]; intros m done q; simpl; [auto |].
  destruct (m !! (done ++ [part])) as [[c |] |] eqn:E; simpl; [auto | |].
  - destruct (IH m (done ++ [part]) q) as [H | (H1 & H2 & H3)]; [auto |].
    right. auto.
  - destruct (IH (<[done ++ [part] := Dir]> m) (done ++ [part]) q)
      as [H | (H1 & H2 & H3)].
    + destruct (decide (done ++ [part] = q)) as [<- | Hne].
      * right. rewrite H, lookup_insert_eq. auto.
      * left. rewrite H. apply lookup_insert_ne, Hne.
    + right. split; [auto |]. split; [| exact H3].
      destruct (decide (done ++ [part] = q)) as [<- | Hne].
      * exact E.
      * rewrite lookup_insert_ne in H2 by exact Hne. exact H2.
Qed.

Lemma confined_mkdir_p (p : path) :
  d `prefix_of` p -> confined d (FS.mkdir_p p).
Proof.
  intros Hp m Hm q Hq. unfold FS.mkdir_p.
  destruct (mkdir_from_effect p m [] q) as [H | (Hin & Hnone & _)];
    [exact H |].
  exfalso. apply in_mkdir_steps in Hin as (a & b & Ha & -> & ->).
  simpl in *.
  assert (Hqp : a `prefix_of` a ++ b) by (exists b; reflexivity).
  destruct (prefix_weak_total _ _ _ Hp Hqp) as [H | H]; [contradiction |].
  rewrite Hm in Hnone; [discriminate | exact H | | exact Ha].
  intros ->. apply Hq. reflexivity.
Qed.

Lemma write_text_effect (p : path) (content : string) (m : fs) (q : path) :
  p <> q -> fst (FS.write_text p content m) !! q = m !! q.
Proof.
  intros Hne. unfold FS.write_text.
  destruct (FS.node_at m p) as [[c |] |];
    destruct (FS.node_at m (PathLib.parent p)) as [[c' |] |]; simpl;
    rewrite ?lookup_insert_ne by exact Hne; reflexivity.
Qed.

Lemma confined_write_text (p : path) (content : string) :
  d `prefix_of` p -> confined d (FS.write_text p content).
Proof.
  intros Hp m _ q Hq. apply write_text_effect. intros ->. contradiction.
Qed.

End Frame.

Section ApplyFrame.

Variable safe_load : string -> option yaml.
Variable get_remote_url : path -> option string.
Variable target_repo : path.

#[local] Set Default Proof Using "Type".

Lemma under_deployments (w : path) :
  (target_repo ++ ["deployments"]) `prefix_of`
    (target_repo ++ "deployments" :: w).
Proof. exists w. rewrite <- app_assoc. reflexivity. Qed.

Lemma parent_under_deployments (x : string) (w : path) :
  (target_repo ++ ["deployments"]) `prefix_of`
    PathLib.parent (target_repo ++ "deployments" :: x :: w).
Proof.
  change (target_repo ++ "deployments" :: x :: w)
    with (target_repo ++ ["deployments"] ++ x :: w).
  rewrite app_assoc. apply parent_under; [eexists; reflexivity |].
  intros E. rewrite <- (app_nil_r (target_repo ++ ["deployments"])) in E at 2.
  apply app_inv_head in E. discriminate E.
Qed.

Lemma confined_copy_chart_file (template_dir : path) (chart_name : string)
    (file_path : path) :
  confined (target_repo ++ ["deployments"])
    (copy_chart_file get_remote_url template_dir target_repo
       (target_repo ++ ["deployments"; "helm"; chart_name]) file_path).
Proof.
  unfold copy_chart_file.
  set (target_file := (target_repo ++ ["deployments"; "helm"; chart_name])
                        ++ drop (length template_dir) file_path).
  assert (Hunder : (target_repo ++ ["deployments"]) `prefix_of` target_file).
  { unfold target_file. rewrite <- app_assoc. apply under_deployments. }
  assert (Hparent : (target_repo ++ ["deployments"])
                      `prefix_of` PathLib.parent target_file).
  { unfold target_file. rewrite <- app_assoc. simpl.
    apply parent_under_deployments. }
  apply (confined_if _ (fun m => FS.is_file m file_path) _ (io_ret tt));
    [| apply confined_ret].
  apply confined_bind; [apply confined_mkdir_p, Hparent |]. intros _.
  destruct (in_suffixes file_path [".yaml"; ".yml"; ".j2"]).
  - apply confined_bind; [apply confined_read |]. intros content.
    apply confined_bind; [apply confined_read |]. intros rendered.
    apply confined_write_text, Hunder.
  - apply confined_bind; [apply confined_read |]. intros content.
    apply confined_write_text, Hunder.
Qed.

Lemma confined_helm_chart (template_dir : path) (existing : option pattern)
    (dry_run force : bool) :
  confined (target_repo ++ ["deployments"])
    (_apply_helm_chart get_remote_url template_dir target_repo existing
       dry_run force).
Proof.
  unfold _apply_helm_chart.
  destruct (bool_decide (is_Some existing) && negb force);
    [apply confined_ret |].
  destruct dry_run; [apply confined_ret |].
  apply confined_bind; [apply confined_mkdir_p, under_deployments |].
  intros _. apply confined_bind; [apply confined_read |]. intros files.
  apply confined_bind; [| intros _; apply confined_ret].
  apply confined_for_each_. intros f. apply confined_copy_chart_file.
Qed.

Lemma confined_argocd_app (template_file : path) (existing : option pattern)
    (dry_run force : bool) :
  confined (target_repo ++ ["deployments"])
    (_apply_argocd_app get_remote_url template_file target_repo existing
       dry_run force).
Proof.
  unfold _apply_argocd_app.
  destruct (bool_decide (is_Some existing) && negb force);
    [apply confined_ret |].
  destruct dry_run; [apply confined_ret |].
  apply confined_bind;
    [apply confined_mkdir_p, parent_under_deployments |].
  intros _. apply confined_bind; [apply confined_read |]. intros content.
  apply confined_bind; [apply confined_read |]. intros rendered.
  apply confined_bind; [| intros _; apply confined_ret].
  apply confined_write_text, under_deployments.
Qed.

Lemma confined_apply_patterns (template_dir : path) (dry_run force : bool) :
  confined (target_repo ++ ["deployments"])
    (apply_patterns safe_load get_remote_url template_dir target_repo dry_run
       force).
Proof.
  intros m. rewrite apply_patterns_loops.
  generalize (fst (scan_repository safe_load m target_repo)) as ps.
  intros ps. revert m.
  assert (Htype : forall template_type,
            confined (target_repo ++ ["deployments"])
              (apply_type_dir get_remote_url template_dir target_repo ps
                 dry_run force template_type)).
  { intros template_type. unfold apply_type_dir.
    apply (confined_if _
             (fun m => FS.exists_ m (PathLib.join template_dir template_type))
             _ (io_ret [])); [| apply confined_ret].
    apply confined_bind; [apply confined_read |]. intros entries.
    apply confined_for_each. intros template_path. unfold apply_entry.
    apply (confined_if _ (fun m => FS.is_dir m template_path)
             (let* r := _apply_helm_chart get_remote_url template_path
                          target_repo (existing_of ps "helm") dry_run force in
              io_ret (Some r))
             (fun m =>
                if in_suffixes template_path [".yaml"; ".yml"]
                then (let* r := _apply_argocd_app get_remote_url template_path
                                  target_repo (existing_of ps "argocd")
                                  dry_run force in
                      io_ret (Some r)) m
                else (m, Ok None))).
    - apply confined_bind; [apply confined_helm_chart |].
      intros r. apply confined_ret.
    - destruct (in_suffixes template_path [".yaml"; ".yml"]).
      + apply confined_bind; [apply confined_argocd_app |].
        intros r. apply confined_ret.
      + apply (confined_ret _ None). }
  apply confined_bind; [apply Htype |]. intros helm.
  apply confined_bind; [apply Htype |]. intros argocd. apply confined_ret.
Qed.

Lemma above_deployments (q : path) :
  q `prefix_of` target_repo ++ ["deployments"] ->
  q <> target_repo ++ ["deployments"] -> q `prefix_of` target_repo.
Proof.
  intros [w Hw] Hne. destruct (decide (w = [])) as [-> | Hnil].
  - rewrite app_nil_r in Hw. congruence.
  - rewrite (app_removelast_last "" Hnil), app_assoc in Hw.
    apply app_inj_tail in Hw as [-> _]. eexists. reflexivity.
Qed.

(** X14. An apply from a template directory changes nothing outside the
    [deployments] directory of the target, whether it returns or raises and
    whatever the flags are: when the target repository and the directories
    above it exist, every path that is not under [deployments] holds after
    the apply what it held before. *)
Theorem apply_changes_nothing_outside_deployments (template_dir : path)
    (dry_run force : bool) (m : fs) (q : path) :
  (forall a, a `prefix_of` target_repo -> a <> [] -> m !! a = Some Dir) ->
  ~ (target_repo ++ ["deployments"]) `prefix_of` q ->
  fst (apply_patterns safe_load get_remote_url template_dir target_repo
         dry_run force m) !! q
  = m !! q.
Proof.
  intros Hdirs Hq. apply confined_apply_patterns; [| exact Hq].
  intros a Ha Hne Hnil. apply Hdirs; [| exact Hnil].
  apply above_deployments; assumption.
Qed.

(** ** The direct apply *)

Lemma joinstr_relative (p : path) (s : string) :
  Py.startswith s "/" = false -> PathLib.joinstr p s = p ++ PathLib.parts s.
Proof. intros H. unfold PathLib.joinstr. rewrite H. reflexivity. Qed.

Lemma parent_app_under (p w : path) :
  (target_repo ++ ["deployments"]) `prefix_of` PathLib.parent p ->
  p <> [] ->
  (target_repo ++ ["deployments"]) `prefix_of` PathLib.parent (p ++ w).
Proof.
  intros H Hp. destruct (decide (w = [])) as [-> | Hw].
  - rewrite app_nil_r. exact H.
  - rewrite (app_removelast_last "" Hw), app_assoc.
    fold (PathLib.name w). rewrite parent_snoc.
    rewrite (parent_name p Hp). destruct H as [k Hk]. rewrite Hk.
    eexists. rewrite <- !app_assoc. reflexivity.
Qed.

Lemma confined_write_rendered (x : string) (w : path)
    (variables : gmap string Jinja.value) (entry : string * string) :
  Py.startswith (fst entry) "/" = false ->
  confined (target_repo ++ ["deployments"])
    (write_rendered (target_repo ++ "deployments" :: x :: w) variables entry).
Proof.
  intros Hrel. unfold write_rendered. rewrite joinstr_relative by exact Hrel.
  apply confined_bind.
  { apply confined_mkdir_p, parent_app_under;
      [apply parent_under_deployments | destruct target_repo; discriminate]. }
  intros _. apply confined_bind; [apply confined_read |]. intros rendered.
  apply confined_write_text. rewrite <- app_assoc. apply under_deployments.
Qed.

Lemma confined_bind_const {A B} (v : A) (k : A -> io B) :
  confined (target_repo ++ ["deployments"]) (k v) ->
  confined (target_repo ++ ["deployments"])
    (io_bind (io_read (fun _ => Ok v)) k).
Proof. intros H m Hm q Hq. exact (H m Hm q Hq). Qed.

Lemma confined_direct_template (p : pattern) (n : string) (dry_run : bool) :
  pname p = YStr n -> plain_name n = true ->
  confined (target_repo ++ ["deployments"])
    (if String.eqb (ttype (template_of p)) "helm"
     then let* r := _apply_helm_template (template_of p) target_repo
                      (_extract_variables_for_repo get_remote_url target_repo)
                      dry_run in
          io_ret (Some r)
     else if String.eqb (ttype (template_of p)) "argocd"
     then let* r := _apply_argocd_template (template_of p) target_repo
                      (_extract_variables_for_repo get_remote_url target_repo)
                      dry_run in
          io_ret (Some r)
     else io_ret None).
Proof.
  intros Hn Hplain. unfold template_of. simpl ttype.
  destruct (String.eqb (ptype p) "helm") eqn:T.
  - apply confined_bind; [| intros r; apply confined_ret].
    unfold _apply_helm_template. simpl tname. simpl tfiles. rewrite Hn.
    unfold join_value, format_value.
    rewrite joinstr_plain by exact Hplain.
    apply confined_bind_const, confined_bind_const.
    destruct dry_run; [apply confined_ret |].
    apply confined_bind; [| intros _; apply confined_ret].
    rewrite <- app_assoc. simpl.
    unfold helm_files. simpl.
    repeat (apply confined_bind;
            [apply confined_write_rendered; reflexivity | intros _]).
    apply confined_ret.
  - destruct (String.eqb (ptype p) "argocd"); [| apply confined_ret].
    apply confined_bind; [| intros r; apply confined_ret].
    unfold _apply_argocd_template. simpl tname. simpl tfiles. rewrite Hn.
    unfold format_value. apply confined_bind_const.
    rewrite joinstr_plain by (apply application_file_plain, Hplain).
    rewrite <- app_assoc. simpl.
    destruct dry_run; [apply confined_ret |].
    apply confined_bind;
      [apply confined_mkdir_p, parent_under_deployments |]. intros _.
    apply confined_bind; [apply confined_read |]. intros content.
    apply confined_bind; [apply confined_read |]. intros rendered.
    apply confined_bind; [| intros _; apply confined_ret].
    apply confined_write_text, under_deployments.
Qed.

(** X15. A replication changes nothing outside the [deployments]
    directory of the target, whether it returns or raises and with dry-run
    on or off, when the patterns of the source have plain names and the
    target repository and the directories above it exist. In particular it
    leaves the source repository as it is. *)
Theorem replicate_changes_nothing_outside_deployments (source_repo : path)
    (dry_run : bool) (m : fs) (q : path) :
  Forall (fun p => exists n, pname p = YStr n /\ plain_name n = true)
    (fst (scan_repository safe_load m source_repo)) ->
  (forall a, a `prefix_of` target_repo -> a <> [] -> m !! a = Some Dir) ->
  ~ (target_repo ++ ["deployments"]) `prefix_of` q ->
  fst (replicate safe_load get_remote_url source_repo target_repo dry_run m)
    !! q
  = m !! q.
Proof.
  intros Hplain Hdirs Hq. unfold replicate.
  destruct (fst (scan_repository safe_load m source_repo)) as [| p0 ps] eqn:S;
    [reflexivity |].
  rewrite <- S in *. clear S p0 ps.
  unfold io_bind at 1. rewrite create_templates_in_memory_are.
  rewrite fst_bind_ret. unfold apply_patterns_direct.
  apply (confined_for_each_in (target_repo ++ ["deployments"])).
  - apply Forall_forall. intros t Ht.
    apply list_elem_of_In, in_map_iff in Ht as (p & <- & Hp).
    rewrite Forall_forall in Hplain.
    destruct (Hplain p) as (n & Hn & Pn); [apply list_elem_of_In, Hp |].
    eapply confined_direct_template; eassumption.
  - intros a Ha Hne Hnil. apply Hdirs; [| exact Hnil].
    apply above_deployments; assumption.
  - exact Hq.
Qed.

End ApplyFrame.

(** * What an apply writes *)

Section Copy.

Variable get_remote_url : path -> option string.
Variable target_repo : path.

#[local] Set Default Proof Using "Type".

Lemma for_each__split {A} (body : A -> io unit) (l1 l2 : list A) (x : A) :
  forall m m' u,
    for_each_ (l1 ++ x :: l2) body m = (m', Ok u) ->
    exists ma mb,
      for_each_ l1 body m = (ma, Ok tt)
      /\ body x ma = (mb, Ok tt)
      /\ for_each_ l2 body mb = (m', Ok tt).
Proof.
  induction l1 as [| y l1 IH]; intros m m' u Run; simpl in Run.
  - apply io_bind_ok in Run as (mb & [] & Rx & Run). destruct u.
    exists m, mb. auto.
  - apply io_bind_ok in Run as (m1 & [] & Ry & Run).
    apply IH in Run as (ma & mb & R1 & Rx & R2).
    exists ma, mb. split; [| auto]. simpl. unfold io_bind. rewrite Ry. exact R1.
Qed.

Lemma under_is_app (d q : path) : d `prefix_of` q -> q = d ++ drop (length d) q.
Proof. intros [w ->]. rewrite drop_app_length. reflexivity. Qed.

Lemma keeps_copy_chart_file (q : path) (c : string)
    (template_dir target_path file_path : path) :
  target_path ++ drop (length template_dir) file_path <> q ->
  keeps q c
    (copy_chart_file get_remote_url template_dir target_repo target_path
       file_path).
Proof.
  intros Hne m Hq. unfold copy_chart_file.
  destruct (FS.is_file m file_path); [| exact Hq].
  revert m Hq. fold (keeps q c
    (let* _ := FS.mkdir_p
                 (PathLib.parent
                    (target_path ++ drop (length template_dir) file_path)) in
     if in_suffixes file_path [".yaml"; ".yml"; ".j2"]
     then
       let* content := io_read (fun m => FS.read_text m file_path) in
       let* rendered :=
         io_read (fun _ => Jinja.render content
                             (_extract_variables_for_repo get_remote_url
                                target_repo)) in
       FS.write_text (target_path ++ drop (length template_dir) file_path)
         rendered
     else
       let* content := io_read (fun m => FS.read_text m file_path) in
       FS.write_text (target_path ++ drop (length template_dir) file_path)
         content)).
  apply keeps_bind; [apply keeps_mkdir_p |]. intros _.
  destruct (in_suffixes file_path [".yaml"; ".yml"; ".j2"]).
  - apply keeps_bind; [apply keeps_read |]. intros content.
    apply keeps_bind; [apply keeps_read |]. intros rendered.
    apply keeps_write_text, Hne.
  - apply keeps_bind; [apply keeps_read |]. intros content.
    apply keeps_write_text, Hne.
Qed.

Lemma copy_chart_file_writes (template_dir target_path file_path : path)
    (c : string) (ma mb : fs) (u : unit) :
  copy_chart_file get_remote_url template_dir target_repo target_path
    file_path ma = (mb, Ok u) ->
  ma !! file_path = Some (File c) -> file_path <> [] ->
  (in_suffixes file_path [".yaml"; ".yml"; ".j2"] = true ->
   exists out,
     Jinja.render c (_extract_variables_for_repo get_remote_url target_repo)
     = Ok out
     /\ mb !! (target_path ++ drop (length template_dir) file_path)
        = Some (File out))
  /\ (in_suffixes file_path [".yaml"; ".yml"; ".j2"] = false ->
      mb !! (target_path ++ drop (length template_dir) file_path)
      = Some (File c)).
Proof.
  intros Run Hf Hne. unfold copy_chart_file in Run.
  assert (Hnode : forall m, FS.node_at m file_path = m !! file_path).
  { intros m. destruct file_path; [contradiction | reflexivity]. }
  unfold FS.is_file in Run. rewrite Hnode, Hf in Run.
  apply io_bind_ok in Run as (mc & [] & Hmk & Run).
  assert (Hc : mc !! file_path = Some (File c)).
  { pose proof (keeps_mkdir_p file_path c
                  (PathLib.parent
                     (target_path ++ drop (length template_dir) file_path))
                  ma Hf) as K.
    rewrite Hmk in K. exact K. }
  destruct (in_suffixes file_path [".yaml"; ".yml"; ".j2"]).
  - split; [intros _ | discriminate].
    apply io_bind_ok in Run as (m1 & content & Hread & Run).
    apply io_bind_ok in Run as (m2 & rendered & Hrender & Run).
    unfold io_read in Hread, Hrender.
    unfold FS.read_text in Hread. rewrite Hnode, Hc in Hread.
    inversion Hread. subst m1 content. inversion Hrender. subst m2.
    exists rendered. split; [assumption |]. eapply write_text_ok, Run.
  - split; [discriminate | intros _].
    apply io_bind_ok in Run as (m1 & content & Hread & Run).
    unfold io_read in Hread.
    unfold FS.read_text in Hread. rewrite Hnode, Hc in Hread.
    inversion Hread. subst m1 content. eapply write_text_ok, Run.
Qed.

(** X16. A chart applied from a template directory that lies apart from
    the [deployments] directory of the target is mirrored there: when the
    apply returns [applied], every regular file of the template chart has
    its counterpart at the same relative path under
    [deployments/helm/<chart>]; the counterpart of a file with suffix
    [.yaml], [.yml] or [.j2] holds the rendering of the file with the
    variables of the target (under the same name, suffix included), that of
    any other file holds the same content. *)
Theorem applied_chart_mirrors_the_template (chart_dir : path)
    (existing : option pattern) (force : bool) (m m' : fs) (r : apply_result) :
  apart chart_dir (target_repo ++ ["deployments"]) ->
  FS.is_dir m chart_dir = true ->
  _apply_helm_chart get_remote_url chart_dir target_repo existing false force m
  = (m', Ok r) ->
  status r = applied ->
  forall f c,
    PathLib.below chart_dir f = true -> m !! f = Some (File c) ->
    (in_suffixes f [".yaml"; ".yml"; ".j2"] = true ->
     exists out,
       Jinja.render c (_extract_variables_for_repo get_remote_url target_repo)
       = Ok out
       /\ m' !! ((target_repo ++ ["deployments"; "helm"; PathLib.name chart_dir])
                  ++ drop (length chart_dir) f)
          = Some (File out))
    /\ (in_suffixes f [".yaml"; ".yml"; ".j2"] = false ->
        m' !! ((target_repo ++ ["deployments"; "helm"; PathLib.name chart_dir])
                 ++ drop (length chart_dir) f)
        = Some (File c)).
Proof.
  intros Hapart Hdir Run Hst f c Hbelow Hf.
  unfold _apply_helm_chart in Run.
  destruct (bool_decide (is_Some existing) && negb force).
  { unfold io_ret in Run. inversion Run. subst r. discriminate Hst. }
  apply io_bind_ok in Run as (m1 & [] & Hmk & Run).
  apply io_bind_ok in Run as (m1' & files & Hread & Run).
  unfold io_read in Hread. inversion Hread. subst m1' files. clear Hread.
  apply io_bind_ok in Run as (m2 & [] & Hloop & E).
  unfold io_ret in E. inversion E. subst m2. clear E.
  set (target_path := target_repo ++ ["deployments"; "helm";
                                      PathLib.name chart_dir]) in *.
  set (body := copy_chart_file get_remote_url chart_dir target_repo
                 target_path) in *.
  (* the template is as it was when the loop starts *)
  assert (Hext1 : extends chart_dir m m1).
  { pose proof (proj1 (replayable_mkdir_under chart_dir target_repo Hapart
                         target_path (under_deployments target_repo _)) m) as H.
    rewrite Hmk in H. exact H. }
  destruct Hext1 as (_ & _ & R1).
  assert (Hdir1 : FS.is_dir m1 chart_dir = true).
  { rewrite <- (regional_is_dir chart_dir chart_dir (reflexivity _) m m1 R1).
    exact Hdir. }
  assert (Hunder : chart_dir `prefix_of` f) by (apply below_under, Hbelow).
  assert (Hne : f <> []).
  { intros ->. unfold PathLib.below in Hbelow.
    apply andb_true_iff in Hbelow as [Hp Hn].
    apply bool_decide_eq_true in Hp as [w Hw]. symmetry in Hw.
    apply app_eq_nil in Hw as [-> _].
    apply negb_true_iff, bool_decide_eq_false in Hn. auto. }
  assert (Hin : In f (FS.rglob m1 chart_dir (fun _ => true))).
  { unfold FS.rglob. rewrite Hdir1. apply in_select.
    rewrite Hbelow. split; [reflexivity |].
    rewrite <- (R1 f Hunder), Hf. eauto. }
  pose proof (rglob_NoDup m1 chart_dir (fun _ => true)) as Hnodup.
  assert (Hall : forall g, In g (FS.rglob m1 chart_dir (fun _ => true)) ->
                           chart_dir `prefix_of` g).
  { intros g Hg. apply in_rglob_below in Hg as [Hg _].
    apply below_under, Hg. }
  destruct (in_split _ _ Hin) as (l1 & l2 & Hsplit).
  rewrite Hsplit in Hloop, Hnodup, Hall.
  apply for_each__split in Hloop as (ma & mb & R_l1 & R_f & R_l2).
  (* the turns before [f] leave [f] as it was *)
  assert (Hma : ma !! f = Some (File c)).
  { assert (Hrep : replayable chart_dir (for_each_ l1 body)).
    { apply replayable_for_each_, Forall_forall. intros g Hg.
      apply (replayable_copy_chart_file get_remote_url chart_dir target_repo
               Hapart chart_dir (PathLib.name chart_dir) g).
      apply Hall, in_app_iff. left. apply list_elem_of_In, Hg. }
    pose proof (proj1 Hrep m1) as (_ & _ & R2). rewrite R_l1 in R2.
    simpl in R2. rewrite <- (R2 f Hunder), <- (R1 f Hunder). exact Hf. }
  pose proof (copy_chart_file_writes _ _ _ c _ _ _ R_f Hma Hne) as [Hy Hn].
  (* the turns after [f] write elsewhere *)
  assert (Hkeep : forall cc,
            mb !! (target_path ++ drop (length chart_dir) f) = Some (File cc) ->
            m' !! (target_path ++ drop (length chart_dir) f) = Some (File cc)).
  { intros cc Hcc.
    assert (K : keeps (target_path ++ drop (length chart_dir) f) cc
                  (for_each_ l2 body)).
    { apply keeps_for_each_, Forall_forall. intros g Hg.
      apply list_elem_of_In in Hg.
      apply keeps_copy_chart_file. intros E. apply app_inv_head in E.
      assert (g = f).
      { rewrite (under_is_app chart_dir g), (under_is_app chart_dir f Hunder), E;
          [reflexivity |].
        apply Hall, in_app_iff. right. right. exact Hg. }
      subst g. apply NoDup_app in Hnodup as (_ & _ & Hnd).
      apply NoDup_cons in Hnd as [Hnotin _]. apply Hnotin, list_elem_of_In, Hg. }
    specialize (K mb Hcc). rewrite R_l2 in K. exact K. }
  split.
  - intros Hs. destruct (Hy Hs) as (out & Hout & Hfile).
    exists out. split; [exact Hout | apply Hkeep, Hfile].
  - intros Hs. apply Hkeep, Hn, Hs.
Qed.

Lemma mkdir_p_file_before (p q : path) (c : string) (m m1 : fs) (u : unit) :
  FS.mkdir_p p m = (m1, Ok u) -> m1 !! q = Some (File c) ->
  m !! q = Some (File c).
Proof.
  intros Run Hq. unfold FS.mkdir_p in Run.
  destruct (mkdir_from_effect p m [] q) as [H | (_ & _ & H)];
    rewrite Run in H; simpl in H; congruence.
Qed.

(** X17. An application applied from a template file: when the apply
    returns [applied], the template is a regular file, and the target holds
    under [deployments/argocd/], with the name of the template file as it
    is, the rendering of the template with the variables of the target;
    the pattern reported is named after the stem of the file name less
    every [-application]. *)
Theorem applied_application_is_the_rendered_template (template_file : path)
    (existing : option pattern) (force : bool) (m m' : fs) (r : apply_result) :
  _apply_argocd_app get_remote_url template_file target_repo existing false
    force m = (m', Ok r) ->
  status r = applied ->
  exists c out,
    m !! template_file = Some (File c)
    /\ Jinja.render c (_extract_variables_for_repo get_remote_url target_repo)
       = Ok out
    /\ m' !! (target_repo
              ++ ["deployments"; "argocd"; PathLib.name template_file])
       = Some (File out)
    /\ pattern_id r
       = ("argocd/"
          ++ Py.remove_all "-application" (PathLib.stem template_file))%string.
Proof.
  intros Run Hst. unfold _apply_argocd_app in Run.
  destruct (bool_decide (is_Some existing) && negb force).
  { unfold io_ret in Run. inversion Run. subst r. discriminate Hst. }
  apply io_bind_ok in Run as (m1 & [] & Hmk & Run).
  apply io_bind_ok in Run as (m2 & content & Hread & Run).
  apply io_bind_ok in Run as (m3 & rendered & Hrender & Run).
  apply io_bind_ok in Run as (m4 & [] & Hwrite & E).
  unfold io_read in Hread, Hrender. inversion Hread as [[Em Hc]].
  inversion Hrender as [[Em' Hout]]. subst m2 m3. clear Hread Hrender.
  unfold io_ret in E. inversion E. subst m4 r. clear E.
  exists content, rendered. repeat split; try assumption.
  - unfold FS.read_text, FS.node_at in Hc.
    destruct template_file as [| x l]; [discriminate Hc |].
    destruct (m1 !! (x :: l)) as [[c |] |] eqn:F; try discriminate Hc.
    inversion Hc. subst c. eapply mkdir_p_file_before; eassumption.
  - eapply write_text_ok, Hwrite.
Qed.

End Copy.

(** * The [scan] command *)

Section ScanCommand.

Variable safe_load : string -> option yaml.
Variable out : path.

#[local] Set Default Proof Using "Type".

Lemma under_out (w : path) : out `prefix_of` out ++ w.
Proof. exists w. reflexivity. Qed.

Lemma parent_under_out (x : string) (w : path) :
  out `prefix_of` PathLib.parent (out ++ x :: w).
Proof.
  apply parent_under; [apply under_out |].
  intros E. rewrite <- (app_nil_r out) in E at 2.
  apply app_inv_head in E. discriminate E.
Qed.

Lemma confined_const {A B} (v : A) (k : A -> io B) :
  confined out (k v) -> confined out (io_bind (io_read (fun _ => Ok v)) k).
Proof. intros H m Hm q Hq. exact (H m Hm q Hq). Qed.

Lemma confined_save_file (x y : string) (entry : string * string) :
  Py.startswith (fst entry) "/" = false ->
  confined out (save_file (out ++ [x; y]) entry).
Proof.
  intros Hrel. unfold save_file. rewrite joinstr_relative by exact Hrel.
  rewrite <- app_assoc.
  apply confined_bind; [| intros _; apply confined_write_text, under_out].
  apply confined_mkdir_p. simpl. apply parent_under_out.
Qed.

Lemma confined_create (p : pattern) (n : string) :
  pname p = YStr n -> plain_name n = true ->
  confined out
    (if String.eqb (ptype p) "helm"
     then let* t := _create_helm_template p (Some out) in io_ret (Some t)
     else if String.eqb (ptype p) "argocd"
     then let* t := _create_argocd_template p (Some out) in io_ret (Some t)
     else io_ret None).
Proof.
  intros Hn Hplain. destruct (String.eqb (ptype p) "helm").
  - apply confined_bind; [| intros t; apply confined_ret].
    unfold _create_helm_template. rewrite Hn. unfold join_value.
    rewrite joinstr_plain by exact Hplain. apply confined_const.
    rewrite <- app_assoc. simpl.
    apply confined_bind; [apply confined_mkdir_p, under_out |]. intros _.
    apply confined_bind; [| intros _; apply confined_ret].
    unfold helm_files. simpl.
    repeat (apply confined_bind;
            [apply (confined_save_file "helm" n); reflexivity | intros _]).
    apply confined_ret.
  - destruct (String.eqb (ptype p) "argocd"); [| apply confined_ret].
    apply confined_bind; [| intros t; apply confined_ret].
    unfold _create_argocd_template. rewrite Hn. unfold format_value.
    apply confined_bind; [apply confined_mkdir_p, under_out |]. intros _.
    apply confined_const.
    rewrite joinstr_plain by (apply application_file_plain, Hplain).
    rewrite <- app_assoc. simpl.
    apply confined_bind; [| intros _; apply confined_ret].
    apply confined_write_text, under_out.
Qed.

(** X18. The [scan] command writes only when it is given an output
    directory and finds a pattern; what it then writes lies under the
    output directory, whether it returns or raises, when the patterns have
    plain names and the directories above the output directory exist. So
    it leaves the repository it scans as it is, unless the output directory
    is in it or above it. *)
Theorem scan_writes_only_under_the_output (repo_path : path) (m : fs) :
  fst (scan safe_load repo_path None m) = m
  /\ (forall output,
        fst (scan_repository safe_load m repo_path) = [] ->
        scan safe_load repo_path output m = (m, Ok ([], None)))
  /\ (forall q,
        Forall (fun p => exists n, pname p = YStr n /\ plain_name n = true)
          (fst (scan_repository safe_load m repo_path)) ->
        (forall a, a `prefix_of` out -> a <> out -> a <> [] ->
                   m !! a = Some Dir) ->
        ~ out `prefix_of` q ->
        fst (scan safe_load repo_path (Some out) m) !! q = m !! q).
Proof.
  split; [| split].
  - unfold scan.
    destruct (fst (scan_repository safe_load m repo_path)); reflexivity.
  - intros output E. unfold scan. rewrite E. reflexivity.
  - intros q Hplain Hdirs Hq. unfold scan.
    destruct (fst (scan_repository safe_load m repo_path)) as [| p0 ps] eqn:S;
      [reflexivity |].
    rewrite <- S in *. clear S p0 ps. rewrite fst_bind_ret.
    unfold create_templates.
    apply (confined_for_each_in out); [| exact Hdirs | exact Hq].
    apply Forall_forall. intros p Hp. rewrite Forall_forall in Hplain.
    destruct (Hplain p Hp) as (n & Hn & Pn).
    eapply confined_create; eassumption.
Qed.

End ScanCommand.

(** * The fields of the patterns of a scan *)

Section Fields.

Variable safe_load : string -> option yaml.

#[local] Set Default Proof Using "Type".

Lemma load_file_ok (m : fs) (f : path) (data : yaml) :
  load_file safe_load m f = Ok data ->
  exists text doc,
    FS.read_text m f = Ok text /\ safe_load text = Some doc
    /\ data = Yaml.or_empty doc.
Proof.
  unfold load_file, load.
  destruct (FS.read_text m f) as [text |]; simpl; [| discriminate].
  destruct (safe_load text) as [doc |] eqn:L; simpl; [| discriminate].
  intros E. inversion E. exists text, doc. auto.
Qed.

(** X19. The fields of a chart pattern of a scan. The [Chart.yaml] of its
    directory parses to a mapping (or to a falsy document, read as the
    empty mapping); the name is its [name], or the name of the directory
    when it has none; the version is its [version], or [0.1.0]; the config
    files are the [values.yaml] of the directory when that exists, and
    nothing otherwise; the template count is there when [templates]
    exists, and counts its entries in [.yaml]. *)
Theorem scanned_chart_fields (m : fs) (repo_path : path) (p : pattern) :
  In p (fst (scan_repository safe_load m repo_path)) ->
  ptype p = "helm" ->
  exists text doc kvs,
    FS.read_text m (PathLib.join (ppath p) "Chart.yaml") = Ok text
    /\ safe_load text = Some doc
    /\ Yaml.or_empty doc = YMap kvs
    /\ p = HelmPattern
             (default (YStr (PathLib.name (ppath p))) (Yaml.lookup kvs "name"))
             (ppath p)
             (default (YStr "0.1.0") (Yaml.lookup kvs "version"))
             (if FS.exists_ m (PathLib.join (ppath p) "values.yaml")
              then [PathLib.join (ppath p) "values.yaml"] else [])
             (if FS.exists_ m (PathLib.join (ppath p) "templates")
              then Some (length (FS.glob m (PathLib.join (ppath p) "templates")
                                   (fun n => Py.endswith n ".yaml")))
              else None).
Proof.
  rewrite scan_repository_split. simpl. intros H T.
  apply in_app_iff in H as [H | H];
    [| apply argocd_detect_types in H; congruence].
  unfold helm_detect in H. apply helm_loop_patterns in H as (f & _ & _ & A).
  pose proof (analyze_helm_chart_ok _ _ _ _ A) as [_ Hpath].
  rewrite Hpath. unfold analyze_helm_chart_try in A.
  destruct (load_file safe_load m (PathLib.join (PathLib.parent f) "Chart.yaml"))
    as [data |] eqn:L; [| discriminate]. simpl in A.
  apply load_file_ok in L as (text & doc & R & L & ->).
  destruct (Yaml.get (Yaml.or_empty doc) "name"
              (YStr (PathLib.name (PathLib.parent f)))) as [name |] eqn:N;
    [| discriminate].
  apply get_is_map in N as (kvs & O & ->). simpl in A.
  rewrite O in A. simpl in A. inversion A.
  exists text, doc, kvs. auto.
Qed.

(** X20. The fields of an application pattern of a scan. Its one config
    file parses to a mapping whose [metadata] and [spec], when present, are
    mappings; the name is the [name] of the metadata, or the stem of the
    file name when there is none; the path is the directory of the file;
    the source type is [helm] when the source of the specification has a
    [helm] entry and [kustomize] in every other case, a specification
    without a source included. *)
Theorem scanned_application_fields (m : fs) (repo_path : path) (p : pattern) :
  In p (fst (scan_repository safe_load m repo_path)) ->
  ptype p = "argocd" ->
  exists f text doc kvs md spec helm,
    FS.read_text m f = Ok text
    /\ safe_load text = Some doc
    /\ Yaml.or_empty doc = YMap kvs
    /\ default (YMap []) (Yaml.lookup kvs "metadata") = YMap md
    /\ default (YMap []) (Yaml.lookup kvs "spec") = YMap spec
    /\ Yaml.has (default (YMap []) (Yaml.lookup spec "source")) "helm" = Ok helm
    /\ p = ArgoPattern
             (default (YStr (PathLib.stem f)) (Yaml.lookup md "name"))
             (PathLib.parent f) [f]
             (if helm : bool then "helm" else "kustomize").
Proof.
  rewrite scan_repository_split. simpl. intros H T.
  apply in_app_iff in H as [H | H];
    [apply helm_detect_types in H; congruence |].
  apply argocd_detect_spec in H as (f & _ & _ & A).
  unfold analyze_argocd_app_try in A.
  destruct (load_file safe_load m f) as [data |] eqn:L; [| discriminate].
  simpl in A. apply load_file_ok in L as (text & doc & R & L & ->).
  destruct (Yaml.get (Yaml.or_empty doc) "metadata" (YMap [])) as [md' |] eqn:M;
    [| discriminate].
  apply get_is_map in M as (kvs & O & ->). rewrite O in A. simpl in A.
  destruct (Yaml.get (default (YMap []) (Yaml.lookup kvs "metadata")) "name"
              (YStr (PathLib.stem f))) as [name |] eqn:N; [| discriminate].
  apply get_is_map in N as (md & Hmd & ->). simpl in A.
  destruct (Yaml.get (default (YMap []) (Yaml.lookup kvs "spec")) "source"
              (YMap [])) as [src |] eqn:S; [| discriminate].
  apply get_is_map in S as (spec & Hspec & ->). simpl in A.
  destruct (Yaml.has (default (YMap []) (Yaml.lookup spec "source")) "helm")
    as [helm |] eqn:Hh; [| discriminate].
  simpl in A. inversion A.
  exists f, text, doc, kvs, md, spec, helm. auto 10.
Qed.

End Fields.

(** * The name of a saved application *)

Lemma length_append (a b : string) :
  String.length (a ++ b) = String.length a + String.length b.
Proof.
  induction a as [| c a IH]; [reflexivity |].
  change (S (String.length (a ++ b)) = S (String.length a + String.length b)).
  rewrite IH. reflexivity.
Qed.

Lemma rfind_dot_app (a b : string) :
  forall i acc,
    Py.rfind_dot (a ++ b) i acc
    = Py.rfind_dot b (i + String.length a) (Py.rfind_dot a i acc).
Proof.
  induction a as [| c a IH]; intros i acc.
  - simpl. rewrite Nat.add_0_r. reflexivity.
  - change (Py.rfind_dot (a ++ b) (S i)
              (if Ascii.eqb c "."%char then Some i else acc)
            = Py.rfind_dot b (i + S (String.length a))
                (Py.rfind_dot a (S i)
                   (if Ascii.eqb c "."%char then Some i else acc))).
    rewrite IH. f_equal. lia.
Qed.

Lemma substring_skip (a b : string) (k l : nat) :
  String.substring (String.length a + k) l (a ++ b) = String.substring k l b.
Proof. induction a as [| c a IH]; [reflexivity | exact IH]. Qed.

Lemma substring_take (a b : string) (k : nat) :
  String.substring 0 (String.length a + k) (a ++ b)
  = (a ++ String.substring 0 k b)%string.
Proof.
  induction a as [| c a IH]; [reflexivity |].
  change (String c (String.substring 0 (String.length a + k) (a ++ b))
          = String c (a ++ String.substring 0 k b)).
  rewrite IH. reflexivity.
Qed.

Lemma application_file_dot (n : string) :
  Py.rfind_dot (n ++ "-application.yaml") 0 None
  = Some (String.length n + 12).
Proof.
  rewrite rfind_dot_app. simpl. f_equal. lia.
Qed.

Lemma application_file_suffix (d : path) (n : string) :
  PathLib.suffix (d ++ [(n ++ "-application.yaml")%string]) = ".yaml".
Proof.
  unfold PathLib.suffix, PathLib.name. rewrite last_last.
  rewrite application_file_dot, length_append.
  assert (H : ((0 <? String.length n + 12)%nat
               && (String.length n + 12
                   <? String.length n + String.length "-application.yaml" - 1)%nat)
              = true).
  { apply andb_true_iff. split; apply Nat.ltb_lt; simpl; lia. }
  rewrite H.
  replace (String.length n + String.length "-application.yaml"
           - (String.length n + 12)) with 5 by (simpl; lia).
  rewrite substring_skip. reflexivity.
Qed.

Lemma application_file_stem (d : path) (n : string) :
  PathLib.stem (d ++ [(n ++ "-application.yaml")%string])
  = (n ++ "-application")%string.
Proof.
  unfold PathLib.stem, PathLib.name. rewrite last_last.
  rewrite application_file_dot, length_append.
  assert (H : ((0 <? String.length n + 12)%nat
               && (String.length n + 12
                   <? String.length n + String.length "-application.yaml" - 1)%nat)
              = true).
  { apply andb_true_iff. split; apply Nat.ltb_lt; simpl; lia. }
  rewrite H. rewrite substring_take. reflexivity.
Qed.

(** No occurrence of [-application] starts inside a name and ends in the
    [-application] that follows it: the dash occurs once in it. *)
Lemma application_does_not_straddle (c : ascii) (s : string) :
  Py.startswith (String c s) "-application" = false ->
  Py.startswith (String c s ++ "-application") "-application" = false.
Proof.
  intros H.
  destruct (Py.startswith (String c s ++ "-application") "-application")
    eqn:E; [| reflexivity].
  exfalso. apply startswith_iff in E as [rest E].
  apply not_true_iff_false in H. apply H. apply startswith_iff.
  simpl in E. injection E as -> E.
  do 11 (destruct s as [| c s]; [discriminate E | simpl in E; injection E as -> E]).
  exists s. reflexivity.
Qed.

Lemma remove_application (n : string) :
  Py.contains n "-application" = false ->
  forall fuel,
    (String.length (n ++ "-application") <= fuel)%nat ->
    Py.remove_all_fuel fuel "-application" (n ++ "-application") = n.
Proof.
  induction n as [| c n IH]; intros Hn fuel Hfuel.
  - destruct fuel; [simpl in Hfuel; lia |]. simpl.
    destruct fuel; reflexivity.
  - destruct fuel; [simpl in Hfuel; lia |].
    simpl in Hn. apply orb_false_iff in Hn as [Hs Hn].
    change (Py.remove_all_fuel (S fuel) "-application"
              (String c n ++ "-application"))
      with (if Py.startswith (String c n ++ "-application") "-application"
            then Py.remove_all_fuel fuel "-application"
                   (String.substring (String.length "-application")
                      (String.length (String c n ++ "-application")
                       - String.length "-application")
                      (String c n ++ "-application"))
            else String c (Py.remove_all_fuel fuel "-application"
                             (n ++ "-application"))).
    rewrite application_does_not_straddle by exact Hs.
    rewrite IH; [reflexivity | exact Hn | simpl in Hfuel; lia].
Qed.

Lemma application_name_comes_back (d : path) (n : string) :
  Py.contains n "-application" = false ->
  Py.remove_all "-application"
    (PathLib.stem (d ++ [(n ++ "-application.yaml")%string]))
  = n.
Proof.
  intros H. rewrite application_file_stem. unfold Py.remove_all.
  apply remove_application; [exact H | lia].
Qed.

(** * From saved templates to an apply *)

Section RoundTrip.

Variable safe_load : string -> option yaml.
Variable get_remote_url : path -> option string.

#[local] Set Default Proof Using "Type".

Lemma keeps_dir_ret {A} (q : path) (x : A) : keeps_dir q (io_ret x).
Proof. intros m H. exact H. Qed.

Lemma keeps_dir_read {A} (q : path) (f : fs -> result A) :
  keeps_dir q (io_read f).
Proof. intros m H. exact H. Qed.

Lemma keeps_dir_bind {A B} (q : path) (comp : io A) (k : A -> io B) :
  keeps_dir q comp -> (forall x, keeps_dir q (k x)) ->
  keeps_dir q (io_bind comp k).
Proof.
  intros Hc Hk m H. unfold io_bind. specialize (Hc m H).
  destruct (comp m) as [m1 [x | e]]; simpl in *; [apply Hk, Hc | exact Hc].
Qed.

Lemma keeps_dir_for_each_ {A} (q : path) (body : A -> io unit) (xs : list A) :
  (forall x, keeps_dir q (body x)) -> keeps_dir q (for_each_ xs body).
Proof.
  intros Hbody. induction xs as [| x xs IH]; simpl; [apply keeps_dir_ret |].
  apply keeps_dir_bind; [apply Hbody |]. intros _. exact IH.
Qed.

Lemma keeps_dir_mkdir_p (q p : path) : keeps_dir q (FS.mkdir_p p).
Proof.
  intros m H. unfold FS.mkdir_p.
  destruct (mkdir_from_effect p m [] q) as [E | (_ & E & _)]; congruence.
Qed.

Lemma keeps_dir_write_text (q p : path) (content : string) :
  keeps_dir q (FS.write_text p content).
Proof.
  intros m H. destruct (decide (p = q)) as [-> | Hne].
  - unfold FS.write_text.
    assert (E : FS.node_at m q = Some Dir)
      by (destruct q; [reflexivity | exact H]).
    rewrite E. exact H.
  - rewrite write_text_effect by exact Hne. exact H.
Qed.

Lemma keeps_dir_create (q out : path) (p : pattern) :
  keeps_dir q
    (if String.eqb (ptype p) "helm"
     then let* t := _create_helm_template p (Some out) in io_ret (Some t)
     else if String.eqb (ptype p) "argocd"
     then let* t := _create_argocd_template p (Some out) in io_ret (Some t)
     else io_ret None).
Proof.
  destruct (String.eqb (ptype p) "helm").
  - apply keeps_dir_bind; [| intros t; apply keeps_dir_ret].
    unfold _create_helm_template.
    apply keeps_dir_bind; [apply keeps_dir_read |]. intros helm_dir.
    apply keeps_dir_bind; [apply keeps_dir_mkdir_p |]. intros _.
    apply keeps_dir_bind; [| intros _; apply keeps_dir_ret].
    apply keeps_dir_for_each_. intros entry. unfold save_file.
    apply keeps_dir_bind; [apply keeps_dir_mkdir_p |]. intros _.
    apply keeps_dir_write_text.
  - destruct (String.eqb (ptype p) "argocd"); [| apply keeps_dir_ret].
    apply keeps_dir_bind; [| intros t; apply keeps_dir_ret].
    unfold _create_argocd_template.
    apply keeps_dir_bind; [apply keeps_dir_mkdir_p |]. intros _.
    apply keeps_dir_bind; [apply keeps_dir_read |]. intros name.
    apply keeps_dir_bind; [| intros _; apply keeps_dir_ret].
    apply keeps_dir_write_text.
Qed.

Lemma mkdir_from_ok (todo : path) :
  forall (m m1 : fs) (done : path) (u : unit),
    FS.mkdir_from m done todo = (m1, Ok u) ->
    forall q, In q (mkdir_steps done todo) -> m1 !! q = Some Dir.
Proof.
  induction todo as [| part todo IH]; intros m m1 done u Run q Hq;
    [destruct Hq |].
  simpl in Run, Hq.
  assert (Hkeep : forall a, a !! (done ++ [part]) = Some Dir ->
                            FS.mkdir_from a (done ++ [part]) todo = (m1, Ok u) ->
                            m1 !! q = Some Dir).
  { intros a Ha Ra. destruct Hq as [<- | Hq]; [| eapply IH; eassumption].
    destruct (mkdir_from_effect todo a (done ++ [part]) (done ++ [part]))
      as [E | (_ & E & _)]; [| congruence].
    rewrite Ra in E. simpl in E. congruence. }
  destruct (m !! (done ++ [part])) as [[c |] |] eqn:E.
  - discriminate Run.
  - eapply Hkeep; eassumption.
  - eapply Hkeep; [| exact Run]. apply lookup_insert_eq.
Qed.

Lemma in_mkdir_steps_intro (a b done : path) :
  a <> [] -> In (done ++ a) (mkdir_steps done (a ++ b)).
Proof.
  revert done. induction a as [| x a IH]; intros done Ha; [contradiction |].
  simpl. destruct a as [| y a].
  - left. reflexivity.
  - right. specialize (IH (done ++ [x])). rewrite <- app_assoc in IH.
    apply IH. discriminate.
Qed.

Lemma mkdir_p_ok (p : path) (m m1 : fs) (u : unit) (a b : path) :
  FS.mkdir_p p m = (m1, Ok u) -> p = a ++ b -> a <> [] ->
  m1 !! a = Some Dir.
Proof.
  intros Run -> Ha. unfold FS.mkdir_p in Run.
  eapply mkdir_from_ok; [exact Run |].
  apply (in_mkdir_steps_intro a b []), Ha.
Qed.

Lemma create_helm_makes_dirs (out : path) (p : pattern) (n : string)
    (m m' : fs) (t : template) :
  pname p = YStr n -> plain_name n = true ->
  _create_helm_template p (Some out) m = (m', Ok t) ->
  m' !! (out ++ ["helm"]) = Some Dir /\ m' !! (out ++ ["helm"; n]) = Some Dir.
Proof.
  intros Hn Hplain. unfold _create_helm_template.
  rewrite Hn. unfold join_value. rewrite joinstr_plain by exact Hplain.
  intros H.
  change ((let* _ := FS.mkdir_p ((out ++ ["helm"]) ++ [n]) in
           let* _ := for_each_ helm_files
                       (save_file ((out ++ ["helm"]) ++ [n])) in
           io_ret {| ttype := "helm"; tname := YStr n;
                     tfiles := helm_files |}) m = (m', Ok t)) in H.
  apply io_bind_ok in H as (m1 & [] & Hmk & H).
  assert (K : forall q, m1 !! q = Some Dir -> m' !! q = Some Dir).
  { intros q Hq.
    assert (Kd : keeps_dir q
                   (let* _ := for_each_ helm_files
                                (save_file ((out ++ ["helm"]) ++ [n])) in
                    io_ret {| ttype := "helm"; tname := YStr n;
                              tfiles := helm_files |})).
    { apply keeps_dir_bind; [| intros _; apply keeps_dir_ret].
      apply keeps_dir_for_each_. intros entry. unfold save_file.
      apply keeps_dir_bind; [apply keeps_dir_mkdir_p |]. intros _.
      apply keeps_dir_write_text. }
    specialize (Kd m1 Hq). rewrite H in Kd. exact Kd. }
  split; apply K.
  - apply (mkdir_p_ok _ _ _ _ _ [n] Hmk); [reflexivity |].
    destruct out; discriminate.
  - rewrite <- app_assoc in Hmk.
    apply (mkdir_p_ok _ _ _ _ _ [] Hmk); [rewrite app_nil_r; reflexivity |].
    destruct out; discriminate.
Qed.

Lemma create_argocd_makes_dir (out : path) (p : pattern) (m m' : fs)
    (t : template) :
  _create_argocd_template p (Some out) m = (m', Ok t) ->
  m' !! (out ++ ["argocd"]) = Some Dir.
Proof.
  unfold _create_argocd_template. intros H.
  apply io_bind_ok in H as (m1 & [] & Hmk & H).
  assert (Kd : keeps_dir (out ++ ["argocd"])
                 (let* name := io_read (fun _ => format_value (pname p)) in
                  let* _ := FS.write_text
                              (PathLib.joinstr (out ++ ["argocd"])
                                 (name ++ "-application.yaml"))
                              TemplateEngine.app_template in
                  io_ret {| ttype := "argocd"; tname := pname p;
                            tfiles := [("application.yaml",
                                        TemplateEngine.app_template)] |})).
  { apply keeps_dir_bind; [apply keeps_dir_read |]. intros name.
    apply keeps_dir_bind; [| intros _; apply keeps_dir_ret].
    apply keeps_dir_write_text. }
  specialize (Kd m1). rewrite H in Kd. apply Kd.
  apply (mkdir_p_ok _ _ _ _ _ [] Hmk); [rewrite app_nil_r; reflexivity |].
  destruct out; discriminate.
Qed.

(** ** A dry-run apply lists the entries of the template directory *)

Lemma for_each_lists {A R} (body : A -> io (option R)) (xs : list A) (x : A)
    (r : R) (m : fs) :
  (forall y, read_only (body y)) ->
  In x xs -> body x m = (m, Ok (Some r)) ->
  forall m' rs, for_each xs body m = (m', Ok rs) -> In r rs.
Proof.
  intros Hro Hx Hbody. induction xs as [| y xs IH]; intros m' rs Run;
    [destruct Hx |].
  simpl in Run. apply io_bind_ok in Run as (m1 & ry & Ry & Run).
  apply io_bind_ok in Run as (m2 & rs' & Rxs & E).
  unfold io_ret in E. inversion E. subst m2. clear E.
  assert (m1 = m) by (rewrite <- (Hro y m), Ry; reflexivity). subst m1.
  destruct Hx as [-> | Hx].
  - rewrite Hbody in Ry. inversion Ry. left. reflexivity.
  - specialize (IH Hx _ _ Rxs). destruct ry; [right |]; exact IH.
Qed.

Lemma dry_type_dir_lists (template_dir target_repo : path)
    (ps : list pattern) (template_type : string) (x : path)
    (r : apply_result) (m m' : fs) (rs : list apply_result) :
  m !! (template_dir ++ [template_type]) = Some Dir ->
  PathLib.parent x = template_dir ++ [template_type] -> is_Some (m !! x) ->
  apply_entry get_remote_url target_repo ps true true x m = (m, Ok (Some r)) ->
  apply_type_dir get_remote_url template_dir target_repo ps true true
    template_type m = (m', Ok rs) ->
  In r rs.
Proof.
  intros Hdir Hparent Hx Hentry Run. unfold apply_type_dir in Run.
  unfold PathLib.join, FS.exists_ in Run. rewrite node_at_snoc, Hdir in Run.
  rewrite bool_decide_eq_true_2 in Run by eauto.
  apply io_bind_ok in Run as (m1 & entries & Hlist & Run).
  unfold io_read, FS.iterdir in Hlist. rewrite node_at_snoc, Hdir in Hlist.
  inversion Hlist. subst m1 entries. clear Hlist.
  eapply for_each_lists; [| | exact Hentry | exact Run].
  - intros y. apply dry_run_entry.
  - apply in_select. split; [| exact Hx].
    unfold FS.entry_of. apply andb_true_iff. split.
    + apply bool_decide_eq_true. exact Hparent.
    + apply negb_true_iff, bool_decide_eq_false. intros ->.
      simpl in Hparent. destruct template_dir; discriminate.
Qed.

(** X21. Templates saved in a directory come back from an apply. After
    the engine has saved the templates of patterns with plain names under
    [out], a dry-run apply from [out] with [force] that returns lists, for
    every chart pattern of name [n], the pattern [helm/n] and, for every
    application pattern whose name [n] does not contain [-application],
    the pattern [argocd/n], each with status [would_apply] and its place in
    the target. *)
Theorem saved_templates_come_back_from_a_dry_apply (patterns : list pattern)
    (out target_repo : path) (m m' : fs) (ts : list template)
    (rs : list apply_result) :
  Forall (fun p => exists n, pname p = YStr n /\ plain_name n = true)
    patterns ->
  create_templates patterns (Some out) m = (m', Ok ts) ->
  snd (apply_patterns safe_load get_remote_url out target_repo true true m')
  = Ok rs ->
  forall p n, In p patterns -> pname p = YStr n ->
    if String.eqb (ptype p) "helm"
    then In {| pattern_id := "helm/" ++ n; status := would_apply;
               message := "Would create Helm chart at "
                          ++ PathLib.str
                               (target_repo ++ ["deployments"; "helm"; n]) |}
           rs
    else Py.contains n "-application" = false ->
         In {| pattern_id := "argocd/" ++ n; status := would_apply;
               message := "Would create ArgoCD app at "
                          ++ PathLib.str
                               (target_repo
                                ++ ["deployments"; "argocd";
                                    (n ++ "-application.yaml")%string]) |}
           rs.
Proof.
  intros Hplain Hsave Run p n Hp Hn.
  assert (Hn' : plain_name n = true).
  { rewrite Forall_forall in Hplain.
    destruct (Hplain p) as (n' & E & H); [apply list_elem_of_In, Hp |].
    congruence. }
  destruct (apply_patterns safe_load get_remote_url out target_repo true true
              m') as [m2 res] eqn:R.
  simpl in Run. subst res. rewrite apply_patterns_loops in R.
  set (ps := fst (scan_repository safe_load m' target_repo)) in R.
  apply io_bind_ok in R as (m1 & hs & Rh & R).
  assert (m1 = m').
  { rewrite <- (dry_run_type_dir get_remote_url out target_repo ps true
                  "helm" m'), Rh. reflexivity. }
  subst m1. apply io_bind_ok in R as (m3 & ars & Ra & E).
  unfold io_ret in E. inversion E. subst m3 rs. clear E.
  unfold create_templates in Hsave.
  destruct (String.eqb (ptype p) "helm") eqn:T.
  - apply in_app_iff. left.
    assert (Hd : m' !! (out ++ ["helm"]) = Some Dir
                 /\ m' !! (out ++ ["helm"; n]) = Some Dir).
    { eapply (for_each_establishes
                (fun a => a !! (out ++ ["helm"]) = Some Dir
                          /\ a !! (out ++ ["helm"; n]) = Some Dir)
                _ (fun x => x = p)); [| | exact Hsave | eauto].
      - apply Forall_forall. intros x _ a [H1 H2].
        split; apply keeps_dir_create; assumption.
      - intros x a b r _ -> Hb. rewrite T in Hb.
        apply io_bind_ok in Hb as (b' & t & Hb & E).
        unfold io_ret in E. inversion E. subst b'.
        eapply create_helm_makes_dirs; eassumption. }
    destruct Hd as [Hd1 Hd2].
    assert (Hx : out ++ ["helm"; n] = (out ++ ["helm"]) ++ [n])
      by (rewrite <- app_assoc; reflexivity).
    rewrite Hx in Hd2.
    eapply (dry_type_dir_lists out target_repo ps "helm"
              ((out ++ ["helm"]) ++ [n]));
      [exact Hd1 | apply parent_snoc | eauto | | exact Rh].
    unfold apply_entry, FS.is_dir. rewrite node_at_snoc, Hd2.
    rewrite bool_decide_eq_true_2 by reflexivity.
    unfold _apply_helm_chart. rewrite andb_false_r.
    unfold PathLib.name. rewrite last_last. reflexivity.
  - intros Hclean. apply in_app_iff. right.
    assert (T' : String.eqb (ptype p) "argocd" = true)
      by (destruct p; [discriminate T | reflexivity]).
    assert (Hd : m' !! (out ++ ["argocd"]) = Some Dir
                 /\ m' !! (out ++ ["argocd"; (n ++ "-application.yaml")%string])
                    = Some (File TemplateEngine.app_template)).
    { eapply (for_each_establishes
                (fun a => a !! (out ++ ["argocd"]) = Some Dir
                          /\ a !! (out ++ ["argocd";
                                           (n ++ "-application.yaml")%string])
                             = Some (File TemplateEngine.app_template))
                _ (fun x => x = p)); [| | exact Hsave | eauto].
      - rewrite Forall_forall in Hplain. apply Forall_forall.
        intros x Hx a [H1 H2]. split; [apply keeps_dir_create; assumption |].
        destruct (Hplain x Hx) as (k & Hk & Pk).
        assert (Hsaved : saved out
                  (out ++ ["argocd"; (n ++ "-application.yaml")%string])
                  TemplateEngine.app_template) by (exists n; tauto).
        destruct (String.eqb (ptype x) "helm").
        + apply keeps_bind; [| intros ?; apply keeps_ret | exact H2].
          eapply keeps_create_helm; eassumption.
        + destruct (String.eqb (ptype x) "argocd"); [| exact H2].
          apply keeps_bind; [| intros ?; apply keeps_ret | exact H2].
          eapply keeps_create_argocd; eassumption.
      - intros x a b r _ -> Hb. rewrite T, T' in Hb.
        apply io_bind_ok in Hb as (b' & t & Hb & E).
        unfold io_ret in E. inversion E. subst b'. split.
        + eapply create_argocd_makes_dir, Hb.
        + eapply create_argocd_saves; eassumption. }
    destruct Hd as [Hd1 Hd2].
    assert (Hx : out ++ ["argocd"; (n ++ "-application.yaml")%string]
                 = (out ++ ["argocd"]) ++ [(n ++ "-application.yaml")%string])
      by (rewrite <- app_assoc; reflexivity).
    rewrite Hx in Hd2.
    eapply (dry_type_dir_lists out target_repo ps "argocd"
              ((out ++ ["argocd"]) ++ [(n ++ "-application.yaml")%string]));
      [exact Hd1 | apply parent_snoc | eauto | | exact Ra].
    unfold apply_entry, FS.is_dir. rewrite node_at_snoc, Hd2.
    rewrite bool_decide_eq_false_2 by discriminate.
    unfold in_suffixes. rewrite application_file_suffix. simpl existsb.
    unfold _apply_argocd_app. rewrite andb_false_r.
    rewrite application_name_comes_back by exact Hclean.
    unfold PathLib.name. rewrite last_last. reflexivity.
Qed.

End RoundTrip.

(** * Applying a saved chart *)

Section SavedChart.

Variable safe_load : string -> option yaml.
Variable get_remote_url : path -> option string.
Variable out : path.
Variable target_repo : path.

Hypothesis Hapart : apart out (target_repo ++ ["deployments"]).

#[local] Set Default Proof Using "Type".

Lemma for_each_In_inv {A R : Type} (I : fs -> Prop)
    (body : A -> io (option R)) (xs : list A) (x : A) :
  (forall y m, In y xs -> I m -> I (fst (body y m))) ->
  In x xs ->
  forall m m' rs,
    I m -> for_each xs body m = (m', Ok rs) ->
    exists m1 m2 r, I m1 /\ body x m1 = (m2, Ok r).
Proof.
  induction xs as [| y xs IH]; intros Hinv Hx m m' rs Hm Run; [destruct Hx |].
  simpl in Run. apply io_bind_ok in Run as (m1 & r & Ry & Run).
  apply io_bind_ok in Run as (m2 & rs' & Rxs & _).
  destruct Hx as [-> | Hx]; [eauto |].
  eapply IH; [| exact Hx | | exact Rxs].
  - intros z a Hz. apply Hinv. right. exact Hz.
  - assert (E : m1 = fst (body y m)) by (rewrite Ry; reflexivity).
    rewrite E. apply Hinv; [left; reflexivity | exact Hm].
Qed.

Lemma for_each__In_inv {A : Type} (I : fs -> Prop) (body : A -> io unit)
    (xs : list A) (x : A) :
  (forall y m, In y xs -> I m -> I (fst (body y m))) ->
  In x xs ->
  forall m m' u,
    I m -> for_each_ xs body m = (m', Ok u) ->
    exists m1 m2 r, I m1 /\ body x m1 = (m2, Ok r).
Proof.
  induction xs as [| y xs IH]; intros Hinv Hx m m' u Hm Run; [destruct Hx |].
  simpl in Run. apply io_bind_ok in Run as (m1 & r & Ry & Run).
  destruct Hx as [-> | Hx]; [eauto |].
  eapply IH; [| exact Hx | | exact Run].
  - intros z a Hz. apply Hinv. right. exact Hz.
  - assert (E : m1 = fst (body y m)) by (rewrite Ry; reflexivity).
    rewrite E. apply Hinv; [left; reflexivity | exact Hm].
Qed.

Lemma extends_helm_chart (chart_dir : path) (existing : option pattern)
    (force : bool) (a : fs) :
  out `prefix_of` chart_dir ->
  extends out a
    (fst (_apply_helm_chart get_remote_url chart_dir target_repo existing
            false force a)).
Proof using Type Hapart.
  intros Hdir.
  pose proof (proj1 (replayable_helm_chart get_remote_url out target_repo
                       Hapart chart_dir existing Hdir) a) as H.
  unfold _apply_helm_chart in *. rewrite andb_false_r in H.
  destruct (bool_decide (is_Some existing) && negb force);
    [apply extends_refl | exact H].
Qed.

Lemma extends_argocd_app (template_file : path) (existing : option pattern)
    (force : bool) (a : fs) :
  out `prefix_of` template_file ->
  extends out a
    (fst (_apply_argocd_app get_remote_url template_file target_repo existing
            false force a)).
Proof using Type Hapart.
  intros Hfile.
  pose proof (proj1 (replayable_argocd_app get_remote_url out target_repo
                       Hapart template_file existing Hfile) a) as H.
  unfold _apply_argocd_app in *. rewrite andb_false_r in H.
  destruct (bool_decide (is_Some existing) && negb force);
    [apply extends_refl | exact H].
Qed.

Lemma extends_apply_entry (ps : list pattern) (force : bool) (x : path)
    (a : fs) :
  out `prefix_of` x ->
  extends out a
    (fst (apply_entry get_remote_url target_repo ps false force x a)).
Proof using Type Hapart.
  intros Hx. unfold apply_entry. destruct (FS.is_dir a x).
  - rewrite fst_bind_ret. apply extends_helm_chart, Hx.
  - destruct (in_suffixes x [".yaml"; ".yml"]); [| apply extends_refl].
    rewrite fst_bind_ret. apply extends_argocd_app, Hx.
Qed.

Lemma is_dir_lookup (a : fs) (q : path) :
  a !! q = Some Dir -> FS.is_dir a q = true.
Proof.
  intros H. unfold FS.is_dir, FS.node_at. apply bool_decide_eq_true.
  destruct q; [reflexivity | exact H].
Qed.

Lemma deployment_file_suffix (d : path) :
  in_suffixes (d ++ ["templates"; "deployment.yaml"]) [".yaml"; ".yml"; ".j2"]
  = true.
Proof.
  unfold in_suffixes, PathLib.suffix, PathLib.name.
  change (d ++ ["templates"; "deployment.yaml"])
    with (d ++ ["templates"] ++ ["deployment.yaml"]).
  rewrite app_assoc, last_last. reflexivity.
Qed.

(** X22. With dry-run off, an apply from a directory that holds a chart as
    the engine saves it never returns, when that chart is not skipped (that
    is, with [force] or with no chart in the target) and the directory lies
    apart from the [deployments] directory of the target: the deployment
    template of the saved chart is refused by the renderer, or an earlier
    step fails. *)
Theorem apply_raises_on_a_saved_chart (n : string) (force : bool) (m : fs) :
  m !! (out ++ ["helm"]) = Some Dir ->
  m !! (out ++ ["helm"; n]) = Some Dir ->
  m !! (out ++ ["helm"; n; "templates"; "deployment.yaml"])
  = Some (File TemplateEngine.deployment_template) ->
  force = true
  \/ has_kind (fst (scan_repository safe_load m target_repo)) "helm" = false ->
  forall results,
    snd (apply_patterns safe_load get_remote_url out target_repo false force m)
    <> Ok results.
Proof using Type Hapart.
  intros Hhelm Hchart Hfile Hgo results Run.
  destruct (apply_patterns safe_load get_remote_url out target_repo false
              force m) as [m' res] eqn:R.
  simpl in Run. subst res. rewrite apply_patterns_loops in R.
  set (ps := fst (scan_repository safe_load m target_repo)) in *.
  apply io_bind_ok in R as (m1 & hs & Rh & _). clear m' results.
  unfold apply_type_dir in Rh.
  unfold PathLib.join, FS.exists_ in Rh. rewrite node_at_snoc, Hhelm in Rh.
  rewrite bool_decide_eq_true_2 in Rh by eauto.
  apply io_bind_ok in Rh as (m2 & entries & Hlist & Rh).
  unfold io_read, FS.iterdir in Hlist. rewrite node_at_snoc, Hhelm in Hlist.
  inversion Hlist. subst m2 entries. clear Hlist.
  set (chart := (out ++ ["helm"]) ++ [n]).
  assert (Hc : out ++ ["helm"; n] = chart)
    by (unfold chart; rewrite <- app_assoc; reflexivity).
  assert (Hf : out ++ ["helm"; n; "templates"; "deployment.yaml"]
               = chart ++ ["templates"; "deployment.yaml"])
    by (unfold chart; rewrite <- !app_assoc; reflexivity).
  rewrite Hc in Hchart. rewrite Hf in Hfile.
  assert (Hout : out `prefix_of` chart)
    by (unfold chart; rewrite <- app_assoc; eexists; reflexivity).
  assert (Hentries : forall y,
            In y (FS.select m (FS.entry_of (out ++ ["helm"]))) ->
            out `prefix_of` y).
  { intros y Hy. apply in_select in Hy as [Hy _].
    etrans; [| apply entry_under, Hy]. eexists. reflexivity. }
  apply (for_each_In_inv (extends out m) _ _ chart) in Rh
    as (ma & mb & r & Hma & Rentry).
  2:{ intros y a Hy Ha. eapply extends_trans; [exact Ha |].
      apply extends_apply_entry, Hentries, Hy. }
  2:{ apply in_select. split; [| rewrite Hchart; eauto].
      unfold FS.entry_of. apply andb_true_iff. split.
      - apply bool_decide_eq_true, parent_snoc.
      - apply negb_true_iff, bool_decide_eq_false. unfold chart.
        intros E. apply app_eq_nil in E as [_ E]. discriminate E. }
  2:{ apply extends_refl. }
  destruct Hma as (Dm & _ & Rm).
  unfold apply_entry in Rentry.
  rewrite (is_dir_lookup ma chart (Dm chart Hchart)) in Rentry.
  apply io_bind_ok in Rentry as (mc & r' & Rchart & _).
  unfold _apply_helm_chart in Rchart.
  assert (Hskip : bool_decide (is_Some (existing_of ps "helm")) && negb force
                  = false).
  { destruct Hgo as [-> | Hnone]; [apply andb_false_r |].
    rewrite existing_of_has_kind. fold ps in Hnone. rewrite Hnone.
    reflexivity. }
  rewrite Hskip in Rchart.
  apply io_bind_ok in Rchart as (md & [] & Hmk & Rchart).
  apply io_bind_ok in Rchart as (md' & files & Hread & Rchart).
  unfold io_read in Hread. inversion Hread. subst md' files. clear Hread.
  apply io_bind_ok in Rchart as (me & [] & Rloop & _).
  assert (Hmd : extends out ma md).
  { pose proof (proj1 (replayable_mkdir_under out target_repo Hapart
                         (target_repo
                          ++ ["deployments"; "helm"; PathLib.name chart])
                         (under_deployments target_repo
                            ["helm"; PathLib.name chart])) ma) as H.
    rewrite Hmk in H. exact H. }
  destruct Hmd as (Dd & _ & Rd).
  set (file := chart ++ ["templates"; "deployment.yaml"]) in *.
  assert (Hunder : out `prefix_of` file).
  { unfold file. etrans; [exact Hout | eexists; reflexivity]. }
  assert (Hfile_md : md !! file = Some (File TemplateEngine.deployment_template)).
  { rewrite <- (Rd file Hunder), <- (Rm file Hunder). exact Hfile. }
  assert (Hall : forall g, In g (FS.rglob md chart (fun _ => true)) ->
                           out `prefix_of` g).
  { intros g Hg. apply in_rglob_below in Hg as [Hg _].
    etrans; [exact Hout | apply below_under, Hg]. }
  apply (for_each__In_inv (extends out md) _ _ file) in Rloop
    as (mf & mg & u & Hmf & Rcopy).
  2:{ intros g a Hg Ha. eapply extends_trans; [exact Ha |].
      apply (replayable_copy_chart_file get_remote_url out target_repo Hapart
               chart (PathLib.name chart) g), Hall, Hg. }
  2:{ unfold FS.rglob.
      rewrite (is_dir_lookup md chart (Dd chart (Dm chart Hchart))).
      apply in_select. split; [| rewrite Hfile_md; eauto].
      rewrite andb_true_r. unfold file. apply below_app. discriminate. }
  2:{ apply extends_refl. }
  destruct Hmf as (_ & _ & Rf).
  assert (Hfile_mf : mf !! file = Some (File TemplateEngine.deployment_template)).
  { rewrite <- (Rf file Hunder). exact Hfile_md. }
  destruct u.
  eapply copy_chart_file_writes in Rcopy as [Hy _]; [| exact Hfile_mf |].
  - destruct Hy as (rendered & Hrender & _);
      [apply deployment_file_suffix |].
    rewrite deployment_template_is_refused in Hrender. discriminate Hrender.
  - unfold file. intros E. apply app_eq_nil in E as [_ E]. discriminate E.
Qed.

End SavedChart.

(** * Saving and the templates returned *)

Section Returned.

Variable safe_load : string -> option yaml.

#[local] Set Default Proof Using "Type".

Lemma create_helm_returns (p : pattern) (output_dir : option path)
    (m m' : fs) (t : template) :
  ptype p = "helm" ->
  _create_helm_template p output_dir m = (m', Ok t) -> t = template_of p.
Proof.
  intros T. unfold _create_helm_template, template_of. rewrite T. simpl.
  destruct output_dir as [out |].
  - intros H. apply io_bind_ok in H as (m1 & d & _ & H).
    apply io_bind_ok in H as (m2 & ? & _ & H).
    apply io_bind_ok in H as (m3 & ? & _ & H).
    unfold io_ret in H. congruence.
  - unfold io_ret. congruence.
Qed.

Lemma create_argocd_returns (p : pattern) (output_dir : option path)
    (m m' : fs) (t : template) :
  String.eqb (ptype p) "helm" = false ->
  _create_argocd_template p output_dir m = (m', Ok t) -> t = template_of p.
Proof.
  intros T. unfold _create_argocd_template, template_of. rewrite T.
  assert (E : ptype p = "argocd")
    by (destruct p; [discriminate T | reflexivity]).
  rewrite E. destruct output_dir as [out |].
  - intros H. apply io_bind_ok in H as (m1 & ? & _ & H).
    apply io_bind_ok in H as (m2 & n & _ & H).
    apply io_bind_ok in H as (m3 & ? & _ & H).
    unfold io_ret in H. congruence.
  - unfold io_ret. congruence.
Qed.

Lemma create_templates_returns (output_dir : option path)
    (patterns : list pattern) :
  forall (m m' : fs) (ts : list template),
    create_templates patterns output_dir m = (m', Ok ts) ->
    ts = List.map template_of patterns.
Proof.
  unfold create_templates.
  induction patterns as [| p ps IH]; intros m m' ts Run; simpl in Run.
  - unfold io_ret in Run. inversion Run. reflexivity.
  - apply io_bind_ok in Run as (m1 & r & Rp & Run).
    apply io_bind_ok in Run as (m2 & rs & Rps & E).
    apply IH in Rps. subst rs. unfold io_ret in E.
    assert (Hr : r = Some (template_of p)).
    { destruct (String.eqb (ptype p) "helm") eqn:T.
      - apply io_bind_ok in Rp as (m3 & t & Rt & Rp).
        apply String.eqb_eq in T.
        apply (create_helm_returns _ _ _ _ _ T) in Rt.
        unfold io_ret in Rp. congruence.
      - assert (T' : String.eqb (ptype p) "argocd" = true)
          by (destruct p; [discriminate T | reflexivity]).
        rewrite T' in Rp.
        apply io_bind_ok in Rp as (m3 & t & Rt & Rp).
        apply (create_argocd_returns _ _ _ _ _ T) in Rt.
        unfold io_ret in Rp. congruence. }
    subst r. simpl. congruence.
Qed.

(** X23. Saving does not change what the engine returns. When
    [create_templates] with an output directory returns, its templates are
    those it returns without one, one for each pattern; so the [scan]
    command, when it returns, reports the patterns of the scan and, with an
    output directory and at least one pattern, as many generated templates
    as patterns. *)
Theorem saving_returns_the_templates_in_memory (repo_path out : path)
    (m : fs) :
  (forall (patterns : list pattern) (m' : fs) (ts : list template),
     create_templates patterns (Some out) m = (m', Ok ts) ->
     create_templates patterns None m = (m, Ok ts)
     /\ length ts = length patterns)
  /\ (forall (m' : fs) (patterns : list pattern) (n : option nat),
        scan safe_load repo_path (Some out) m = (m', Ok (patterns, n)) ->
        patterns = fst (scan_repository safe_load m repo_path)
        /\ n = match patterns with
               | [] => None
               | _ => Some (length patterns)
               end).
Proof.
  split.
  - intros patterns m' ts Run. apply create_templates_returns in Run.
    subst ts. split.
    + apply create_templates_in_memory_are.
    + apply length_map.
  - intros m' patterns n. unfold scan.
    destruct (fst (scan_repository safe_load m repo_path)) as [| p ps] eqn:E.
    + intros H. inversion H. split; reflexivity.
    + intros H. apply io_bind_ok in H as (m1 & ts & Run & H).
      apply create_templates_returns in Run. subst ts.
      unfold io_ret in H. inversion H. subst. split; [reflexivity |].
      rewrite length_map. reflexivity.
Qed.

End Returned.

(** * The further properties on the example repositories *)

Section OnCases.

Import Examples Cases.

(** A run whose result is known is the pair of its final state and that
    result. *)
Lemma run_with_result {A : Type} (comp : io A) (m : fs) (x : A) :
  snd (comp m) = Ok x -> comp m = (fst (comp m), Ok x).
Proof. destruct (comp m) as [m' r]. simpl. intros ->. reflexivity. Qed.

(** The directories above the target [tgt] or the output [out]: there is
    none but the root. *)
Lemma above_single (name : string) (m : fs) (a : path) :
  a `prefix_of` [name] -> a <> [name] -> a <> [] -> m !! a = Some Dir.
Proof.
  intros [k Hk] Hne Hnil. destruct a as [| x [| y a]]; simpl in Hk.
  - contradiction.
  - destruct k; [| discriminate]. congruence.
  - discriminate.
Qed.

Lemma upto_single (name : string) (m : fs) (a : path) :
  m !! [name] = Some Dir ->
  a `prefix_of` [name] -> a <> [] -> m !! a = Some Dir.
Proof.
  intros Hm [k Hk] Hnil. destruct a as [| x [| y a]]; simpl in Hk.
  - contradiction.
  - injection Hk as -> _. exact Hm.
  - discriminate.
Qed.

Ltac not_a_prefix := let k := fresh in let H := fresh in
                     intros [k H]; discriminate H.

Ltac plain_names :=
  repeat (constructor; [eexists; split; reflexivity |]); constructor.

(** ** Scans *)

Lemma scan_of_empty_repository_witness :
  scan_repository loader empty_target ["tgt"] = ([], []).
Proof.
  apply (scan_of_empty_repository loader empty_target ["tgt"]).
  intros q Hq. apply andb_true_iff in Hq as [_ Hne].
  apply negb_true_iff, bool_decide_eq_false in Hne.
  unfold empty_target. simpl.
  rewrite lookup_insert_ne by exact Hne. apply lookup_empty.
Defined.

Lemma charts_on_excluded_paths_are_passed_over_witness :
  helm_detect loader hidden_repository [".cache"; "repo"] = ([], [])
  /\ ~ excluding "deployments".
Proof.
  split.
  - apply (proj2 (charts_on_excluded_paths_are_passed_over loader
                    hidden_repository [".cache"; "repo"]) ".cache").
    + simpl. left. reflexivity.
    + left. reflexivity.
  - apply (proj1 (charts_on_excluded_paths_are_passed_over loader
                    source_and_empty_target ["src"]) demo_chart_pattern).
    + vm_compute. left. reflexivity.
    + simpl. right. left. reflexivity.
Defined.

Lemma scanned_patterns_come_from_files_witness :
  (ptype demo_manifest_pattern = "helm"
   /\ PathLib.below ["repo"]
        (PathLib.join (ppath demo_manifest_pattern) "Chart.yaml") = true
   /\ exists text,
        two_applications !! PathLib.join (ppath demo_manifest_pattern)
                              "Chart.yaml"
        = Some (File text))
  \/ (ptype demo_manifest_pattern = "argocd"
      /\ exists f text,
           pconfigs demo_manifest_pattern = [f]
           /\ ppath demo_manifest_pattern = PathLib.parent f
           /\ PathLib.below ["repo"] f = true
           /\ Py.endswith (PathLib.name f) ".yaml" = true
           /\ two_applications !! f = Some (File text)
           /\ _is_argocd_app loader two_applications f = true).
Proof.
  apply (scanned_patterns_come_from_files loader two_applications ["repo"]
           demo_manifest_pattern).
  vm_compute. left. reflexivity.
Defined.

Lemma scanned_chart_fields_witness :
  exists text doc kvs,
    FS.read_text tagged_chart ["repo"; "chart"; "Chart.yaml"] = Ok text
    /\ loader text = Some doc
    /\ Yaml.or_empty doc = YMap kvs
    /\ tagged_chart_pattern
       = HelmPattern
           (default (YStr "chart") (Yaml.lookup kvs "name"))
           ["repo"; "chart"]
           (default (YStr "0.1.0") (Yaml.lookup kvs "version"))
           (if FS.exists_ tagged_chart ["repo"; "chart"; "values.yaml"]
            then [["repo"; "chart"; "values.yaml"]] else [])
           (if FS.exists_ tagged_chart ["repo"; "chart"; "templates"]
            then Some (length (FS.glob tagged_chart
                                 ["repo"; "chart"; "templates"]
                                 (fun n => Py.endswith n ".yaml")))
            else None).
Proof.
  apply (scanned_chart_fields loader tagged_chart ["repo"]
           tagged_chart_pattern).
  - vm_compute. left. reflexivity.
  - reflexivity.
Defined.

Lemma scanned_application_fields_witness :
  exists f text doc kvs md spec helm,
    FS.read_text two_applications f = Ok text
    /\ loader text = Some doc
    /\ Yaml.or_empty doc = YMap kvs
    /\ default (YMap []) (Yaml.lookup kvs "metadata") = YMap md
    /\ default (YMap []) (Yaml.lookup kvs "spec") = YMap spec
    /\ Yaml.has (default (YMap []) (Yaml.lookup spec "source")) "helm" = Ok helm
    /\ demo_manifest_pattern
       = ArgoPattern
           (default (YStr (PathLib.stem f)) (Yaml.lookup md "name"))
           (PathLib.parent f) [f]
           (if helm : bool then "helm" else "kustomize").
Proof.
  apply (scanned_application_fields loader two_applications ["repo"]
           demo_manifest_pattern).
  - vm_compute. left. reflexivity.
  - reflexivity.
Defined.

(** ** Parameters of an application *)

Lemma application_parameters_from_destination_and_source_witness :
  _extract_argocd_parameters loader empty_target demo_manifest_pattern
  = Ok {| ArgoParams.appName := YStr "demo";
          ArgoParams.namespace := YStr "argocd";
          ArgoParams.project := YStr "default";
          ArgoParams.repoURL := YStr "";
          ArgoParams.targetRevision := YStr "HEAD";
          ArgoParams.path := YStr "" |}
  /\ _extract_argocd_parameters loader two_applications
       (ArgoPattern (YStr "billing") ["repo"; "argocd"]
          [["repo"; "argocd"; "billing.yaml"]] "kustomize")
     = Ok {| ArgoParams.appName := YStr "billing";
             ArgoParams.namespace := YStr "argocd";
             ArgoParams.project := YStr "default";
             ArgoParams.repoURL := YStr "";
             ArgoParams.targetRevision := YStr "HEAD";
             ArgoParams.path := YStr "" |}
  /\ _extract_argocd_parameters loader two_applications demo_manifest_pattern
     = Ok {| ArgoParams.appName := YStr "demo";
             ArgoParams.namespace := YStr "argocd";
             ArgoParams.project := YStr "default";
             ArgoParams.repoURL := YStr "https://x/demo";
             ArgoParams.targetRevision := YStr "HEAD";
             ArgoParams.path := YStr "deployments/helm/demo" |}.
Proof.
  destruct (application_parameters_from_destination_and_source loader)
    as (_ & Habsent & Hbare & Hspec).
  split; [| split].
  - apply (Habsent empty_target demo_manifest_pattern).
    repeat constructor.
  - apply (Hbare two_applications
             (ArgoPattern (YStr "billing") ["repo"; "argocd"]
                [["repo"; "argocd"; "billing.yaml"]] "kustomize")
             ["repo"; "argocd"; "billing.yaml"] billing_app
             (YMap [(YStr "apiVersion", YStr "argoproj.io/v1alpha1");
                    (YStr "kind", YStr "Application");
                    (YStr "metadata", YMap [(YStr "name", YStr "billing")])])
             [(YStr "apiVersion", YStr "argoproj.io/v1alpha1");
              (YStr "kind", YStr "Application");
              (YStr "metadata", YMap [(YStr "name", YStr "billing")])]);
      vm_compute; reflexivity.
  - apply (Hspec two_applications demo_manifest_pattern
             ["repo"; "argocd"; "demo.yaml"] demo_app
             (YMap [(YStr "apiVersion", YStr "argoproj.io/v1alpha1");
                    (YStr "kind", YStr "Application");
                    (YStr "metadata", YMap [(YStr "name", YStr "demo")]);
                    (YStr "spec",
                     YMap [(YStr "source",
                            YMap [(YStr "repoURL", YStr "https://x/demo");
                                  (YStr "path",
                                   YStr "deployments/helm/demo")])])])
             [(YStr "apiVersion", YStr "argoproj.io/v1alpha1");
              (YStr "kind", YStr "Application");
              (YStr "metadata", YMap [(YStr "name", YStr "demo")]);
              (YStr "spec",
               YMap [(YStr "source",
                      YMap [(YStr "repoURL", YStr "https://x/demo");
                            (YStr "path", YStr "deployments/helm/demo")])])]
             [(YStr "source",
               YMap [(YStr "repoURL", YStr "https://x/demo");
                     (YStr "path", YStr "deployments/helm/demo")])]);
      try (vm_compute; reflexivity).
    + intros d Hd. vm_compute in Hd. discriminate Hd.
    + intros s Hs. vm_compute in Hs. injection Hs as <-. eexists. reflexivity.
Defined.

Lemma analysis_of_a_scanned_application_witness :
  (exists params,
     analyze_pattern loader two_applications demo_manifest_pattern
     = Ok {| Analysis.type := "argocd";
             Analysis.parameters := ArgoParameters params;
             Analysis.structure := [] |}
     /\ ArgoParams.appName params = pname demo_manifest_pattern)
  \/ analyze_pattern loader two_applications demo_manifest_pattern
     = Raise AttributeError.
Proof.
  apply (analysis_of_a_scanned_application loader two_applications ["repo"]
           demo_manifest_pattern).
  - vm_compute. left. reflexivity.
  - reflexivity.
Defined.

(** ** The template engine *)

Lemma absolute_chart_name_replaces_the_target_witness :
  _apply_helm_template absolute_template ["tgt"] ∅ true empty_target
  = (empty_target,
     Ok {| pattern_id := "helm//srv/demo"; status := would_apply;
           message := "Would create Helm chart at /srv/demo" |}).
Proof.
  apply (proj1 (proj2 (absolute_chart_name_replaces_the_target "/srv/demo"
                         eq_refl))
           absolute_template ["tgt"] ∅ empty_target).
  - reflexivity.
  - reflexivity.
Defined.

Lemma plain_text_renders_without_its_last_line_feed_witness :
  render_template tagged_values ∅
  = Ok "image:
  tag: v2".
Proof.
  apply (plain_text_renders_without_its_last_line_feed "image:
  tag: v2" ∅).
  intros c Hc. simpl in Hc.
  repeat (destruct Hc as [<- | Hc]; [split; discriminate |]).
  destruct Hc.
Defined.

Lemma replicated_application_is_made_of_the_target_witness :
  exists name,
    format_value (YStr "demo") = Ok name
    /\ fst (_apply_argocd_template demo_argocd_template ["tgt"]
              (_extract_variables_for_repo no_remote ["tgt"]) false
              empty_target)
       !! PathLib.joinstr ["tgt"; "deployments"; "argocd"]
            (name ++ "-application.yaml")
       = Some (File (rendered_application "tgt"
                       (repo_url_of no_remote ["tgt"]))).
Proof.
  apply (replicated_application_is_made_of_the_target no_remote
           demo_manifest_pattern ["tgt"] demo_argocd_template
           two_applications two_applications empty_target _
           {| pattern_id := "argocd/demo"; status := applied;
              message := "Created ArgoCD application at /tgt/deployments/argocd/demo-application.yaml" |}).
  - reflexivity.
  - vm_compute. reflexivity.
  - apply run_with_result. vm_compute. reflexivity.
Defined.

Lemma saved_templates_layout_witness :
  (fst (create_templates [demo_chart_pattern; demo_application_pattern]
          (Some ["out"]) empty_target)
   !! ["out"; "helm"; "demo"; "Chart.yaml"]
   = Some (File TemplateEngine.chart_template)
   /\ fst (create_templates [demo_chart_pattern; demo_application_pattern]
             (Some ["out"]) empty_target)
      !! ["out"; "helm"; "demo"; "values.yaml"]
      = Some (File TemplateEngine.values_template)
   /\ fst (create_templates [demo_chart_pattern; demo_application_pattern]
             (Some ["out"]) empty_target)
      !! ["out"; "helm"; "demo"; "templates"; "deployment.yaml"]
      = Some (File TemplateEngine.deployment_template))
  /\ fst (create_templates [demo_chart_pattern; demo_application_pattern]
            (Some ["out"]) empty_target)
     !! ["out"; "argocd"; "demo-application.yaml"]
     = Some (File TemplateEngine.app_template).
Proof.
  assert (Hrun : create_templates [demo_chart_pattern; demo_application_pattern]
                   (Some ["out"]) empty_target
                 = (fst (create_templates
                           [demo_chart_pattern; demo_application_pattern]
                           (Some ["out"]) empty_target),
                    Ok [demo_helm_template; demo_argocd_template])).
  { apply run_with_result. vm_compute. reflexivity. }
  assert (Hnames : Forall (fun p => exists n, pname p = YStr n
                                              /\ plain_name n = true)
                     [demo_chart_pattern; demo_application_pattern])
    by plain_names.
  split.
  - apply (saved_templates_layout _ _ _ _ _ Hnames Hrun demo_chart_pattern
             "demo").
    + left. reflexivity.
    + reflexivity.
  - apply (saved_templates_layout _ _ _ _ _ Hnames Hrun
             demo_application_pattern "demo").
    + right. left. reflexivity.
    + reflexivity.
Defined.

Lemma saved_templates_come_back_from_a_dry_apply_witness :
  In {| pattern_id := "helm/demo"; status := would_apply;
        message := "Would create Helm chart at /tgt/deployments/helm/demo" |}
    [{| pattern_id := "helm/demo"; status := would_apply;
        message := "Would create Helm chart at /tgt/deployments/helm/demo" |};
     {| pattern_id := "argocd/demo"; status := would_apply;
        message := "Would create ArgoCD app at /tgt/deployments/argocd/demo-application.yaml" |}].
Proof.
  assert (Hrun : create_templates [demo_chart_pattern; demo_application_pattern]
                   (Some ["out"]) empty_target
                 = (fst (create_templates
                           [demo_chart_pattern; demo_application_pattern]
                           (Some ["out"]) empty_target),
                    Ok [demo_helm_template; demo_argocd_template])).
  { apply run_with_result. vm_compute. reflexivity. }
  assert (Hnames : Forall (fun p => exists n, pname p = YStr n
                                              /\ plain_name n = true)
                     [demo_chart_pattern; demo_application_pattern])
    by plain_names.
  apply (saved_templates_come_back_from_a_dry_apply loader no_remote
           _ ["out"] ["tgt"] _ _ _ _ Hnames Hrun) with
    (p := demo_chart_pattern) (n := "demo").
  - vm_compute. reflexivity.
  - left. reflexivity.
  - reflexivity.
Defined.

Lemma saving_returns_the_templates_in_memory_witness :
  create_templates [demo_chart_pattern; demo_application_pattern] None
    empty_target
  = (empty_target, Ok [demo_helm_template; demo_argocd_template])
  /\ length [demo_helm_template; demo_argocd_template]
     = length [demo_chart_pattern; demo_application_pattern].
Proof.
  apply (proj1 (saving_returns_the_templates_in_memory loader ["src"] ["out"]
                  empty_target)
           [demo_chart_pattern; demo_application_pattern]
           (fst (create_templates [demo_chart_pattern; demo_application_pattern]
                   (Some ["out"]) empty_target))).
  apply run_with_result. vm_compute. reflexivity.
Defined.

(** ** Replication *)

Lemma replicate_raises_when_the_source_has_a_chart_witness :
  snd (replicate loader no_remote ["src"] ["tgt"] false
         source_and_empty_target)
  <> Ok (Some []).
Proof.
  apply (replicate_raises_when_the_source_has_a_chart loader no_remote
           source_and_empty_target ["src"] ["tgt"] demo_chart_pattern).
  - vm_compute. left. reflexivity.
  - reflexivity.
Defined.

Lemma replicate_summary_never_counts_skipped_witness :
  0 = 0
  /\ 2 = length (fst (scan_repository loader two_applications ["repo"])).
Proof.
  apply (replicate_summary_never_counts_skipped loader no_remote ["repo"]
           ["tgt"] false two_applications
           (fst (replicate_summary loader no_remote ["repo"] ["tgt"] false
                   two_applications))
           2 0).
  apply run_with_result. vm_compute. reflexivity.
Defined.

Lemma replicate_changes_nothing_outside_deployments_witness :
  fst (replicate loader no_remote ["src"] ["tgt"] false
         source_and_empty_target)
    !! ["src"; "deployments"; "helm"; "demo"; "Chart.yaml"]
  = source_and_empty_target
      !! ["src"; "deployments"; "helm"; "demo"; "Chart.yaml"].
Proof.
  apply (replicate_changes_nothing_outside_deployments loader no_remote
           ["tgt"] ["src"] false source_and_empty_target).
  - replace (fst (scan_repository loader source_and_empty_target ["src"]))
      with [demo_chart_pattern; demo_application_pattern]
      by (vm_compute; reflexivity).
    plain_names.
  - intros a. apply upto_single. vm_compute. reflexivity.
  - not_a_prefix.
Defined.

(** ** Applying a template directory *)

Lemma apply_changes_nothing_outside_deployments_witness :
  fst (apply_patterns loader no_remote ["tpl"] ["tgt"] false false
         project_template_and_empty_target)
    !! ["tpl"; "argocd"; "project.yaml"]
  = project_template_and_empty_target !! ["tpl"; "argocd"; "project.yaml"].
Proof.
  apply (apply_changes_nothing_outside_deployments loader no_remote ["tgt"]
           ["tpl"] false false project_template_and_empty_target).
  - intros a. apply upto_single. vm_compute. reflexivity.
  - not_a_prefix.
Defined.

Lemma applied_chart_mirrors_the_template_witness :
  exists out,
    Jinja.render demo_chart (_extract_variables_for_repo no_remote ["tgt"])
    = Ok out
    /\ fst (_apply_helm_chart no_remote ["tpl"; "helm"; "demo"] ["tgt"] None
              false false chart_template_and_charted_target)
       !! ["tgt"; "deployments"; "helm"; "demo"; "Chart.yaml"]
       = Some (File out).
Proof.
  assert (Hrun : _apply_helm_chart no_remote ["tpl"; "helm"; "demo"] ["tgt"]
                   None false false chart_template_and_charted_target
                 = (fst (_apply_helm_chart no_remote ["tpl"; "helm"; "demo"]
                           ["tgt"] None false false
                           chart_template_and_charted_target),
                    Ok {| pattern_id := "helm/demo"; status := applied;
                          message := "Created Helm chart at /tgt/deployments/helm/demo" |})).
  { apply run_with_result. vm_compute. reflexivity. }
  assert (Hapart : apart ["tpl"; "helm"; "demo"] (["tgt"] ++ ["deployments"]))
    by (split; not_a_prefix).
  apply (applied_chart_mirrors_the_template no_remote ["tgt"]
           ["tpl"; "helm"; "demo"] None false
           chart_template_and_charted_target _ _ Hapart eq_refl Hrun eq_refl
           ["tpl"; "helm"; "demo"; "Chart.yaml"] demo_chart).
  - vm_compute. reflexivity.
  - vm_compute. reflexivity.
  - reflexivity.
Defined.

Lemma applied_application_is_the_rendered_template_witness :
  exists c out,
    project_template_and_empty_target !! ["tpl"; "argocd"; "project.yaml"]
    = Some (File c)
    /\ Jinja.render c (_extract_variables_for_repo no_remote ["tgt"]) = Ok out
    /\ fst (_apply_argocd_app no_remote ["tpl"; "argocd"; "project.yaml"]
              ["tgt"] None false false project_template_and_empty_target)
       !! ["tgt"; "deployments"; "argocd"; "project.yaml"]
       = Some (File out)
    /\ "argocd/project"
       = ("argocd/" ++ Py.remove_all "-application" "project")%string.
Proof.
  apply (applied_application_is_the_rendered_template no_remote ["tgt"]
           ["tpl"; "argocd"; "project.yaml"] None false
           project_template_and_empty_target _
           {| pattern_id := "argocd/project"; status := applied;
              message := "Created ArgoCD application at /tgt/deployments/argocd/project.yaml" |}).
  - apply run_with_result. vm_compute. reflexivity.
  - reflexivity.
Defined.

Lemma apply_raises_on_a_saved_chart_witness :
  snd (apply_patterns loader no_remote ["out"] ["tgt"] false true
         saved_chart_and_empty_target)
  <> Ok [].
Proof.
  assert (Hapart : apart ["out"] (["tgt"] ++ ["deployments"]))
    by (split; not_a_prefix).
  apply (apply_raises_on_a_saved_chart loader no_remote ["out"] ["tgt"]
           Hapart "demo" true saved_chart_and_empty_target).
  - vm_compute. reflexivity.
  - vm_compute. reflexivity.
  - vm_compute. reflexivity.
  - left. reflexivity.
Defined.

(** ** The [scan] command *)

Lemma scan_writes_only_under_the_output_witness :
  fst (scan loader ["src"] (Some ["out"]) source_and_empty_target)
    !! ["src"; "deployments"; "helm"; "demo"; "Chart.yaml"]
  = source_and_empty_target
      !! ["src"; "deployments"; "helm"; "demo"; "Chart.yaml"].
Proof.
  apply (proj2 (proj2 (scan_writes_only_under_the_output loader ["out"]
                         ["src"] source_and_empty_target))).
  - replace (fst (scan_repository loader source_and_empty_target ["src"]))
      with [demo_chart_pattern; demo_application_pattern]
      by (vm_compute; reflexivity).
    plain_names.
  - intros a. apply above_single.
  - not_a_prefix.
Defined.

End OnCases.
